(** * ClaudeBar: API client, auth manager and polling loop

    A shallow embedding of the Go packages [internal/api] (client.go,
    auth.go, the usage types), [internal/config] and the polling part of
    [internal/app] (app.go), followed by the properties of the
    specification that are settled on it.

    Conventions of the embedding.
    - Go's [int] and [time.Duration] are 64-bit: they are integers of [Z]
      with the wrap-around written out ([GoInt.wrap]); a shift by a
      negative count panics, which [GoInt.shl] reports as [None].
    - [float64] is Rocq's primitive binary64 [float]; [>=], [>] and [<] of
      Go are [PrimFloat.leb] and [PrimFloat.ltb] with the arguments in the
      matching order.
    - Everything outside the repository is an oracle.  Pure library
      functions ([encoding/json], [time.Parse], [http.NewRequest]) are the
      fields of [Extern]; the network, the wall clock, the disk behind the
      configuration file and the browser cookie stores are the fields of
      [World], each indexed by the number of calls made so far.
    - Effects are threaded through one state monad [St].  Externally
      visible actions (HTTP requests, sleeps, overlay and tray updates,
      notifications, configuration saves) are appended to [trace] in the
      order in which they happen.  Calls to [log.Printf] are not recorded.
    - The mutexes of [Client] and [App] are not modelled: the embedding is
      of one goroutine running these functions to completion. *)

From Stdlib Require Import ZArith List String Ascii Bool Lia Floats DecimalString.
Import ListNotations.
Local Open Scope Z_scope.

(** ** Machine integers *)

Module GoInt.

Definition wrap (z : Z) : Z := (z + 2 ^ 63) mod 2 ^ 64 - 2 ^ 63.

Definition max_int : Z := 2 ^ 63 - 1.

Definition add (x y : Z) : Z := wrap (x + y).
Definition sub (x y : Z) : Z := wrap (x - y).
Definition mul (x y : Z) : Z := wrap (x * y).

(** [x << n]: a run-time panic when the count is negative. *)
Definition shl (x n : Z) : option Z :=
  if n <? 0 then None else Some (wrap (Z.shiftl x n)).

(** [%d] of [fmt]. *)
Definition format (z : Z) : string := NilZero.string_of_int (Z.to_int z).

End GoInt.

(** ** The order of binary64

    The comparisons of [float] are specified through [SFcompare] on
    [spec_float].  [sf_key] sends every number that is not a NaN to a key
    in a lexicographic order on which [SFcompare] is the comparison. *)

Module F64.

Definition key : Type := (Z * Z * Z)%type.

Definition sf_key (f : spec_float) : option key :=
  match f with
  | S754_nan => None
  | S754_infinity true => Some (-2, 0, 0)
  | S754_infinity false => Some (2, 0, 0)
  | S754_zero _ => Some (0, 0, 0)
  | S754_finite true m e => Some (-1, - e, Z.neg m)
  | S754_finite false m e => Some (1, e, Z.pos m)
  end.

Definition key_lt (a b : key) : Prop :=
  let '(a1, a2, a3) := a in
  let '(b1, b2, b3) := b in
  a1 < b1 \/ (a1 = b1 /\ (a2 < b2 \/ (a2 = b2 /\ a3 < b3))).

Definition fkey (x : float) : option key := sf_key (Prim2SF x).

(** [x] is not a NaN. *)
Definition ordered (x : float) : Prop := (x =? x)%float = true.

(** The comparisons of two floats, read on their keys. *)
Definition lt_keys (a b : option key) : Prop :=
  match a, b with Some ka, Some kb => key_lt ka kb | _, _ => False end.

Definition le_keys (a b : option key) : Prop :=
  match a, b with Some ka, Some kb => key_lt ka kb \/ ka = kb | _, _ => False end.

Definition eq_keys (a b : option key) : Prop :=
  match a, b with Some ka, Some kb => ka = kb | _, _ => False end.

End F64.

(** ** Packages outside the repository *)

Module golib.

(** [time.Time], as an instant; [zeroTime] is [time.Time{}]. *)
Definition Time : Type := Z.
Definition zeroTime : Time := 0.

(** [time.Duration], in nanoseconds. *)
Definition Second : Z := 1000000000.

(** What of an [http.Request] varies in this program: the URL and the
    [Cookie] header (the other headers are constants). *)
Record Request : Type := mkRequest {
  req_method : string;
  req_url : string;
  req_cookie : string
}.

(** One round trip: [httpClient.Do] fails, or it returns a response whose
    body cannot be read to its end, or status and body arrive. *)
Inductive HttpOutcome : Type :=
| DoError (msg : string)
| ReadError (status : Z) (msg : string)
| Response (status : Z) (body : string).

End golib.
Import golib.

(** ** Package [config] *)

Module config.

(** Modelled from the spec: the [Config] struct under src/ has no
    [AlertThresholds] and no [NotificationsEnabled], which app.go reads;
    they are the fields [AlertThresholds] ([[]float64]) and
    [NotificationsEnabled] ([bool]) that the Credential Store interface
    of the specification lists.  The fields of the struct that the
    modelled code never reads are left out. *)
Record Config : Type := mkConfig {
  SessionKey : string;
  OrganizationID : string;
  RefreshInterval : Z;
  AlertThresholds : list float;
  NotificationsEnabled : bool
}.

Definition with_SessionKey (key : string) (c : Config) : Config :=
  {| SessionKey := key;
     OrganizationID := OrganizationID c;
     RefreshInterval := RefreshInterval c;
     AlertThresholds := AlertThresholds c;
     NotificationsEnabled := NotificationsEnabled c |}.

Definition with_OrganizationID (id : string) (c : Config) : Config :=
  {| SessionKey := SessionKey c;
     OrganizationID := id;
     RefreshInterval := RefreshInterval c;
     AlertThresholds := AlertThresholds c;
     NotificationsEnabled := NotificationsEnabled c |}.

End config.

(** ** Data of package [api] *)

Module types.

Record UsageStat : Type := mkUsageStat {
  Utilization : float;
  ResetsAt : Time;
  Label : string
}.

Record UsageData : Type := mkUsageData {
  FiveHour : UsageStat;
  SevenDay : UsageStat;
  SevenDayOpus : UsageStat;
  SevenDaySonnet : UsageStat;
  LastUpdated : Time
}.

Record OrganizationInfo : Type := mkOrganizationInfo {
  ID : string;
  Name : string
}.

(** [UsageMetric]: one metric as the API sends it. *)
Record UsageMetric : Type := mkUsageMetric {
  metric_Utilization : float;
  metric_ResetsAt : string
}.

(** [UsageAPIResponse]: the four pointers, [nil] being [None]. *)
Record UsageAPIResponse : Type := mkUsageAPIResponse {
  resp_FiveHour : option UsageMetric;
  resp_SevenDay : option UsageMetric;
  resp_SevenDayOpus : option UsageMetric;
  resp_SevenDaySonnet : option UsageMetric
}.

(** [APIError] and its two nested anonymous structs. *)
Record APIErrorDetails : Type := mkAPIErrorDetails {
  ErrorCode : string
}.

Record APIErrorBody : Type := mkAPIErrorBody {
  error_Type : string;
  Message : string;
  Details : APIErrorDetails
}.

Record APIError : Type := mkAPIError {
  Type_ : string;
  Error : APIErrorBody
}.

(** The error values of the program.  The first seven are the package
    variables made with [errors.New] and compared by identity. *)
Inductive error : Type :=
| ErrNoSessionKey
| ErrNoOrgID
| ErrUnauthorized
| ErrSessionExpired
| ErrRateLimited
| ErrAPIUnavailable
| ErrAuthFailed
| ErrNoOrganizations                     (* "no organizations found" *)
| ErrOrgsStatus (code : Z)               (* "unexpected status code: %d" *)
| ErrUsageStatus (code : Z)              (* "usage endpoint returned: %d" *)
| ErrUsageParse (cause : string)         (* "failed to parse usage response: %w" *)
| ErrExternal (msg : string).            (* an error made outside the repository *)

Definition error_eqb (a b : error) : bool :=
  match a, b with
  | ErrNoSessionKey, ErrNoSessionKey
  | ErrNoOrgID, ErrNoOrgID
  | ErrUnauthorized, ErrUnauthorized
  | ErrSessionExpired, ErrSessionExpired
  | ErrRateLimited, ErrRateLimited
  | ErrAPIUnavailable, ErrAPIUnavailable
  | ErrAuthFailed, ErrAuthFailed
  | ErrNoOrganizations, ErrNoOrganizations => true
  | ErrOrgsStatus x, ErrOrgsStatus y => x =? y
  | ErrUsageStatus x, ErrUsageStatus y => x =? y
  | ErrUsageParse x, ErrUsageParse y => String.eqb x y
  | ErrExternal x, ErrExternal y => String.eqb x y
  | _, _ => false
  end.

(** [errors.Is err target]: [err] or an error it wraps is [target]. *)
Definition errors_Is (err target : error) : bool :=
  match err with
  | ErrUsageParse cause =>
      error_eqb err target || error_eqb (ErrExternal cause) target
  | _ => error_eqb err target
  end.

(** The pure functions of the Go libraries that the client calls. *)
Record Extern : Type := mkExtern {
  (** [http.NewRequest "GET" url nil]: [Some msg] when it refuses the URL. *)
  http_NewRequest_err : string -> option string;
  (** [json.Unmarshal body &apiErr]: [None] when it returns an error. *)
  json_Unmarshal_APIError : string -> option APIError;
  (** [json.Unmarshal body &orgs]: the slice it leaves, or its error.  A
      nil slice (the body [null]) is [[]] like an empty one: the callers
      read [len(orgs)] only. *)
  json_Unmarshal_orgs : string -> list OrganizationInfo + string;
  json_Unmarshal_usage : string -> UsageAPIResponse + string;
  (** [time.Parse layout value]. *)
  time_Parse : string -> string -> option Time
}.

End types.
Import types.

(** ** The state of the program and of its surroundings *)

Module state.

Inductive Event : Type :=
| EvRequest (r : Request)
| EvSleep (d : Z)
| EvStatus (text : string)
| EvOverlayUsage (u : UsageData)
| EvTrayUsage (u : UsageData)
| EvNotify (title : string) (utilization crossed : float)
| EvConfigSave (c : config.Config) (err : option string).

Record World : Type := mkWorld {
  net : nat -> Request -> HttpOutcome;   (* the answer to the n-th request *)
  sent : nat;
  clock : nat -> Time;                   (* the n-th reading of time.Now *)
  readings : nat;
  disk : nat -> option string;           (* the error of the n-th Save *)
  saves : nat;
  browser : nat -> string + string;      (* the n-th ExtractSessionKey *)
  extractions : nat;
  trace : list Event
}.

(** [api.Client] without its HTTP client and its lock. *)
Record Client : Type := mkClient {
  sessionKey : string;
  organizationID : string;
  lastUsage : option UsageData;
  lastFetch : Time
}.

(** The state fields of [app.App]. *)
Record App : Type := mkApp {
  consecutiveErrors : Z;
  rateLimitBackoff : Z;
  lastSessionThreshold : float;
  lastWeeklyThreshold : float
}.

Record State : Type := mkState {
  client : Client;
  config : config.Config;
  app : App;
  world : World
}.

Definition with_client (f : Client -> Client) (st : State) : State :=
  {| client := f (client st); config := config st;
     app := app st; world := world st |}.

Definition with_config (f : config.Config -> config.Config) (st : State) : State :=
  {| client := client st; config := f (config st);
     app := app st; world := world st |}.

Definition with_app (f : App -> App) (st : State) : State :=
  {| client := client st; config := config st;
     app := f (app st); world := world st |}.

Definition with_world (f : World -> World) (st : State) : State :=
  {| client := client st; config := config st;
     app := app st; world := f (world st) |}.

Definition emit (e : Event) (w : World) : World :=
  {| net := net w; sent := sent w; clock := clock w; readings := readings w;
     disk := disk w; saves := saves w; browser := browser w;
     extractions := extractions w; trace := trace w ++ [e] |}.

(** *** The state monad *)

Definition St (A : Type) : Type := State -> A * State.

Definition ret {A : Type} (a : A) : St A := fun st => (a, st).

Definition bind {A B : Type} (m : St A) (k : A -> St B) : St B :=
  fun st => let '(a, st') := m st in k a st'.

Definition gets {A : Type} (f : State -> A) : St A := fun st => (f st, st).

Definition modify (f : State -> State) : St unit := fun st => (tt, f st).

Definition event (e : Event) : St unit := modify (with_world (emit e)).

(** [time.Sleep d]. *)
Definition sleep (d : Z) : St unit := event (EvSleep d).

(** [time.Now ()]. *)
Definition now : St Time :=
  fun st =>
    let w := world st in
    (clock w (readings w),
     with_world (fun w =>
       {| net := net w; sent := sent w; clock := clock w;
          readings := S (readings w);
          disk := disk w; saves := saves w; browser := browser w;
          extractions := extractions w; trace := trace w |}) st).

(** [httpClient.Do req] followed by [io.ReadAll resp.Body]. *)
Definition roundTrip (req : Request) : St HttpOutcome :=
  fun st =>
    let w := world st in
    (net w (sent w) req,
     with_world (fun w =>
       {| net := net w; sent := S (sent w); clock := clock w;
          readings := readings w;
          disk := disk w; saves := saves w; browser := browser w;
          extractions := extractions w;
          trace := trace w ++ [EvRequest req] |}) st).

(** [cookieExtractor.ExtractSessionKey ()]. *)
Definition ExtractSessionKey : St (string + string) :=
  fun st =>
    let w := world st in
    (browser w (extractions w),
     with_world (fun w =>
       {| net := net w; sent := sent w; clock := clock w;
          readings := readings w;
          disk := disk w; saves := saves w; browser := browser w;
          extractions := S (extractions w); trace := trace w |}) st).

End state.
Import state.

Declare Scope st_scope.
Delimit Scope st_scope with st.
Notation "x <- m ;; k" := (bind m (fun x => k))
  (at level 61, m at next level, right associativity) : st_scope.
Notation "m ;;; k" := (bind m (fun _ => k))
  (at level 61, right associativity) : st_scope.

(** ** Methods of [*config.Config]

    The program has one [Config], the singleton of [config.Get], shared by
    the auth manager and the application. *)

Module cfg.
Local Open Scope st_scope.

(** [Save]: the path lookup, the encoding and the write are one call of
    the disk oracle, which yields the error [Save] returns. *)
Definition Save : St (option string) :=
  fun st =>
    let w := world st in
    let err := disk w (saves w) in
    (err,
     with_world (fun w =>
       {| net := net w; sent := sent w; clock := clock w;
          readings := readings w;
          disk := disk w; saves := S (saves w); browser := browser w;
          extractions := extractions w;
          trace := trace w ++ [EvConfigSave (config st) err] |}) st).

Definition SetSessionKey (key : string) : St (option string) :=
  modify (with_config (config.with_SessionKey key)) ;;;
  Save.

Definition SetOrganizationID (id : string) : St (option string) :=
  modify (with_config (config.with_OrganizationID id)) ;;;
  Save.

End cfg.

(** ** Package [api]: the client (client.go) *)

Module api.
Local Open Scope st_scope.
Local Open Scope string_scope.

Definition baseURL : string := "https://claude.ai".

Definition SetSessionKey (key : string) : St unit :=
  modify (with_client (fun c =>
    {| sessionKey := key; organizationID := organizationID c;
       lastUsage := lastUsage c; lastFetch := lastFetch c |})).

Definition SetOrganizationID (id : string) : St unit :=
  modify (with_client (fun c =>
    {| sessionKey := sessionKey c; organizationID := id;
       lastUsage := lastUsage c; lastFetch := lastFetch c |})).

Definition GetSessionKey : St string := gets (fun st => sessionKey (client st)).

Definition GetOrganizationID : St string :=
  gets (fun st => organizationID (client st)).

Definition HasCredentials : St bool :=
  gets (fun st =>
    negb (sessionKey (client st) =? "") && negb (organizationID (client st) =? "")).

Definition GetLastUsage : St (option UsageData) :=
  gets (fun st => lastUsage (client st)).

Definition GetLastFetchTime : St Time := gets (fun st => lastFetch (client st)).

(** The write under [c.mu.Lock] at the end of [fetchUsageOnce]. *)
Definition setLast (usage : UsageData) (t : Time) : St unit :=
  modify (with_client (fun c =>
    {| sessionKey := sessionKey c; organizationID := organizationID c;
       lastUsage := Some usage; lastFetch := t |})).

(** [setHeaders]: the [Cookie] header that it sets on the request. *)
Definition setHeaders (req : Request) (sessionKey : string) : Request :=
  {| req_method := req_method req;
     req_url := req_url req;
     req_cookie :=
       if String.prefix "sk-ant-" sessionKey
       then "sessionKey=" ++ sessionKey
       else sessionKey |}.

(** [http.NewRequest "GET" url nil] once the URL is accepted. *)
Definition newGET (url : string) : Request :=
  {| req_method := "GET"; req_url := url; req_cookie := "" |}.

Definition zeroUsageStat : UsageStat :=
  {| Utilization := 0%float; ResetsAt := zeroTime; Label := "" |}.

Section WithExtern.
Variable ext : Extern.

(** [parseAPIError]. *)
Definition parseAPIError (body : string) : string :=
  match json_Unmarshal_APIError ext body with
  | None => ""
  | Some apiErr => ErrorCode (Details (Error apiErr))
  end.

(** The [for _, format := range formats] of [parseTime]. *)
Fixpoint parseTime_formats (formats : list string) (s : string) : Time :=
  match formats with
  | [] => zeroTime
  | format :: rest =>
      match time_Parse ext format s with
      | Some t => t
      | None => parseTime_formats rest s
      end
  end.

Definition RFC3339 : string := "2006-01-02T15:04:05Z07:00".
Definition RFC3339Nano : string := "2006-01-02T15:04:05.999999999Z07:00".

Definition formats : list string :=
  [ RFC3339; RFC3339Nano; "2006-01-02T15:04:05.000Z"; "2006-01-02T15:04:05Z" ].

Definition parseTime (s : string) : Time :=
  if s =? "" then zeroTime else parseTime_formats formats s.

(** [ToUsageData]; [t] is the reading of [time.Now] it starts with. *)
Definition ToUsageData (r : UsageAPIResponse) (t : Time) : UsageData :=
  {| FiveHour :=
       match resp_FiveHour r with
       | Some m => {| Utilization := metric_Utilization m;
                      ResetsAt := parseTime (metric_ResetsAt m);
                      Label := "5-Hour" |}
       | None => zeroUsageStat
       end;
     SevenDay :=
       match resp_SevenDay r with
       | Some m => {| Utilization := metric_Utilization m;
                      ResetsAt := parseTime (metric_ResetsAt m);
                      Label := "Weekly" |}
       | None => zeroUsageStat
       end;
     SevenDayOpus :=
       match resp_SevenDayOpus r with
       | Some m => {| Utilization := metric_Utilization m;
                      ResetsAt := parseTime (metric_ResetsAt m);
                      Label := "Opus" |}
       | None => zeroUsageStat
       end;
     SevenDaySonnet :=
       match resp_SevenDaySonnet r with
       | Some m => {| Utilization := metric_Utilization m;
                      ResetsAt := parseTime (metric_ResetsAt m);
                      Label := "Sonnet" |}
       | None => zeroUsageStat
       end;
     LastUpdated := t |}.

Definition fetchOrganizationsOnce (sessionKey : string)
  : St (list OrganizationInfo + error) :=
  let url := baseURL ++ "/api/organizations" in
  match http_NewRequest_err ext url with
  | Some msg => ret (inr (ErrExternal msg))
  | None =>
      out <- roundTrip (setHeaders (newGET url) sessionKey) ;;
      match out with
      | DoError msg => ret (inr (ErrExternal msg))
      | ReadError _ msg => ret (inr (ErrExternal msg))
      | Response status body =>
          if ((status =? 401) || (status =? 403))%Z then
            if parseAPIError body =? "account_session_invalid"
            then ret (inr ErrSessionExpired)
            else ret (inr ErrUnauthorized)
          else if negb (status =? 200)%Z then
            ret (inr (ErrOrgsStatus status))
          else
            match json_Unmarshal_orgs ext body with
            | inr msg => ret (inr (ErrExternal msg))
            | inl orgs => ret (inl orgs)
            end
      end
  end.

(** The loop [for attempt := 0; attempt < 2; attempt++] of
    [FetchOrganizations]; [n] is the number of iterations left. *)
Fixpoint FetchOrganizations_loop (n : nat) (attempt : Z) (sessionKey : string)
  (lastErr : option error) : St (list OrganizationInfo + option error) :=
  match n with
  | O => ret (inr lastErr)
  | S n' =>
      (if (0 <? attempt)%Z then sleep (2 * Second) else ret tt) ;;;
      r <- fetchOrganizationsOnce sessionKey ;;
      match r with
      | inl orgs => ret (inl orgs)
      | inr err =>
          if error_eqb err ErrUnauthorized || error_eqb err ErrSessionExpired
          then ret (inr (Some err))
          else FetchOrganizations_loop n' (attempt + 1)%Z sessionKey (Some err)
      end
  end.

Definition FetchOrganizations : St (list OrganizationInfo + option error) :=
  sessionKey <- GetSessionKey ;;
  if sessionKey =? "" then ret (inr (Some ErrNoSessionKey))
  else FetchOrganizations_loop 2 0 sessionKey None.

Definition fetchUsageOnce (sessionKey orgID : string) : St (UsageData + error) :=
  let url := baseURL ++ "/api/organizations/" ++ orgID ++ "/usage" in
  match http_NewRequest_err ext url with
  | Some msg => ret (inr (ErrExternal msg))
  | None =>
      out <- roundTrip (setHeaders (newGET url) sessionKey) ;;
      match out with
      | DoError msg => ret (inr (ErrExternal msg))
      | ReadError _ msg => ret (inr (ErrExternal msg))
      | Response status body =>
          if ((status =? 401) || (status =? 403))%Z then
            let apiErr := parseAPIError body in
            if negb (apiErr =? "") && (apiErr =? "account_session_invalid")
            then ret (inr ErrSessionExpired)
            else ret (inr ErrUnauthorized)
          else if (status =? 429)%Z then ret (inr ErrRateLimited)
          else if (500 <=? status)%Z then ret (inr ErrAPIUnavailable)
          else if negb (status =? 200)%Z then ret (inr (ErrUsageStatus status))
          else
            match json_Unmarshal_usage ext body with
            | inr msg => ret (inr (ErrUsageParse msg))
            | inl apiResponse =>
                t <- now ;;
                let usage := ToUsageData apiResponse t in
                t' <- now ;;
                setLast usage t' ;;;
                ret (inl usage)
            end
      end
  end.

(** The loop of [FetchUsage]. *)
Fixpoint FetchUsage_loop (n : nat) (attempt : Z) (sessionKey orgID : string)
  (lastErr : option error) : St (UsageData + option error) :=
  match n with
  | O => ret (inr lastErr)
  | S n' =>
      (if (0 <? attempt)%Z then sleep (2 * Second) else ret tt) ;;;
      r <- fetchUsageOnce sessionKey orgID ;;
      match r with
      | inl usage => ret (inl usage)
      | inr err =>
          if errors_Is err ErrUnauthorized || errors_Is err ErrSessionExpired
          then ret (inr (Some err))
          else FetchUsage_loop n' (attempt + 1)%Z sessionKey orgID (Some err)
      end
  end.

Definition FetchUsage : St (UsageData + option error) :=
  sessionKey <- GetSessionKey ;;
  orgID <- GetOrganizationID ;;
  if sessionKey =? "" then ret (inr (Some ErrNoSessionKey))
  else if orgID =? "" then ret (inr (Some ErrNoOrgID))
  else FetchUsage_loop 2 0 sessionKey orgID None.

End WithExtern.

End api.

(** ** Package [api]: the auth manager (auth.go) *)

Module auth.
Local Open Scope st_scope.
Local Open Scope string_scope.

Section WithExtern.
Variable ext : Extern.

(** [verifyAndFetchOrg].  A failed save of the organization ID is only
    logged.  A nil slice with a nil error, which [FetchOrganizations]
    returns for a 200 whose body is [null], is [inl []]: [len(orgs) == 0]
    holds of it, as it would of [inr None]. *)
Definition verifyAndFetchOrg : St (option error) :=
  r <- api.FetchOrganizations ext ;;
  match r with
  | inr (Some err) => ret (Some err)
  | inr None => ret (Some ErrNoOrganizations)
  | inl [] => ret (Some ErrNoOrganizations)
  | inl (org :: _) =>
      let orgID := ID org in
      api.SetOrganizationID orgID ;;;
      _ <- cfg.SetOrganizationID orgID ;;
      ret None
  end.

Definition SetManualSessionKey (key : string) : St (option error) :=
  api.SetSessionKey key ;;;
  err <- verifyAndFetchOrg ;;
  match err with
  | Some e =>
      api.SetSessionKey "" ;;;
      ret (Some e)
  | None =>
      _ <- cfg.SetSessionKey key ;;
      ret None
  end.

Definition RefreshFromBrowser : St (option error) :=
  r <- ExtractSessionKey ;;
  match r with
  | inr msg => ret (Some (ErrExternal msg))
  | inl sessionKey =>
      api.SetSessionKey sessionKey ;;;
      err <- verifyAndFetchOrg ;;
      match err with
      | Some e => ret (Some e)
      | None =>
          _ <- cfg.SetSessionKey sessionKey ;;
          ret None
      end
  end.

Definition IsAuthenticated : St bool := api.HasCredentials.

(** [ClearCredentials]; the error is that of [Save]. *)
Definition ClearCredentials : St (option string) :=
  api.SetSessionKey "" ;;;
  api.SetOrganizationID "" ;;;
  modify (with_config (config.with_SessionKey "")) ;;;
  modify (with_config (config.with_OrganizationID "")) ;;;
  cfg.Save.

(** What [os.UserHomeDir], [os.ReadFile] and [json.Unmarshal] make of the
    file [~/.claude/.credentials.json] of the Claude Code CLI: [inl uuid]
    is the [organizationUuid] of a file that decodes (empty when the field
    is absent), [inr msg] the first of their errors. *)
Variable credentials : string + string.

(** [tryClaudeCodeCredentials]; the result is the text of its error. *)
Definition tryClaudeCodeCredentials : St (option string) :=
  match credentials with
  | inr msg => ret (Some msg)
  | inl orgUUID =>
      if negb (orgUUID =? "") then
        api.SetOrganizationID orgUUID ;;;
        _ <- cfg.SetOrganizationID orgUUID ;;
        ret None
      else ret (Some "no organization UUID in Claude Code credentials")
  end.

(** [Initialize] from its second source on: what follows the block of
    the saved session key. *)
Definition Initialize_otherSources : St (option error) :=
  _ <- tryClaudeCodeCredentials ;;
  r <- ExtractSessionKey ;;
  match r with
  | inr _ => ret (Some ErrAuthFailed)
  | inl sessionKey =>
      api.SetSessionKey sessionKey ;;;
      err <- verifyAndFetchOrg ;;
      match err with
      | Some e => ret (Some e)
      | None =>
          _ <- cfg.SetSessionKey sessionKey ;;
          ret None
      end
  end.

Definition Initialize : St (option error) :=
  c <- gets config ;;
  if negb (config.SessionKey c =? "") then
    api.SetSessionKey (config.SessionKey c) ;;;
    (if negb (config.OrganizationID c =? "")
     then api.SetOrganizationID (config.OrganizationID c)
     else ret tt) ;;;
    err <- verifyAndFetchOrg ;;
    match err with
    | None => ret None
    | Some _ => Initialize_otherSources
    end
  else Initialize_otherSources.

End WithExtern.

End auth.

(** ** Package [app]: one tick of the polling loop (app.go) *)

Module app.
Local Open Scope st_scope.
Local Open Scope string_scope.

(** How a call ends: it returns, or the goroutine panics. *)
Inductive Completion : Type := Returned | Panicked.

(** The [for _, t := range thresholds] of [highestCrossedThreshold]. *)
Fixpoint highestCrossedThreshold_loop (utilization : float)
  (thresholds : list float) (highest : float) : float :=
  match thresholds with
  | [] => highest
  | t :: rest =>
      highestCrossedThreshold_loop utilization rest
        (if (t <=? utilization)%float && (highest <? t)%float then t else highest)
  end.

Definition highestCrossedThreshold (utilization : float)
  (thresholds : list float) : float :=
  highestCrossedThreshold_loop utilization thresholds 0%float.

Definition setConsecutiveErrors (n : Z) : St unit :=
  modify (with_app (fun a =>
    {| consecutiveErrors := n; rateLimitBackoff := rateLimitBackoff a;
       lastSessionThreshold := lastSessionThreshold a;
       lastWeeklyThreshold := lastWeeklyThreshold a |})).

Definition setRateLimitBackoff (d : Z) : St unit :=
  modify (with_app (fun a =>
    {| consecutiveErrors := consecutiveErrors a; rateLimitBackoff := d;
       lastSessionThreshold := lastSessionThreshold a;
       lastWeeklyThreshold := lastWeeklyThreshold a |})).

Definition setLastSessionThreshold (x : float) : St unit :=
  modify (with_app (fun a =>
    {| consecutiveErrors := consecutiveErrors a;
       rateLimitBackoff := rateLimitBackoff a;
       lastSessionThreshold := x;
       lastWeeklyThreshold := lastWeeklyThreshold a |})).

Definition setLastWeeklyThreshold (x : float) : St unit :=
  modify (with_app (fun a =>
    {| consecutiveErrors := consecutiveErrors a;
       rateLimitBackoff := rateLimitBackoff a;
       lastSessionThreshold := lastSessionThreshold a;
       lastWeeklyThreshold := x |})).

Definition sessionTitle : string := "ClaudeBar: High Session Usage".
Definition weeklyTitle : string := "ClaudeBar: High Weekly Usage".

(** [checkAndNotify].  A notification is recorded with its title and
    the two numbers that its text formats. *)
Definition checkAndNotify (usage : UsageData) : St unit :=
  c <- gets config ;;
  if negb (config.NotificationsEnabled c)
     || Nat.eqb (List.length (config.AlertThresholds c)) 0
  then ret tt
  else
    lastSession <- gets (fun st => lastSessionThreshold (app st)) ;;
    let sessionCrossed :=
      highestCrossedThreshold (Utilization (FiveHour usage))
        (config.AlertThresholds c) in
    (if (lastSession <? sessionCrossed)%float then
       setLastSessionThreshold sessionCrossed ;;;
       event (EvNotify sessionTitle (Utilization (FiveHour usage)) sessionCrossed)
     else if (sessionCrossed <? lastSession)%float then
       setLastSessionThreshold sessionCrossed
     else ret tt) ;;;
    lastWeekly <- gets (fun st => lastWeeklyThreshold (app st)) ;;
    let weeklyCrossed :=
      highestCrossedThreshold (Utilization (SevenDay usage))
        (config.AlertThresholds c) in
    if (lastWeekly <? weeklyCrossed)%float then
      setLastWeeklyThreshold weeklyCrossed ;;;
      event (EvNotify weeklyTitle (Utilization (SevenDay usage)) weeklyCrossed)
    else if (weeklyCrossed <? lastWeekly)%float then
      setLastWeeklyThreshold weeklyCrossed
    else ret tt.

Section WithExtern.
Variable ext : Extern.

(** [fetchUsage]: one tick.  [overlay.SetStatus] is the event
    [EvStatus]. *)
Definition fetchUsage : St Completion :=
  authenticated <- auth.IsAuthenticated ;;
  if negb authenticated then ret Returned
  else
    backoff <- gets (fun st => rateLimitBackoff (app st)) ;;
    (if (0 <? backoff)%Z then
       setRateLimitBackoff 0 ;;;
       sleep backoff
     else ret tt) ;;;
    r <- api.FetchUsage ext ;;
    match r with
    | inr (Some err) =>
        n <- gets (fun st => consecutiveErrors (app st)) ;;
        let errCount := GoInt.add n 1 in
        setConsecutiveErrors errCount ;;;
        if error_eqb err ErrSessionExpired then
          event (EvStatus "Session expired - refreshing...") ;;;
          refreshErr <- auth.RefreshFromBrowser ext ;;
          match refreshErr with
          | Some _ =>
              event (EvStatus "Session expired - update key in Settings") ;;;
              ret Returned
          | None => ret Returned
          end
        else if error_eqb err ErrUnauthorized then
          event (EvStatus "Auth failed - refreshing...") ;;;
          refreshErr <- auth.RefreshFromBrowser ext ;;
          match refreshErr with
          | Some _ =>
              event (EvStatus "Auth failed - update key in Settings") ;;;
              ret Returned
          | None => ret Returned
          end
        else if error_eqb err ErrRateLimited then
          match GoInt.shl 1 (Z.min (GoInt.sub errCount 1) 3) with
          | None => ret Panicked
          | Some p =>
              let backoffSec := GoInt.mul 30 p in
              setRateLimitBackoff (GoInt.mul backoffSec Second) ;;;
              event (EvStatus ("Rate limited - retry in "
                               ++ GoInt.format backoffSec ++ "s")) ;;;
              ret Returned
          end
        else if error_eqb err ErrAPIUnavailable then
          event (EvStatus "Claude API unavailable") ;;;
          ret Returned
        else
          (if (3 <=? errCount)%Z then
             event (EvStatus "Connection error - retrying...")
           else ret tt) ;;;
          ret Returned
    | inr None =>
        (* [usage] and [err] both nil: [usage.FiveHour] dereferences nil *)
        setConsecutiveErrors 0 ;;;
        setRateLimitBackoff 0 ;;;
        ret Panicked
    | inl usage =>
        setConsecutiveErrors 0 ;;;
        setRateLimitBackoff 0 ;;;
        event (EvOverlayUsage usage) ;;;
        event (EvTrayUsage usage) ;;;
        checkAndNotify usage ;;;
        ret Returned
    end.

(** The loop of [refreshLoop].  [wasIdle] is its local variable and
    [period] the period of [a.refreshTimer], which [Reset] sets. *)
Record Loop : Type := mkLoop {
  wasIdle : bool;
  period : Z
}.

Definition idleThreshold : Z := 300.
Definition idleInterval : Z := 300.

(** [normalInterval], with its floor of fifteen seconds. *)
Definition normalInterval (c : config.Config) : Z :=
  let d := GoInt.mul (config.RefreshInterval c) Second in
  if (d <? 15 * Second)%Z then (15 * Second)%Z else d.

(** The case [<-a.refreshTimer.C] of the [select]: one firing of the
    timer, with the reading [idleSec] of [GetIdleSeconds]. *)
Definition refreshLoop_tick (normal idleSec : Z) (l : Loop) : St (Loop * Completion) :=
  if (idleThreshold <? idleSec)%Z then
    let l' := if negb (wasIdle l)
              then {| wasIdle := true; period := GoInt.mul idleInterval Second |}
              else l in
    done <- fetchUsage ;;
    ret (l', done)
  else if wasIdle l then
    done <- fetchUsage ;;
    ret ({| wasIdle := false; period := normal |}, done)
  else
    done <- fetchUsage ;;
    ret (l, done).

(** The [for] loop: [idle] holds the readings of the firings that come
    before the stop signal. *)
Fixpoint refreshLoop_from (normal : Z) (idle : list Z) (l : Loop)
  : St (Loop * Completion) :=
  match idle with
  | [] => ret (l, Returned)
  | idleSec :: rest =>
      r <- refreshLoop_tick normal idleSec l ;;
      match snd r with
      | Panicked => ret r
      | Returned => refreshLoop_from normal rest (fst r)
      end
  end.

Definition refreshLoop (idle : list Z) : St (Loop * Completion) :=
  c <- gets config ;;
  let normal := normalInterval c in
  refreshLoop_from normal idle {| wasIdle := false; period := normal |}.

End WithExtern.

End app.

(** ** Package [browser]: the pure parts of the cookie extractor
    (cookies.go)

    Byte slices are strings.  The SQLite databases, the file system and the
    two ciphers are outside: a database is the list of its rows, a cipher a
    function. *)

Module browser.
Local Open Scope string_scope.

Definition quote : string := String "034"%char EmptyString.

Definition ErrNoCookieFound : string := "claude.ai session cookie not found".

(** [strings.Split s sep] for a separator of one byte. *)
Fixpoint Split (s : string) (sep : ascii) : list string :=
  match s with
  | EmptyString => [EmptyString]
  | String c rest =>
      if Ascii.eqb c sep then EmptyString :: Split rest sep
      else
        match Split rest sep with
        | [] => [String c EmptyString]
        | part :: parts => String c part :: parts
        end
  end.

Definition isValidSessionKey (key : string) : bool :=
  if String.prefix "sk-ant-" key then true
  else if Nat.eqb (List.length (Split key "."%char)) 3
          && Nat.ltb 100 (String.length key)
  then true
  else false.

(** [extractJSONValue]; [strings.Index] is [String.index 0], with [None]
    for -1. *)
Definition extractJSONValue (json key : string) : string :=
  let search := quote ++ key ++ quote ++ ":" ++ quote in
  match String.index 0 search json with
  | None => ""
  | Some found =>
      let start := (found + String.length search)%nat in
      match String.index 0 quote
              (String.substring start (String.length json - start) json) with
      | None => ""
      | Some end_ => String.substring start end_ json
      end
  end.

Section WithCiphers.
(** [decryptPlatformKey] and [decryptAESGCM key nonce ciphertext]. *)
Variable decryptPlatformKey : string -> string + string.
Variable decryptAESGCM : string -> string -> string -> string + string.

Definition decryptChromeValue (encryptedValue key : string) : string + string :=
  if Nat.ltb (String.length encryptedValue) 3 then
    inr "encrypted value too short"
  else
    let prefix := String.substring 0 3 encryptedValue in
    if prefix =? "v20" then
      inr "cookie uses Chrome App-Bound Encryption (v20) - third-party decryption not possible. Use Claude Code CLI or paste session key manually"
    else if negb (prefix =? "v10") && negb (prefix =? "v11") then
      decryptPlatformKey encryptedValue
    else if Nat.ltb (String.length encryptedValue) (3 + 12 + 16) then
      inr "encrypted value too short for AES-GCM"
    else
      decryptAESGCM key
        (String.substring 3 12 encryptedValue)
        (String.substring 15 (String.length encryptedValue - 15) encryptedValue).

(** A row of the query of [readCookieDB]. *)
Record Row : Type := mkRow {
  row_name : string;
  row_encrypted : string;
  row_plain : string
}.

(** The [for rows.Next()] of [readCookieDB] and what follows it: [None] is
    a row that [rows.Scan] fails on, [encKey] is [None] for a nil key. *)
Fixpoint readCookieDB_rows (rows : list (option Row)) (encKey : option string)
  (lastErr : option string) : string + string :=
  match rows with
  | [] =>
      match lastErr with
      | Some e => inr e
      | None => inr ErrNoCookieFound
      end
  | None :: rest => readCookieDB_rows rest encKey lastErr
  | Some row :: rest =>
      if negb (row_plain row =? "") && isValidSessionKey (row_plain row) then
        inl (row_plain row)
      else
        match encKey with
        | Some key =>
            if Nat.ltb 0 (String.length (row_encrypted row)) then
              match decryptChromeValue (row_encrypted row) key with
              | inr e => readCookieDB_rows rest encKey (Some e)
              | inl decrypted =>
                  if isValidSessionKey decrypted then inl decrypted
                  else if (row_name row =? "sessionKey")
                          && Nat.ltb 20 (String.length decrypted)
                  then inl decrypted
                  else readCookieDB_rows rest encKey lastErr
              end
            else readCookieDB_rows rest encKey lastErr
        | None => readCookieDB_rows rest encKey lastErr
        end
  end.

End WithCiphers.

(** The loop over the browsers of [ExtractSessionKey] and the attempt on
    Firefox after it.  A browser is [None] when its directory does not
    exist, and else what [extractFromChromium] returns for it; [firefox] is
    what [extractFromFirefox] returns. *)
Fixpoint ExtractSessionKey_from (browsers : list (option (string + string)))
  (firefox : string + string) : string + string :=
  match browsers with
  | [] =>
      match firefox with
      | inl key => if negb (key =? "") then inl key else inr ErrNoCookieFound
      | inr _ => inr ErrNoCookieFound
      end
  | None :: rest => ExtractSessionKey_from rest firefox
  | Some (inl key) :: rest =>
      if negb (key =? "") then inl key else ExtractSessionKey_from rest firefox
  | Some (inr _) :: rest => ExtractSessionKey_from rest firefox
  end.

End browser.

(** ** Package [config]: which stats are shown

    [VisibleStats] is the field of [Config] that [IsStatVisible] reads and
    [ToggleStat] writes; the [Save] that ends [ToggleStat] is [cfg.Save]. *)

Module stats.
Local Open Scope string_scope.

Record VisibleStats : Type := mkVisibleStats {
  SessionUsage : bool;
  DailyUsage : bool;
  WeeklyUsage : bool;
  ResetTime : bool
}.

Definition IsStatVisible (v : VisibleStats) (statType : string) : bool :=
  if statType =? "session" then SessionUsage v
  else if statType =? "daily" then DailyUsage v
  else if statType =? "weekly" then WeeklyUsage v
  else if statType =? "reset" then ResetTime v
  else true.

(** The [switch] of [ToggleStat]. *)
Definition ToggleStat_switch (statType : string) (v : VisibleStats) : VisibleStats :=
  if statType =? "session" then
    {| SessionUsage := negb (SessionUsage v); DailyUsage := DailyUsage v;
       WeeklyUsage := WeeklyUsage v; ResetTime := ResetTime v |}
  else if statType =? "daily" then
    {| SessionUsage := SessionUsage v; DailyUsage := negb (DailyUsage v);
       WeeklyUsage := WeeklyUsage v; ResetTime := ResetTime v |}
  else if statType =? "weekly" then
    {| SessionUsage := SessionUsage v; DailyUsage := DailyUsage v;
       WeeklyUsage := negb (WeeklyUsage v); ResetTime := ResetTime v |}
  else if statType =? "reset" then
    {| SessionUsage := SessionUsage v; DailyUsage := DailyUsage v;
       WeeklyUsage := WeeklyUsage v; ResetTime := negb (ResetTime v) |}
  else v.

End stats.

(** ** Package [ui]: where a snapped overlay goes (overlay.go) *)

Module overlay.
Local Open Scope string_scope.



End overlay.

(** ** ISO 8601

    What the specification calls a valid ISO-8601 timestamp, for one
    fragment of the standard: a calendar date and a time of day in the
    extended format, [YYYY-MM-DDThh:mm], [YYYY-MM-DDThh:mm:ss] or
    [YYYY-MM-DDThh:mm:ss.f] with one to nine digits of fraction (after a
    point or a comma), followed by the zone designator [Z], [+hh:mm],
    [-hh:mm], [+hh] or [-hh].  Every text of this fragment is a valid
    representation of ISO 8601.  [instant] is the instant that a text
    denotes, in nanoseconds from the zero time of Go (1 January of the
    year 1, 00:00 UTC), and [None] for a text outside the fragment. *)

Module iso8601.

Definition digit (c : ascii) : option Z :=
  let n := Z.of_nat (nat_of_ascii c) in
  if (48 <=? n) && (n <=? 57) then Some (n - 48) else None.

(** A number of exactly [k] digits at the head of [s], and the rest. *)
Fixpoint number (k : nat) (acc : Z) (s : string) : option (Z * string) :=
  match k with
  | O => Some (acc, s)
  | S k' =>
      match s with
      | EmptyString => None
      | String c rest =>
          match digit c with
          | Some d => number k' (10 * acc + d) rest
          | None => None
          end
      end
  end.

(** The character [c] at the head of [s], and the rest. *)
Definition expect (c : ascii) (s : string) : option string :=
  match s with
  | EmptyString => None
  | String c' rest => if Ascii.eqb c c' then Some rest else None
  end.

Definition leap (y : Z) : bool :=
  ((y mod 4 =? 0) && negb (y mod 100 =? 0)) || (y mod 400 =? 0).

Definition days_in_month (y m : Z) : Z :=
  if m =? 2 then (if leap y then 29 else 28)
  else if (m =? 4) || (m =? 6) || (m =? 9) || (m =? 11) then 30
  else 31.

(** The days from 1 January of the year 1 to 1 January of the year [y]. *)
Definition days_before_year (y : Z) : Z :=
  let p := y - 1 in 365 * p + p / 4 - p / 100 + p / 400.

(** The days from 1 January of the year [y] to the first of its month
    [m]. *)
Definition days_before_month (y m : Z) : Z :=
  fold_left Z.add
    (map (days_in_month y) (firstn (Z.to_nat (m - 1)) [1; 2; 3; 4; 5; 6; 7; 8; 9; 10; 11]))
    0.

(** At most [k] digits of a decimal fraction of a second, the first of
    them worth a tenth of [unit] nanoseconds: their value and the rest. *)
Fixpoint fraction (k : nat) (unit acc : Z) (s : string) : Z * string :=
  match k, s with
  | S k', String c rest =>
      match digit c with
      | Some d => fraction k' (unit / 10) (acc + d * (unit / 10)) rest
      | None => (acc, s)
      end
  | _, _ => (acc, s)
  end.

(** The seconds and nanoseconds that follow [hh:mm], and the rest: nothing,
    [:ss], or [:ss] with a fraction. *)
Definition seconds (s : string) : option (Z * Z * string) :=
  match expect ":" s with
  | None => Some (0, 0, s)
  | Some s1 =>
      match number 2 0 s1 with
      | None => None
      | Some (ss, s2) =>
          if 59 <? ss then None
          else
            match s2 with
            | String c s3 =>
                if Ascii.eqb c "." || Ascii.eqb c "," then
                  match s3 with
                  | String c3 _ =>
                      match digit c3 with
                      | None => None
                      | Some _ =>
                          let '(ns, s4) := fraction 9 Second 0 s3 in
                          Some (ss, ns, s4)
                      end
                  | EmptyString => None
                  end
                else Some (ss, 0, s2)
            | EmptyString => Some (ss, 0, s2)
            end
      end
  end.

(** The zone designator that ends the text: the seconds that the local
    time is ahead of UTC.  An offset of zero is not written with a minus
    sign. *)
Definition zone (s : string) : option Z :=
  match s with
  | EmptyString => None
  | String c rest =>
      if Ascii.eqb c "Z" then (if (rest =? "")%string then Some 0 else None)
      else
        let sign :=
          if Ascii.eqb c "+" then Some 1
          else if Ascii.eqb c "-" then Some (-1)
          else None in
        match sign, number 2 0 rest with
        | Some sg, Some (hh, rest1) =>
            let minutes :=
              if (rest1 =? "")%string then Some 0
              else
                match expect ":" rest1 with
                | None => None
                | Some rest2 =>
                    match number 2 0 rest2 with
                    | Some (mm, rest3) =>
                        if (mm <=? 59) && (rest3 =? "")%string then Some mm else None
                    | None => None
                    end
                end in
            match minutes with
            | None => None
            | Some mm =>
                if 23 <? hh then None
                else if (sg =? -1) && (hh =? 0) && (mm =? 0) then None
                else Some (sg * (hh * 3600 + mm * 60))
            end
        | _, _ => None
        end
  end.

Definition instant (s : string) : option Time :=
  match number 4 0 s with
  | None => None
  | Some (y, s1) =>
  match expect "-" s1 with
  | None => None
  | Some s2 =>
  match number 2 0 s2 with
  | None => None
  | Some (m, s3) =>
  match expect "-" s3 with
  | None => None
  | Some s4 =>
  match number 2 0 s4 with
  | None => None
  | Some (d, s5) =>
  match expect "T" s5 with
  | None => None
  | Some s6 =>
  match number 2 0 s6 with
  | None => None
  | Some (hh, s7) =>
  match expect ":" s7 with
  | None => None
  | Some s8 =>
  match number 2 0 s8 with
  | None => None
  | Some (mm, s9) =>
  match seconds s9 with
  | None => None
  | Some (ss, ns, s10) =>
  match zone s10 with
  | None => None
  | Some offset =>
      if (1 <=? y) && (1 <=? m) && (m <=? 12)
         && (1 <=? d) && (d <=? days_in_month y m)
         && (hh <=? 23) && (mm <=? 59)
      then
        let days := days_before_year y + days_before_month y m + (d - 1) in
        Some ((days * 86400 + hh * 3600 + mm * 60 + ss - offset) * Second + ns)
      else None
  end end end end end end end end end end end.

End iso8601.

(** ** Notions of the specification *)

Module spec.
Local Open Scope string_scope.

(** [m] is the maximum of the thresholds of [T] that [u] meets or
    exceeds. *)
Definition is_max_crossed (u : float) (T : list float) (m : float) : Prop :=
  In m T /\ (m <=? u)%float = true /\
  forall t, In t T -> (t <=? u)%float = true -> (t <=? m)%float = true.

(** The request of [fetchUsageOnce] and that of [fetchOrganizationsOnce]. *)
Definition usageRequest (sessionKey orgID : string) : Request :=
  api.setHeaders
    (api.newGET (api.baseURL ++ "/api/organizations/" ++ orgID ++ "/usage"))
    sessionKey.

Definition orgsRequest (sessionKey : string) : Request :=
  api.setHeaders (api.newGET (api.baseURL ++ "/api/organizations")) sessionKey.

(** The state after a round trip, and after a sleep. *)
Definition requested (req : Request) (st : State) : State := snd (roundTrip req st).
Definition slept (d : Z) (st : State) : State := snd (sleep d st).

(** An error "classified as Unauthorized or SessionExpired". *)
Definition auth_error (e : error) : bool :=
  error_eqb e ErrUnauthorized || error_eqb e ErrSessionExpired.

(** What a fetch returns for the result of its last attempt. *)
Definition returned {A : Type} (r : A + error) : A + option error :=
  match r with
  | inl a => inl a
  | inr e => inr (Some e)
  end.

(** The retry policy in the words of the specification: a first attempt;
    when it fails with an error that is not an auth error, a delay of two
    seconds and one more attempt, whose result is returned. *)
Definition retried_once {A : Type} (attempt : St (A + error)) : St (A + option error) :=
  fun st =>
    let '(r1, st1) := attempt st in
    match r1 with
    | inl a => (inl a, st1)
    | inr e1 =>
        if auth_error e1 then (inr (Some e1), st1)
        else
          let '(r2, st2) := attempt (slept (2 * Second) st1) in
          (returned r2, st2)
    end.

(** The error class of status 429 and of the statuses from 500 on. *)
Definition throttle_class (status : Z) : option error :=
  if (status =? 429)%Z then Some ErrRateLimited
  else if (500 <=? status)%Z then Some ErrAPIUnavailable
  else None.

(** The body parses as the structured API error and its
    [error.details.error_code] is ["account_session_invalid"]. *)
Definition session_invalid (ext : Extern) (body : string) : Prop :=
  exists apiErr,
    json_Unmarshal_APIError ext body = Some apiErr /\
    ErrorCode (Details (Error apiErr)) = "account_session_invalid".

(** The four layouts of [time.Parse] under which a timestamp is read, in
    the order in which they are tried: RFC 3339, RFC 3339 with
    nanoseconds, and the two with a literal [Z], with and without
    milliseconds. *)
Definition layouts : list string :=
  [ "2006-01-02T15:04:05Z07:00";
    "2006-01-02T15:04:05.999999999Z07:00";
    "2006-01-02T15:04:05.000Z";
    "2006-01-02T15:04:05Z" ].

(** [s] is accepted as the instant [t]: it is not empty and the first of
    the four layouts that [time.Parse] accepts it under yields [t]. *)
Definition accepted (ext : Extern) (s : string) (t : Time) : Prop :=
  s <> "" /\
  exists before layout after,
    layouts = (before ++ layout :: after)%list /\
    Forall (fun l => time_Parse ext l s = None) before /\
    time_Parse ext layout s = Some t.

(** [s] is unparseable: [time.Parse] accepts it under none of the four
    layouts. *)
Definition unparseable (ext : Extern) (s : string) : Prop :=
  Forall (fun l => time_Parse ext l s = None) layouts.

(** The normalized form, under [label], of a metric of the raw response. *)
Definition normalized (ext : Extern) (label : string) (raw : option UsageMetric)
  (stat : UsageStat) : Prop :=
  match raw with
  | None => stat = api.zeroUsageStat
  | Some m =>
      Utilization stat = metric_Utilization m /\
      Label stat = label /\
      (forall t, accepted ext (metric_ResetsAt m) t -> ResetsAt stat = t) /\
      (metric_ResetsAt m = "" \/ unparseable ext (metric_ResetsAt m) ->
       ResetsAt stat = zeroTime)
  end.

(** What a fetch can add to the trace: nothing, the sleep between two
    attempts that send nothing, one request, or two requests around the
    sleep. *)
Definition fetch_trace (req : Request) (added : list Event) : Prop :=
  added = [] \/
  added = [EvSleep (2 * Second)] \/
  added = [EvRequest req] \/
  added = [EvRequest req; EvSleep (2 * Second); EvRequest req].

(** The state in which [Initialize] verifies the saved session key: the
    saved key is installed, and the saved organization ID when there is
    one. *)
Definition saved_installed (st : State) : State :=
  let c := config st in
  let st1 := snd (api.SetSessionKey (config.SessionKey c) st) in
  if negb (config.OrganizationID c =? "")
  then snd (api.SetOrganizationID (config.OrganizationID c) st1)
  else st1.

(** The credentials of the client are those of the configuration, and
    the session key is not empty. *)
Definition mirrored (st : State) : Prop :=
  sessionKey (client st) <> "" /\
  config.SessionKey (config st) = sessionKey (client st) /\
  config.OrganizationID (config st) = organizationID (client st).

(** The state of a successful tick before its notification check: the
    counter and the backoff are reset and the snapshot is shown in the
    overlay, then in the tray. *)
Definition displayed (usage : UsageData) (st : State) : State :=
  with_world (emit (EvTrayUsage usage))
    (with_world (emit (EvOverlayUsage usage))
       (snd (app.setRateLimitBackoff 0 (snd (app.setConsecutiveErrors 0 st))))).

(** An event is a notification. *)
Definition is_notification (e : Event) : Prop :=
  match e with
  | EvNotify _ _ _ => True
  | _ => False
  end.

(** A record is zero or one of the thresholds. *)
Definition zero_or_threshold (T : list float) (r : float) : Prop :=
  r = 0%float \/ In r T.

(** The timer runs at the period of the mode of the loop. *)
Definition period_of_mode (normal : Z) (l : app.Loop) : Prop :=
  app.period l = if app.wasIdle l then 300 * Second else normal.

(** [n] ticks one after the other, up to the first that panics. *)
Fixpoint polls (ext : Extern) (n : nat) (st : State) : app.Completion * State :=
  match n with
  | O => (app.Returned, st)
  | S n' =>
      match app.fetchUsage ext st with
      | (app.Panicked, st') => (app.Panicked, st')
      | (app.Returned, st') => polls ext n' st'
      end
  end.

(** The mode in which the loop is after the readings [idle] of the idle
    time, the last of them deciding. *)
Definition idle_after (idle : list Z) : bool :=
  match idle with
  | [] => false
  | _ => (300 <? last idle 0)%Z
  end.

(** The state in which a tick of [fetchUsage] calls [FetchUsage]: a
    pending backoff has been reset and slept. *)
Definition awaited (st : State) : State :=
  if (0 <? rateLimitBackoff (app st))%Z
  then slept (rateLimitBackoff (app st)) (snd (app.setRateLimitBackoff 0 st))
  else st.

(** The backoff of the specification for a counter of consecutive
    errors, in seconds. *)
Definition backoff_seconds (errors : Z) : Z := 30 * 2 ^ Z.min (errors - 1) 3.

(** Consecutive ticks on each of which [FetchUsage] returns
    [ErrRateLimited], from a state; the list holds what each tick of
    [fetchUsage] returns and the state it leaves. *)
Inductive rate_limited_ticks (ext : Extern)
  : State -> list (app.Completion * State) -> Prop :=
| ticks_none (st : State) : rate_limited_ticks ext st []
| ticks_next (st : State) (rest : list (app.Completion * State)) :
    fst (api.FetchUsage ext (awaited st)) = inr (Some ErrRateLimited) ->
    rate_limited_ticks ext (snd (app.fetchUsage ext st)) rest ->
    rate_limited_ticks ext st (app.fetchUsage ext st :: rest).

(** The two tracked metrics, with the utilization each reads from a
    snapshot, the record each keeps and the title of its notification. *)
Inductive metric : Type := Session | Weekly.

Definition reading (m : metric) (usage : UsageData) : float :=
  match m with
  | Session => Utilization (FiveHour usage)
  | Weekly => Utilization (SevenDay usage)
  end.

Definition record (m : metric) (a : App) : float :=
  match m with
  | Session => lastSessionThreshold a
  | Weekly => lastWeeklyThreshold a
  end.

Definition title (m : metric) : string :=
  match m with
  | Session => app.sessionTitle
  | Weekly => app.weeklyTitle
  end.

(** The notifications of a metric sent so far, oldest first, each with
    the utilization and the crossed threshold of its text. *)
Definition notifications (m : metric) (st : State) : list (float * float) :=
  flat_map (fun e =>
    match e with
    | EvNotify t utilization crossed =>
        if t =? title m then [(utilization, crossed)] else []
    | _ => []
    end) (trace (world st)).

(** Notifications are on and at least one threshold is configured. *)
Definition enabled (c : config.Config) : Prop :=
  config.NotificationsEnabled c = true /\ config.AlertThresholds c <> [].

(** The highest threshold that the metric crosses in a snapshot. *)
Definition crossed (m : metric) (usage : UsageData) (st : State) : float :=
  app.highestCrossedThreshold (reading m usage) (config.AlertThresholds (config st)).

(** The state after the notification check of a successful fetch. *)
Definition polled (usage : UsageData) (st : State) : State :=
  snd (app.checkAndNotify usage st).

End spec.

(** ** A server, libraries and states for the closed examples *)

Module fixtures.
Local Open Scope string_scope.

Definition dq : string := String "034"%char EmptyString.
Definition q (s : string) : string := dq ++ s ++ dq.

(** [{"error":{"details":{"error_code":"account_session_invalid"}}}] *)
Definition sessionInvalidBody : string :=
  "{" ++ q "error" ++ ":{" ++ q "details" ++ ":{" ++ q "error_code" ++ ":"
      ++ q "account_session_invalid" ++ "}}}".

(** [{"error":{"details":{"error_code":"permission_denied"}}}] *)
Definition permissionBody : string :=
  "{" ++ q "error" ++ ":{" ++ q "details" ++ ":{" ++ q "error_code" ++ ":"
      ++ q "permission_denied" ++ "}}}".

(** [[{"uuid":"org-1","name":"Acme"}]] *)
Definition orgsBody : string :=
  "[{" ++ q "uuid" ++ ":" ++ q "org-1" ++ "," ++ q "name" ++ ":" ++ q "Acme" ++ "}]".

Definition metricJSON (utilization resets_at : string) : string :=
  "{" ++ q "utilization" ++ ":" ++ utilization ++ ","
      ++ q "resets_at" ++ ":" ++ q resets_at ++ "}".

(** A usage payload with the four metrics. *)
Definition usageBody : string :=
  "{" ++ q "five_hour" ++ ":" ++ metricJSON "82" "2026-01-01T05:00:00Z" ++ ","
      ++ q "seven_day" ++ ":" ++ metricJSON "40" "2026-01-07T00:00:00Z" ++ ","
      ++ q "seven_day_opus" ++ ":" ++ metricJSON "10" "2026-01-07T00:00:00.000Z" ++ ","
      ++ q "seven_day_sonnet" ++ ":" ++ metricJSON "30" "2026-01-07T00:00:00+00:00" ++ "}".

Definition apiError (code : string) : APIError :=
  {| Type_ := "error";
     Error := {| error_Type := ""; Message := "";
                 Details := {| ErrorCode := code |} |} |}.

Definition usageResponse : UsageAPIResponse :=
  {| resp_FiveHour :=
       Some {| metric_Utilization := 82%float;
               metric_ResetsAt := "2026-01-01T05:00:00Z" |};
     resp_SevenDay :=
       Some {| metric_Utilization := 40%float;
               metric_ResetsAt := "2026-01-07T00:00:00Z" |};
     resp_SevenDayOpus :=
       Some {| metric_Utilization := 10%float;
               metric_ResetsAt := "2026-01-07T00:00:00.000Z" |};
     resp_SevenDaySonnet :=
       Some {| metric_Utilization := 30%float;
               metric_ResetsAt := "2026-01-07T00:00:00+00:00" |} |}.

(** The same payload, but for the session's timestamp, which has no
    seconds: [2026-01-01T05:00Z]. *)
Definition withoutSeconds : UsageAPIResponse :=
  {| resp_FiveHour :=
       Some {| metric_Utilization := 82%float;
               metric_ResetsAt := "2026-01-01T05:00Z" |};
     resp_SevenDay := resp_SevenDay usageResponse;
     resp_SevenDayOpus := resp_SevenDayOpus usageResponse;
     resp_SevenDaySonnet := resp_SevenDaySonnet usageResponse |}.

(** Instants in nanoseconds from the zero time. *)
Definition t_2026_01_01_05h : Time := 63902840400 * Second.
Definition t_2026_01_07_00h : Time := 63903340800 * Second.

(** Stand-ins for the libraries that know the texts above: every other
    text is refused. *)
Definition ext0 : Extern :=
  {| http_NewRequest_err := fun _ => None;
     json_Unmarshal_APIError := fun body =>
       if body =? sessionInvalidBody then Some (apiError "account_session_invalid")
       else if body =? permissionBody then Some (apiError "permission_denied")
       else None;
     json_Unmarshal_orgs := fun body =>
       if body =? orgsBody then inl [ {| ID := "org-1"; Name := "Acme" |} ]
       else inr "invalid character";
     json_Unmarshal_usage := fun body =>
       if body =? usageBody then inl usageResponse
       else inr "invalid character";
     time_Parse := fun layout value =>
       if layout =? api.RFC3339 then
         if value =? "2026-01-01T05:00:00Z" then Some t_2026_01_01_05h
         else if (value =? "2026-01-07T00:00:00Z")
                 || (value =? "2026-01-07T00:00:00.000Z")
                 || (value =? "2026-01-07T00:00:00+00:00")
         then Some t_2026_01_07_00h
         else None
       else None |}.

(** A server that answers the n-th request with the n-th outcome of
    [script], and with [otherwise] once the script is over. *)
Definition server (script : list HttpOutcome) (otherwise : HttpOutcome)
  : nat -> Request -> HttpOutcome :=
  fun n _ => nth n script otherwise.

Definition world0 (net : nat -> Request -> HttpOutcome) : World :=
  {| net := net; sent := 0;
     clock := fun _ => (t_2026_01_01_05h - 3600 * Second)%Z;
     readings := 0;
     disk := fun _ => None; saves := 0;
     browser := fun _ => inr "no cookie store"; extractions := 0;
     trace := [] |}.

Definition config0 : config.Config :=
  {| config.SessionKey := "sk-ant-sid01-abc";
     config.OrganizationID := "org-1";
     config.RefreshInterval := 60;
     config.AlertThresholds := [50%float; 75%float; 90%float];
     config.NotificationsEnabled := true |}.

Definition client0 : Client :=
  {| sessionKey := "sk-ant-sid01-abc"; organizationID := "org-1";
     lastUsage := None; lastFetch := zeroTime |}.

Definition app0 : App :=
  {| consecutiveErrors := 0; rateLimitBackoff := 0;
     lastSessionThreshold := 0%float; lastWeeklyThreshold := 0%float |}.

(** An authenticated, freshly started program in front of [net]. *)
Definition st0 (net : nat -> Request -> HttpOutcome) : State :=
  {| client := client0; config := config0; app := app0; world := world0 net |}.

(** The same program once a snapshot is cached. *)
Definition cached (net : nat -> Request -> HttpOutcome) : State :=
  with_client (fun c =>
    {| sessionKey := sessionKey c; organizationID := organizationID c;
       lastUsage := Some (api.ToUsageData ext0 usageResponse (t_2026_01_01_05h - 7200 * Second));
       lastFetch := (t_2026_01_01_05h - 7200 * Second)%Z |}) (st0 net).

(** A snapshot whose session utilization is [u]. *)
Definition sessionAt (u : float) : UsageData :=
  {| FiveHour := {| Utilization := u; ResetsAt := zeroTime; Label := "5-Hour" |};
     SevenDay := {| Utilization := 5%float; ResetsAt := zeroTime; Label := "Weekly" |};
     SevenDayOpus := api.zeroUsageStat;
     SevenDaySonnet := api.zeroUsageStat;
     LastUpdated := zeroTime |}.

(** The program with notifications switched off. *)
Definition muted (net : nat -> Request -> HttpOutcome) : State :=
  with_config (fun c =>
    {| config.SessionKey := config.SessionKey c;
       config.OrganizationID := config.OrganizationID c;
       config.RefreshInterval := config.RefreshInterval c;
       config.AlertThresholds := config.AlertThresholds c;
       config.NotificationsEnabled := false |}) (st0 net).

(** A machine without the credentials file of the CLI, and one with it. *)
Definition noCredentials : string + string := inr "no such file or directory".
Definition cliCredentials : string + string := inl "org-cli".

(** A program that has just started: nothing installed in the client. *)
Definition started (net : nat -> Request -> HttpOutcome) : State :=
  with_client (fun _ =>
    {| sessionKey := ""; organizationID := "";
       lastUsage := None; lastFetch := zeroTime |}) (st0 net).

(** The first [n] ticks of the polling loop from [st]. *)
Fixpoint ticks (ext : Extern) (n : nat) (st : State)
  : list (app.Completion * State) :=
  match n with
  | O => []
  | S n' => app.fetchUsage ext st :: ticks ext n' (snd (app.fetchUsage ext st))
  end.

End fixtures.

(** * Properties *)

(** ** The order of binary64 *)

Module F64_facts.
Import F64.

Lemma SFcompare_key a b ka kb :
  sf_key a = Some ka -> sf_key b = Some kb ->
  (SFcompare a b = Some Lt <-> key_lt ka kb) /\
  (SFcompare a b = Some Gt <-> key_lt kb ka) /\
  (SFcompare a b = Some Eq <-> ka = kb).
Proof.
  destruct a as [sa|sa| |sa ma ea], b as [sb|sb| |sb mb eb]; simpl;
    try destruct sa; try destruct sb; simpl; intros Ha Hb;
    inversion Ha; inversion Hb; subst; clear Ha Hb; unfold key_lt;
    try (repeat split; intros H; try discriminate H; try reflexivity;
         try lia; try (inversion H; lia); fail).
  - destruct (Z.compare_spec ea eb) as [E|E|E];
      [ subst; change (Pos.compare_cont Eq ma mb) with (Pos.compare ma mb);
        destruct (Pos.compare_spec ma mb) as [F|F|F]; simpl | | ];
      repeat split; intros H; try discriminate H; try reflexivity;
        try (subst; reflexivity); try lia; try (inversion H; lia).
  - destruct (Z.compare_spec ea eb) as [E|E|E];
      [ subst; change (Pos.compare_cont Eq ma mb) with (Pos.compare ma mb);
        destruct (Pos.compare_spec ma mb) as [F|F|F]; simpl | | ];
      repeat split; intros H; try discriminate H; try reflexivity;
        try (subst; reflexivity); try lia; try (inversion H; lia).
Qed.

Lemma SFcompare_nan a b :
  sf_key a = None \/ sf_key b = None -> SFcompare a b = None.
Proof.
  destruct a as [sa|sa| |sa ma ea], b as [sb|sb| |sb mb eb]; simpl;
    try destruct sa; try destruct sb; simpl; intros [H|H];
    try discriminate H; reflexivity.
Qed.

Lemma ltb_keys x y : (x <? y)%float = true <-> lt_keys (fkey x) (fkey y).
Proof.
  rewrite ltb_spec. unfold SFltb, lt_keys, fkey.
  destruct (sf_key (Prim2SF x)) as [ka|] eqn:Ex;
    [ destruct (sf_key (Prim2SF y)) as [kb|] eqn:Ey | ].
  - destruct (SFcompare_key _ _ _ _ Ex Ey) as (L & G & E).
    rewrite <- L. destruct (SFcompare (Prim2SF x) (Prim2SF y)) as [[ | | ]|];
      split; intros H; try discriminate H; reflexivity.
  - rewrite SFcompare_nan by (right; exact Ey). split; [discriminate | tauto].
  - rewrite SFcompare_nan by (left; exact Ex). split; [discriminate | tauto].
Qed.

Lemma leb_keys x y : (x <=? y)%float = true <-> le_keys (fkey x) (fkey y).
Proof.
  rewrite leb_spec. unfold SFleb, le_keys, fkey.
  destruct (sf_key (Prim2SF x)) as [ka|] eqn:Ex;
    [ destruct (sf_key (Prim2SF y)) as [kb|] eqn:Ey | ].
  - destruct (SFcompare_key _ _ _ _ Ex Ey) as (L & G & E).
    rewrite <- L, <- E.
    destruct (SFcompare (Prim2SF x) (Prim2SF y)) as [[ | | ]|];
      split; intros H; try discriminate H; try reflexivity; auto;
      destruct H as [H|H]; discriminate H.
  - rewrite SFcompare_nan by (right; exact Ey). split; [discriminate | tauto].
  - rewrite SFcompare_nan by (left; exact Ex). split; [discriminate | tauto].
Qed.

Lemma eqb_keys x y : (x =? y)%float = true <-> eq_keys (fkey x) (fkey y).
Proof.
  rewrite eqb_spec. unfold SFeqb, eq_keys, fkey.
  destruct (sf_key (Prim2SF x)) as [ka|] eqn:Ex;
    [ destruct (sf_key (Prim2SF y)) as [kb|] eqn:Ey | ].
  - destruct (SFcompare_key _ _ _ _ Ex Ey) as (L & G & E).
    rewrite <- E.
    destruct (SFcompare (Prim2SF x) (Prim2SF y)) as [[ | | ]|];
      split; intros H; try discriminate H; reflexivity.
  - rewrite SFcompare_nan by (right; exact Ey). split; [discriminate | tauto].
  - rewrite SFcompare_nan by (left; exact Ex). split; [discriminate | tauto].
Qed.

Lemma ltb_false_keys x y : (x <? y)%float = false <-> ~ lt_keys (fkey x) (fkey y).
Proof. rewrite <- ltb_keys. symmetry; apply not_true_iff_false. Qed.

Lemma leb_false_keys x y : (x <=? y)%float = false <-> ~ le_keys (fkey x) (fkey y).
Proof. rewrite <- leb_keys. symmetry; apply not_true_iff_false. Qed.

Lemma eqb_false_keys x y : (x =? y)%float = false <-> ~ eq_keys (fkey x) (fkey y).
Proof. rewrite <- eqb_keys. symmetry; apply not_true_iff_false. Qed.

Lemma fkey_zero : fkey 0%float = Some (0, 0, 0).
Proof. reflexivity. Qed.

(** Goals and hypotheses made of comparisons of floats, as facts about
    keys, which [lia] decides. *)
Ltac to_keys :=
  unfold ordered in *;
  rewrite ?ltb_keys, ?leb_keys, ?eqb_keys,
          ?ltb_false_keys, ?leb_false_keys, ?eqb_false_keys in *;
  rewrite ?fkey_zero in *.

Ltac split_keys :=
  repeat match goal with
         | |- context [fkey ?x] =>
             destruct (fkey x) as [[[? ?] ?]|]
         | H : context [fkey ?x] |- _ =>
             destruct (fkey x) as [[[? ?] ?]|]
         end.

Lemma key_eq (a1 a2 a3 b1 b2 b3 : Z) :
  (a1, a2, a3) = (b1, b2, b3) <-> a1 = b1 /\ a2 = b2 /\ a3 = b3.
Proof.
  split; [ intros H; inversion H; auto | intros (-> & -> & ->); reflexivity ].
Qed.

Ltac order :=
  to_keys; split_keys;
  unfold lt_keys, le_keys, eq_keys, key_lt in *;
  rewrite ?key_eq in *;
  try tauto; try lia.

End F64_facts.

(** ** [highestCrossedThreshold] *)

Module threshold_facts.
Import F64 F64_facts app.

(** The loop from an accumulator [h] that is a number: the result is [h]
    or a crossed threshold above [h], and it bounds [h] and every crossed
    threshold. *)
Lemma loop_inv u T : forall h,
  ordered h ->
  let r := highestCrossedThreshold_loop u T h in
  (r = h \/ (In r T /\ (r <=? u)%float = true /\ (h <? r)%float = true)) /\
  (forall t, In t T -> (t <=? u)%float = true -> (t <=? r)%float = true) /\
  (h <=? r)%float = true.
Proof.
  induction T as [|t0 rest IH]; intros h Hh; simpl.
  - repeat split; [ now left | intros t [] | order ].
  - destruct (t0 <=? u)%float eqn:Ecross; simpl;
      [ destruct (h <? t0)%float eqn:Eabove | ]; simpl.
    + assert (Ht0 : ordered t0) by order.
      destruct (IH t0 Ht0) as (Hr & Hmax & Hle).
      repeat split.
      * right. destruct Hr as [-> | (Hin & Hru & Hlt)].
        -- repeat split; [ now left | assumption | assumption ].
        -- repeat split; [ now right | assumption | ].
           revert Eabove Hlt; clear; intros; order.
      * intros t [<- | Hin] Ht; [ assumption | now apply Hmax ].
      * revert Eabove Hle; clear; intros; order.
    + destruct (IH h Hh) as (Hr & Hmax & Hle).
      repeat split.
      * destruct Hr as [-> | (Hin & Hru & Hlt)]; [ now left | right ].
        repeat split; [ now right | assumption | assumption ].
      * intros t [<- | Hin] Ht; [ | now apply Hmax ].
        revert Hh Ht Eabove Hle; clear; intros; order.
      * assumption.
    + destruct (IH h Hh) as (Hr & Hmax & Hle).
      repeat split.
      * destruct Hr as [-> | (Hin & Hru & Hlt)]; [ now left | right ].
        repeat split; [ now right | assumption | assumption ].
      * intros t [<- | Hin] Ht; [ congruence | now apply Hmax ].
      * assumption.
Qed.

End threshold_facts.

(** C4 (as amended).  For every utilization [u] and every list of
    thresholds [T], let [r] be [highestCrossedThreshold u T].  When some
    threshold above zero is crossed ([0 < t <= u] for a [t] of [T]), [r] is
    the maximum of the crossed thresholds of [T], and it is above zero.
    When no threshold above zero is crossed, in particular when none is
    crossed at all, [r] is [0]. *)
Theorem highestCrossedThreshold_max_above_zero (u : float) (T : list float) :
  let r := app.highestCrossedThreshold u T in
  ((exists t, In t T /\ (0 <? t)%float = true /\ (t <=? u)%float = true) ->
   spec.is_max_crossed u T r /\ (0 <? r)%float = true) /\
  ((forall t, In t T -> (0 <? t)%float = true -> (t <=? u)%float = true -> False) ->
   r = 0%float).
Proof.
  intros r.
  assert (H0 : F64.ordered 0%float) by reflexivity.
  destruct (threshold_facts.loop_inv u T 0%float H0) as (Hr & Hmax & _).
  fold (app.highestCrossedThreshold u T) in Hr, Hmax. fold r in Hr, Hmax.
  split.
  - intros (t & Hin & Hpos & Hcross).
    pose proof (Hmax t Hin Hcross) as Htr.
    assert (Hrpos : (0 <? r)%float = true)
      by (revert Hpos Htr; clear; intros; F64_facts.order).
    destruct Hr as [Hr | (Hrin & Hru & _)].
    + rewrite Hr in Hrpos. discriminate Hrpos.
    + repeat split; assumption.
  - intros Hnone. destruct Hr as [Hr | (Hrin & Hru & Hpos)]; [ exact Hr | ].
    destruct (Hnone r Hrin Hpos Hru).
Qed.

(** C4 (counterexample).  With the one threshold [-5] and utilization [0],
    the maximum of the crossed thresholds is [-5], and the function returns
    [0]. *)
Lemma highestCrossedThreshold_below_zero :
  spec.is_max_crossed 0%float [(-5)%float] (-5)%float /\
  app.highestCrossedThreshold 0%float [(-5)%float] = 0%float /\
  app.highestCrossedThreshold 0%float [(-5)%float] <> (-5)%float.
Proof.
  repeat split.
  - now left.
  - intros t [<- | []] _. reflexivity.
  - intros H. apply (f_equal (fun x => (x <? 0)%float)) in H.
    vm_compute in H. discriminate H.
Qed.

(** The example of the specification: thresholds 50, 75 and 90 at 80. *)
Example highestCrossedThreshold_80 :
  app.highestCrossedThreshold 80%float [50%float; 75%float; 90%float] = 75%float.
Proof. reflexivity. Qed.

(** ** The client *)

Module client_facts.
Import api spec.
Local Open Scope string_scope.

Lemma error_eqb_refl e : error_eqb e e = true.
Proof.
  destruct e; simpl; try reflexivity;
    try apply Z.eqb_refl; apply String.eqb_refl.
Qed.

Lemma error_eqb_eq a b : error_eqb a b = true <-> a = b.
Proof.
  split; [ | intros ->; apply error_eqb_refl ].
  destruct a, b; simpl; intros H; try discriminate H; try reflexivity;
    try (apply Z.eqb_eq in H; now subst);
    apply String.eqb_eq in H; now subst.
Qed.

(** For the two auth errors [errors.Is] and [==] agree on every error of
    the program. *)
Lemma errors_Is_auth e :
  errors_Is e ErrUnauthorized || errors_Is e ErrSessionExpired = auth_error e.
Proof. destruct e; reflexivity. Qed.

Lemma auth_error_iff e :
  auth_error e = true <-> e = ErrUnauthorized \/ e = ErrSessionExpired.
Proof.
  unfold auth_error. rewrite orb_true_iff, !error_eqb_eq. tauto.
Qed.

Section WithExtern.
Variable ext : Extern.

(** The loops, run twice from attempt 0, are the retry policy. *)
Lemma FetchUsage_loop_policy sk org st :
  FetchUsage_loop ext 2 0 sk org None st
  = retried_once (fetchUsageOnce ext sk org) st.
Proof.
  unfold retried_once, slept, sleep, event, modify. simpl. unfold bind, ret. simpl.
  destruct (fetchUsageOnce ext sk org st) as [[usage | e1] st1]; [ reflexivity | ].
  rewrite errors_Is_auth. destruct (auth_error e1); [ reflexivity | ].
  destruct (fetchUsageOnce ext sk org _) as [[usage | e2] st2]; [ reflexivity | ].
  rewrite errors_Is_auth. destruct (auth_error e2); reflexivity.
Qed.

Lemma FetchOrganizations_loop_policy sk st :
  FetchOrganizations_loop ext 2 0 sk None st
  = retried_once (fetchOrganizationsOnce ext sk) st.
Proof.
  unfold retried_once, slept, sleep, event, modify. simpl. unfold bind, ret. simpl.
  destruct (fetchOrganizationsOnce ext sk st) as [[orgs | e1] st1]; [ reflexivity | ].
  fold (auth_error e1). destruct (auth_error e1); [ reflexivity | ].
  destruct (fetchOrganizationsOnce ext sk _) as [[orgs | e2] st2]; [ reflexivity | ].
  fold (auth_error e2). destruct (auth_error e2); reflexivity.
Qed.

Lemma FetchUsage_with_credentials st :
  sessionKey (client st) <> "" -> organizationID (client st) <> "" ->
  FetchUsage ext st
  = retried_once
      (fetchUsageOnce ext (sessionKey (client st)) (organizationID (client st))) st.
Proof.
  intros Hk Ho. unfold FetchUsage, GetSessionKey, GetOrganizationID, bind, gets.
  apply String.eqb_neq in Hk, Ho. rewrite Hk, Ho.
  apply FetchUsage_loop_policy.
Qed.

Lemma FetchOrganizations_with_key st :
  sessionKey (client st) <> "" ->
  FetchOrganizations ext st
  = retried_once (fetchOrganizationsOnce ext (sessionKey (client st))) st.
Proof.
  intros Hk. unfold FetchOrganizations, GetSessionKey, bind, gets.
  apply String.eqb_neq in Hk. rewrite Hk.
  apply FetchOrganizations_loop_policy.
Qed.

(** A failed attempt leaves the client as it was. *)
Lemma fetchUsageOnce_error_client sk org st e st' :
  fetchUsageOnce ext sk org st = (inr e, st') -> client st' = client st.
Proof.
  unfold fetchUsageOnce.
  destruct (http_NewRequest_err ext _); unfold bind, roundTrip, ret; simpl.
  - intros H; inversion H; reflexivity.
  - destruct (net (world st) (sent (world st)) _) as [msg | status msg | status body].
    + intros H; inversion H; reflexivity.
    + intros H; inversion H; reflexivity.
    + destruct ((status =? 401) || (status =? 403))%Z.
      { destruct (negb _ && _); intros H; inversion H; reflexivity. }
      destruct (status =? 429)%Z; [ intros H; inversion H; reflexivity | ].
      destruct (500 <=? status)%Z; [ intros H; inversion H; reflexivity | ].
      destruct (negb (status =? 200)%Z); [ intros H; inversion H; reflexivity | ].
      destruct (json_Unmarshal_usage ext body); simpl.
      * intros H; discriminate H.
      * intros H; inversion H; reflexivity.
Qed.

Lemma retried_once_error_client {A : Type} (attempt : St (A + error)) :
  (forall st e st', attempt st = (inr e, st') -> client st' = client st) ->
  forall st e st',
    retried_once attempt st = (inr e, st') -> client st' = client st.
Proof.
  intros Hattempt st e st'. unfold retried_once.
  destruct (attempt st) as [[a | e1] st1] eqn:E1; [ discriminate | ].
  apply Hattempt in E1.
  destruct (auth_error e1).
  - intros H; inversion H; subst; exact E1.
  - destruct (attempt (slept (2 * Second) st1)) as [[a | e2] st2] eqn:E2;
      simpl; intros H; inversion H; subst.
    apply Hattempt in E2. rewrite E2. exact E1.
Qed.

(** What [fetchUsageOnce] makes of a response that was read. *)
Lemma fetchUsageOnce_throttled sk org st status body err :
  http_NewRequest_err ext (req_url (usageRequest sk org)) = None ->
  net (world st) (sent (world st)) (usageRequest sk org) = Response status body ->
  throttle_class status = Some err ->
  fetchUsageOnce ext sk org st = (inr err, requested (usageRequest sk org) st).
Proof.
  intros Hurl Hnet Hclass. unfold fetchUsageOnce.
  change (http_NewRequest_err ext
            (baseURL ++ "/api/organizations/" ++ org ++ "/usage"))
    with (http_NewRequest_err ext (req_url (usageRequest sk org))).
  rewrite Hurl. fold (usageRequest sk org).
  unfold bind, roundTrip, requested. simpl. rewrite Hnet.
  unfold throttle_class in Hclass.
  destruct (status =? 429)%Z eqn:E429.
  - apply Z.eqb_eq in E429. subst status. inversion Hclass. reflexivity.
  - destruct (500 <=? status)%Z eqn:E500; [ | discriminate Hclass ].
    apply Z.leb_le in E500.
    assert (E401 : (status =? 401)%Z = false) by (apply Z.eqb_neq; lia).
    assert (E403 : (status =? 403)%Z = false) by (apply Z.eqb_neq; lia).
    rewrite E401, E403. inversion Hclass. reflexivity.
Qed.

Lemma throttle_class_not_auth status err :
  throttle_class status = Some err -> auth_error err = false.
Proof.
  unfold throttle_class.
  destruct (status =? 429)%Z; [ intros H; inversion H; reflexivity | ].
  destruct (500 <=? status)%Z; intros H; inversion H; reflexivity.
Qed.

End WithExtern.

End client_facts.

(** C7.  In every state, [FetchUsage] with an empty session key returns
    [ErrNoSessionKey], and with a session key but an empty organization ID
    it returns [ErrNoOrgID], a different error; in both cases the state it
    leaves is the state it found, so no request was sent. *)
Theorem FetchUsage_without_credentials (ext : Extern) (st : State) :
  (sessionKey (client st) = ""%string ->
   api.FetchUsage ext st = (inr (Some ErrNoSessionKey), st)) /\
  (sessionKey (client st) <> ""%string -> organizationID (client st) = ""%string ->
   api.FetchUsage ext st = (inr (Some ErrNoOrgID), st)) /\
  ErrNoSessionKey <> ErrNoOrgID.
Proof.
  unfold api.FetchUsage, api.GetSessionKey, api.GetOrganizationID, bind, gets, ret.
  repeat split.
  - intros ->. reflexivity.
  - intros Hk ->. apply String.eqb_neq in Hk. rewrite Hk. reflexivity.
  - discriminate.
Qed.

(** C5.  With a session key, [FetchOrganizations] follows the retry policy
    over [fetchOrganizationsOnce], and with an organization ID too,
    [FetchUsage] follows it over [fetchUsageOnce]: a first attempt whose
    success or auth error ([ErrUnauthorized], [ErrSessionExpired]) is
    returned at once; after any other error a sleep of two seconds and
    exactly one more attempt, whose result or error is returned. *)
Theorem fetches_retry_once_unless_auth_error (ext : Extern) (st : State) :
  sessionKey (client st) <> ""%string ->
  api.FetchOrganizations ext st
  = spec.retried_once
      (api.fetchOrganizationsOnce ext (sessionKey (client st))) st /\
  (organizationID (client st) <> ""%string ->
   api.FetchUsage ext st
   = spec.retried_once
       (api.fetchUsageOnce ext (sessionKey (client st)) (organizationID (client st)))
       st).
Proof.
  intros Hk. split.
  - now apply client_facts.FetchOrganizations_with_key.
  - intros Ho. now apply client_facts.FetchUsage_with_credentials.
Qed.

(** C5 at a server whose first round trip fails and whose second one
    answers 200. *)
Lemma fetches_retry_once_witness :
  let st := fixtures.st0
              (fixtures.server [DoError "timeout"] (Response 200 fixtures.usageBody)) in
  api.FetchOrganizations fixtures.ext0 st
  = spec.retried_once
      (api.fetchOrganizationsOnce fixtures.ext0 (sessionKey (client st))) st /\
  (organizationID (client st) <> ""%string ->
   api.FetchUsage fixtures.ext0 st
   = spec.retried_once
       (api.fetchUsageOnce fixtures.ext0 (sessionKey (client st))
          (organizationID (client st))) st).
Proof.
  intros st. apply (fetches_retry_once_unless_auth_error fixtures.ext0 st).
  discriminate.
Defined.

(** The run of that witness: two requests around one sleep of two
    seconds, and the snapshot of the second answer. *)
Example FetchUsage_transient_failure :
  let st := fixtures.st0
              (fixtures.server [DoError "timeout"] (Response 200 fixtures.usageBody)) in
  let req := spec.usageRequest "sk-ant-sid01-abc" "org-1" in
  let '(r, st') := api.FetchUsage fixtures.ext0 st in
  (exists usage, r = inl usage /\ lastUsage (client st') = Some usage) /\
  trace (world st') = [EvRequest req; EvSleep (2 * Second); EvRequest req].
Proof. vm_compute. split; [ eexists; split; reflexivity | reflexivity ]. Qed.

(** C1 (as amended).  With credentials, when the first round trip of
    [FetchUsage] is answered with status 429 (with a status of 500 or
    more), that attempt is classified [ErrRateLimited]
    ([ErrAPIUnavailable]); the client then sleeps two seconds and makes
    exactly one more attempt, whose result it returns.  When the second
    round trip is answered with 429 (500 or more) too, [ErrRateLimited]
    ([ErrAPIUnavailable]) is returned after two requests and one sleep. *)
Theorem FetchUsage_throttled_is_retried_once (ext : Extern) (st : State)
  (status1 : Z) (body1 : string) (err1 : error) :
  let sk := sessionKey (client st) in
  let org := organizationID (client st) in
  let req := spec.usageRequest sk org in
  let st1 := spec.slept (2 * Second) (spec.requested req st) in
  sk <> ""%string -> org <> ""%string ->
  http_NewRequest_err ext (req_url req) = None ->
  net (world st) (sent (world st)) req = Response status1 body1 ->
  spec.throttle_class status1 = Some err1 ->
  api.fetchUsageOnce ext sk org st = (inr err1, spec.requested req st) /\
  api.FetchUsage ext st
  = (let '(r2, st2) := api.fetchUsageOnce ext sk org st1 in (spec.returned r2, st2)) /\
  (forall status2 body2 err2,
      net (world st) (S (sent (world st))) req = Response status2 body2 ->
      spec.throttle_class status2 = Some err2 ->
      api.FetchUsage ext st = (inr (Some err2), spec.requested req st1) /\
      trace (world (spec.requested req st1))
      = (trace (world st) ++ [EvRequest req; EvSleep (2 * Second); EvRequest req])%list).
Proof.
  intros sk org req st1 Hk Ho Hurl Hnet Hclass.
  pose proof (client_facts.fetchUsageOnce_throttled ext sk org st _ _ _ Hurl Hnet Hclass)
    as Hfirst.
  assert (Hfetch : api.FetchUsage ext st
    = (let '(r2, st2) := api.fetchUsageOnce ext sk org st1 in (spec.returned r2, st2))).
  { rewrite client_facts.FetchUsage_with_credentials by assumption.
    unfold spec.retried_once. fold sk org. rewrite Hfirst.
    rewrite (client_facts.throttle_class_not_auth _ _ Hclass). reflexivity. }
  repeat split; [ exact Hfirst | exact Hfetch | | ].
  - rewrite Hfetch.
    rewrite (client_facts.fetchUsageOnce_throttled ext sk org st1 status2 body2 err2);
      [ reflexivity | exact Hurl | exact H | exact H0 ].
  - simpl. rewrite <- !app_assoc. reflexivity.
Qed.

(** C1 at a server that answers 429 twice. *)
Lemma FetchUsage_throttled_witness :
  let st := fixtures.st0 (fixtures.server [] (Response 429 "")) in
  let req := spec.usageRequest "sk-ant-sid01-abc" "org-1" in
  api.FetchUsage fixtures.ext0 st
  = (inr (Some ErrRateLimited),
     spec.requested req (spec.slept (2 * Second) (spec.requested req st))).
Proof.
  intros st req.
  refine (proj1 (proj2 (proj2
    (FetchUsage_throttled_is_retried_once fixtures.ext0 st 429 "" ErrRateLimited
       _ _ _ _ _)) 429 ""%string ErrRateLimited _ _));
    try reflexivity; discriminate.
Defined.

(** C1 (counterexample).  Every round trip is answered with status 429
    (with 503): [FetchUsage] returns [ErrRateLimited] ([ErrAPIUnavailable])
    after two requests, between which it slept two seconds. *)
Lemma FetchUsage_throttled_not_single_attempt :
  let req := spec.usageRequest "sk-ant-sid01-abc" "org-1" in
  let run status :=
    api.FetchUsage fixtures.ext0
      (fixtures.st0 (fixtures.server [] (Response status ""))) in
  fst (run 429) = inr (Some ErrRateLimited) /\
  fst (run 503) = inr (Some ErrAPIUnavailable) /\
  trace (world (snd (run 429))) = [EvRequest req; EvSleep (2 * Second); EvRequest req] /\
  trace (world (snd (run 503))) = [EvRequest req; EvSleep (2 * Second); EvRequest req] /\
  sent (world (snd (run 429))) = 2%nat /\
  sent (world (snd (run 503))) = 2%nat.
Proof. vm_compute. repeat split. Qed.

(** C6.  A response with status 401 or 403 makes [fetchUsageOnce], and
    [fetchOrganizationsOnce] alike, return [ErrSessionExpired] when the body
    parses as the structured API error with the error code
    ["account_session_invalid"], and [ErrUnauthorized] otherwise: for any
    other error code and for a body that does not parse. *)
Theorem auth_status_refined_by_error_code (ext : Extern) (st : State)
  (sk org : string) (status : Z) (body : string) :
  status = 401 \/ status = 403 ->
  let classified :=
    fun e : error =>
      (spec.session_invalid ext body -> e = ErrSessionExpired) /\
      (~ spec.session_invalid ext body -> e = ErrUnauthorized) in
  (http_NewRequest_err ext (req_url (spec.usageRequest sk org)) = None ->
   net (world st) (sent (world st)) (spec.usageRequest sk org) = Response status body ->
   exists e,
     api.fetchUsageOnce ext sk org st
     = (inr e, spec.requested (spec.usageRequest sk org) st) /\ classified e) /\
  (http_NewRequest_err ext (req_url (spec.orgsRequest sk)) = None ->
   net (world st) (sent (world st)) (spec.orgsRequest sk) = Response status body ->
   exists e,
     api.fetchOrganizationsOnce ext sk st
     = (inr e, spec.requested (spec.orgsRequest sk) st) /\ classified e).
Proof.
  intros Hstatus classified.
  assert (Hauth : ((status =? 401) || (status =? 403))%Z = true)
    by (destruct Hstatus; subst; reflexivity).
  assert (Hcode : forall code : string,
             (negb (code =? "") && (code =? "account_session_invalid"))%string
             = (code =? "account_session_invalid")%string).
  { intros code. destruct (code =? "account_session_invalid")%string eqn:E.
    - apply String.eqb_eq in E. subst code. reflexivity.
    - apply andb_false_r. }
  assert (Hparse : classified
            (if (api.parseAPIError ext body =? "account_session_invalid")%string
             then ErrSessionExpired else ErrUnauthorized)).
  { unfold classified, spec.session_invalid, api.parseAPIError.
    destruct (json_Unmarshal_APIError ext body) as [apiErr|].
    - destruct (ErrorCode (Details (Error apiErr)) =? "account_session_invalid")%string
        eqn:E; split; intros H; try reflexivity.
      + exfalso. apply H. exists apiErr. apply String.eqb_eq in E. now split.
      + destruct H as (apiErr' & Hsome & Hcode'). inversion Hsome; subst apiErr'.
        apply String.eqb_neq in E. contradiction.
    - simpl. split; intros H; [ | reflexivity ].
      destruct H as (apiErr' & Hsome & _). discriminate Hsome. }
  split; intros Hurl Hnet.
  - eexists. split; [ | exact Hparse ].
    unfold api.fetchUsageOnce.
    change (http_NewRequest_err ext
              (api.baseURL ++ "/api/organizations/" ++ org ++ "/usage"))
      with (http_NewRequest_err ext (req_url (spec.usageRequest sk org))).
    rewrite Hurl. fold (spec.usageRequest sk org).
    unfold bind, roundTrip, spec.requested. simpl. rewrite Hnet, Hauth, Hcode.
    destruct (api.parseAPIError ext body =? "account_session_invalid")%string;
      reflexivity.
  - eexists. split; [ | exact Hparse ].
    unfold api.fetchOrganizationsOnce.
    change (http_NewRequest_err ext (api.baseURL ++ "/api/organizations"))
      with (http_NewRequest_err ext (req_url (spec.orgsRequest sk))).
    rewrite Hurl. fold (spec.orgsRequest sk).
    unfold bind, roundTrip, spec.requested. simpl. rewrite Hnet, Hauth.
    destruct (api.parseAPIError ext body =? "account_session_invalid")%string;
      reflexivity.
Qed.

(** C6 at a 401 whose body is the structured error with the code
    ["account_session_invalid"]: the example of the specification. *)
Lemma auth_status_witness :
  let st := fixtures.st0
              (fixtures.server [] (Response 401 fixtures.sessionInvalidBody)) in
  exists e,
    api.fetchUsageOnce fixtures.ext0 "sk-ant-sid01-abc" "org-1" st
    = (inr e, spec.requested (spec.usageRequest "sk-ant-sid01-abc" "org-1") st) /\
    e = ErrSessionExpired.
Proof.
  intros st.
  destruct (proj1 (auth_status_refined_by_error_code fixtures.ext0 st
                     "sk-ant-sid01-abc" "org-1" 401 fixtures.sessionInvalidBody
                     (or_introl eq_refl)) eq_refl eq_refl)
    as (e & Hrun & Hexpired & _).
  exists e. split; [ exact Hrun | ].
  apply Hexpired. eexists. split; reflexivity.
Defined.

(** The three kinds of 401: the invalid session, another error code, a
    body that is no JSON. *)
Example fetchUsageOnce_401 :
  let run body :=
    fst (api.fetchUsageOnce fixtures.ext0 "sk-ant-sid01-abc" "org-1"
           (fixtures.st0 (fixtures.server [] (Response 401 body)))) in
  run fixtures.sessionInvalidBody = inr ErrSessionExpired /\
  run fixtures.permissionBody = inr ErrUnauthorized /\
  run "<html>"%string = inr ErrUnauthorized.
Proof. vm_compute. repeat split. Qed.

(** C10.  When [FetchUsage] returns an error, [lastUsage] and [lastFetch]
    are what they were before the call (the client as a whole is); when it
    returns a snapshot, that snapshot is the new [lastUsage]. *)
Theorem FetchUsage_error_keeps_cache (ext : Extern) (st st' : State)
  (r : UsageData + option error) :
  api.FetchUsage ext st = (r, st') ->
  match r with
  | inr _ =>
      lastUsage (client st') = lastUsage (client st) /\
      lastFetch (client st') = lastFetch (client st)
  | inl usage => lastUsage (client st') = Some usage
  end.
Proof.
  intros Hrun.
  destruct r as [usage | e].
  - revert Hrun.
    unfold api.FetchUsage, api.GetSessionKey, api.GetOrganizationID, bind, gets, ret.
    destruct (sessionKey (client st) =? "")%string; [ discriminate | ].
    destruct (organizationID (client st) =? "")%string; [ discriminate | ].
    rewrite client_facts.FetchUsage_loop_policy. unfold spec.retried_once.
    assert (Hok : forall s u s',
               api.fetchUsageOnce ext (sessionKey (client st))
                 (organizationID (client st)) s = (inl u, s') ->
               lastUsage (client s') = Some u).
    { intros s u s'. unfold api.fetchUsageOnce.
      destruct (http_NewRequest_err ext _); unfold bind, roundTrip, ret; simpl;
        [ discriminate | ].
      destruct (net (world s) (sent (world s)) _) as [msg | status msg | status body];
        try discriminate.
      destruct ((status =? 401) || (status =? 403))%Z;
        [ destruct (negb _ && _); discriminate | ].
      destruct (status =? 429)%Z; [ discriminate | ].
      destruct (500 <=? status)%Z; [ discriminate | ].
      destruct (negb (status =? 200)%Z); [ discriminate | ].
      destruct (json_Unmarshal_usage ext body); simpl; [ | discriminate ].
      intros H; inversion H; reflexivity. }
    destruct (api.fetchUsageOnce ext _ _ st) as [[u1 | e1] st1] eqn:E1.
    + intros H; inversion H; subst. eapply Hok; exact E1.
    + destruct (spec.auth_error e1); [ discriminate | ].
      destruct (api.fetchUsageOnce ext _ _ (spec.slept _ st1)) as [[u2 | e2] st2] eqn:E2;
        simpl; intros H; inversion H; subst.
      eapply Hok; exact E2.
  - assert (Hclient : client st' = client st).
    { revert Hrun.
      unfold api.FetchUsage, api.GetSessionKey, api.GetOrganizationID, bind, gets, ret.
      destruct (sessionKey (client st) =? "")%string;
        [ intros H; inversion H; reflexivity | ].
      destruct (organizationID (client st) =? "")%string;
        [ intros H; inversion H; reflexivity | ].
      rewrite client_facts.FetchUsage_loop_policy.
      destruct e as [e|].
      - apply client_facts.retried_once_error_client.
        apply client_facts.fetchUsageOnce_error_client.
      - unfold spec.retried_once.
        destruct (api.fetchUsageOnce ext _ _ st) as [[u1 | e1] st1]; [ discriminate | ].
        destruct (spec.auth_error e1); [ discriminate | ].
        destruct (api.fetchUsageOnce ext _ _ (spec.slept _ st1)) as [[u2 | e2] st2];
          discriminate. }
    rewrite Hclient. split; reflexivity.
Qed.

(** C10 at a server that answers 503, in front of a client with a cached
    snapshot. *)
Lemma FetchUsage_error_keeps_cache_witness :
  let st := fixtures.cached (fixtures.server [] (Response 503 "")) in
  let st' := snd (api.FetchUsage fixtures.ext0 st) in
  fst (api.FetchUsage fixtures.ext0 st) = inr (Some ErrAPIUnavailable) /\
  lastUsage (client st') = lastUsage (client st) /\
  lastFetch (client st') = lastFetch (client st).
Proof.
  intros st st'. split; [ reflexivity | ].
  apply (FetchUsage_error_keeps_cache fixtures.ext0 st st'
           (inr (Some ErrAPIUnavailable))).
  reflexivity.
Defined.

(** ** [parseTime] and [ToUsageData] *)

Module time_facts.
Import api spec.
Local Open Scope string_scope.

Section WithExtern.
Variable ext : Extern.

Lemma parseTime_formats_first s t before layout after :
  Forall (fun l => time_Parse ext l s = None) before ->
  time_Parse ext layout s = Some t ->
  parseTime_formats ext (before ++ layout :: after) s = t.
Proof.
  induction 1 as [|l before Hl _ IH]; intros Hlayout; simpl.
  - now rewrite Hlayout.
  - rewrite Hl. now apply IH.
Qed.

Lemma parseTime_formats_none s layouts :
  Forall (fun l => time_Parse ext l s = None) layouts ->
  parseTime_formats ext layouts s = zeroTime.
Proof.
  induction 1 as [|l layouts Hl _ IH]; simpl; [ reflexivity | now rewrite Hl ].
Qed.

Lemma parseTime_accepted s t : accepted ext s t -> parseTime ext s = t.
Proof.
  intros (Hs & before & layout & after & Hformats & Hbefore & Hlayout).
  unfold parseTime. apply String.eqb_neq in Hs. rewrite Hs.
  change formats with layouts. rewrite Hformats.
  now apply parseTime_formats_first.
Qed.

Lemma parseTime_zero s : s = "" \/ unparseable ext s -> parseTime ext s = zeroTime.
Proof.
  unfold parseTime. intros [-> | Hnone]; [ reflexivity | ].
  destruct (s =? ""); [ reflexivity | ].
  change formats with layouts. now apply parseTime_formats_none.
Qed.

End WithExtern.

End time_facts.

(** C9.  [ToUsageData] is total and, for each of the four metrics, gives
    the normalized form of the raw metric under its fixed label:
    ["5-Hour"], ["Weekly"], ["Opus"], ["Sonnet"].  A metric that is present
    keeps its utilization, takes the label, and its [ResetsAt] is the
    instant that [time.Parse] yields for its [resets_at] string under the
    first of the four layouts [spec.layouts], in their order, that
    accepts it, or the zero time when the string is empty or accepted
    under none of the four; a metric that is absent leaves the zero
    [UsageStat].  The timestamps that are read are those of the four
    layouts, not those of ISO 8601. *)
Theorem ToUsageData_normalizes (ext : Extern) (r : UsageAPIResponse) (t : Time) :
  let data := api.ToUsageData ext r t in
  spec.normalized ext "5-Hour" (resp_FiveHour r) (FiveHour data) /\
  spec.normalized ext "Weekly" (resp_SevenDay r) (SevenDay data) /\
  spec.normalized ext "Opus" (resp_SevenDayOpus r) (SevenDayOpus data) /\
  spec.normalized ext "Sonnet" (resp_SevenDaySonnet r) (SevenDaySonnet data) /\
  LastUpdated data = t.
Proof.
  destruct r as [[m5|] [m7|] [mo|] [ms|]]; simpl;
    repeat split; try apply time_facts.parseTime_accepted;
    try apply time_facts.parseTime_zero.
Qed.

(** C9 (counterexample).  All four metrics are present, each with a valid
    ISO-8601 timestamp; the one of the session, [2026-01-01T05:00Z], has no
    seconds.  Each of the four layouts has the field of the seconds, which
    [time.Parse] requires of the value, so the text is accepted under none
    of them: the session's [ResetsAt] is the zero time and not the instant
    that the text denotes, while the three other timestamps are read. *)
Lemma ToUsageData_iso8601_without_seconds :
  let raw := fixtures.withoutSeconds in
  let data := api.ToUsageData fixtures.ext0 raw 0 in
  map (option_map (fun m => iso8601.instant (metric_ResetsAt m)))
    [resp_FiveHour raw; resp_SevenDay raw; resp_SevenDayOpus raw;
     resp_SevenDaySonnet raw]
  = [Some (Some fixtures.t_2026_01_01_05h); Some (Some fixtures.t_2026_01_07_00h);
     Some (Some fixtures.t_2026_01_07_00h); Some (Some fixtures.t_2026_01_07_00h)] /\
  spec.unparseable fixtures.ext0 "2026-01-01T05:00Z" /\
  ResetsAt (FiveHour data) = zeroTime /\
  ResetsAt (FiveHour data) <> fixtures.t_2026_01_01_05h /\
  [ResetsAt (SevenDay data); ResetsAt (SevenDayOpus data); ResetsAt (SevenDaySonnet data)]
  = [fixtures.t_2026_01_07_00h; fixtures.t_2026_01_07_00h; fixtures.t_2026_01_07_00h].
Proof.
  split; [ vm_compute; reflexivity | ].
  split; [ repeat constructor | ].
  split; [ vm_compute; reflexivity | ].
  split; [ vm_compute; discriminate | vm_compute; reflexivity ].
Qed.

(** The payload of the fixtures: four metrics with timestamps in three
    accepted variants. *)
Example ToUsageData_four_metrics :
  let data := api.ToUsageData fixtures.ext0 fixtures.usageResponse 0 in
  (ResetsAt (FiveHour data), Label (FiveHour data))
    = (fixtures.t_2026_01_01_05h, "5-Hour"%string) /\
  (ResetsAt (SevenDay data), Label (SevenDay data))
    = (fixtures.t_2026_01_07_00h, "Weekly"%string) /\
  (ResetsAt (SevenDayOpus data), Label (SevenDayOpus data))
    = (fixtures.t_2026_01_07_00h, "Opus"%string) /\
  (ResetsAt (SevenDaySonnet data), Label (SevenDaySonnet data))
    = (fixtures.t_2026_01_07_00h, "Sonnet"%string).
Proof. vm_compute. repeat split. Qed.

(** A payload with one metric, whose timestamp is not accepted. *)
Example ToUsageData_partial :
  let raw :=
    {| resp_FiveHour := None;
       resp_SevenDay :=
         Some {| metric_Utilization := 12%float; metric_ResetsAt := "next week" |};
       resp_SevenDayOpus := None;
       resp_SevenDaySonnet := None |} in
  let data := api.ToUsageData fixtures.ext0 raw 0 in
  FiveHour data = api.zeroUsageStat /\
  SevenDay data = {| Utilization := 12%float; ResetsAt := zeroTime; Label := "Weekly" |}.
Proof. vm_compute. split; reflexivity. Qed.

(** ** The auth manager *)

Module auth_facts.
Import api auth spec.
Local Open Scope string_scope.

Section WithExtern.
Variable ext : Extern.

(** An attempt on the organizations endpoint never touches the client. *)
Lemma fetchOrganizationsOnce_client sk st r st' :
  fetchOrganizationsOnce ext sk st = (r, st') -> client st' = client st.
Proof.
  unfold fetchOrganizationsOnce.
  destruct (http_NewRequest_err ext _); unfold bind, roundTrip, ret; simpl.
  - intros H; inversion H; reflexivity.
  - destruct (net (world st) (sent (world st)) _) as [msg | status msg | status body];
      try (intros H; inversion H; reflexivity).
    destruct ((status =? 401) || (status =? 403))%Z.
    { destruct (_ =? _); intros H; inversion H; reflexivity. }
    destruct (negb (status =? 200)%Z); [ intros H; inversion H; reflexivity | ].
    destruct (json_Unmarshal_orgs ext body); intros H; inversion H; reflexivity.
Qed.

Lemma FetchOrganizations_client st r st' :
  FetchOrganizations ext st = (r, st') -> client st' = client st.
Proof.
  unfold FetchOrganizations, GetSessionKey, bind, gets, ret.
  destruct (sessionKey (client st) =? ""); [ intros H; inversion H; reflexivity | ].
  rewrite client_facts.FetchOrganizations_loop_policy. unfold retried_once.
  destruct (fetchOrganizationsOnce ext _ st) as [[orgs | e1] st1] eqn:E1;
    apply fetchOrganizationsOnce_client in E1.
  - intros H; inversion H; subst; exact E1.
  - destruct (auth_error e1); [ intros H; inversion H; subst; exact E1 | ].
    destruct (fetchOrganizationsOnce ext _ (slept _ st1)) as [r2 st2] eqn:E2.
    apply fetchOrganizationsOnce_client in E2.
    intros H; inversion H; subst. rewrite E2. exact E1.
Qed.

(** [verifyAndFetchOrg] keeps the session key of the client, and when it
    fails it keeps the whole client. *)
Lemma verifyAndFetchOrg_sessionKey st r st' :
  verifyAndFetchOrg ext st = (r, st') ->
  sessionKey (client st') = sessionKey (client st) /\
  (r <> None -> client st' = client st).
Proof.
  unfold verifyAndFetchOrg, bind.
  destruct (FetchOrganizations ext st) as [[[|org orgs] | [e|]] st1] eqn:E1;
    apply FetchOrganizations_client in E1; unfold ret.
  - intros H; inversion H; subst. rewrite E1. split; [ reflexivity | auto ].
  - unfold api.SetOrganizationID, cfg.SetOrganizationID, cfg.Save, bind, modify.
    simpl. intros H; inversion H; subst; simpl. rewrite E1.
    split; [ reflexivity | intros Hne; now destruct Hne ].
  - intros H; inversion H; subst. rewrite E1. split; [ reflexivity | auto ].
  - intros H; inversion H; subst. rewrite E1. split; [ reflexivity | auto ].
Qed.

End WithExtern.

End auth_facts.

(** C8.  For every key and every state, [SetManualSessionKey key] first
    installs [key] as the session key of the client and runs
    [verifyAndFetchOrg] in that state.  When that fails with [e], the call
    returns [e] and leaves the client with the empty session key.  When it
    succeeds, the call returns [nil] after [config.SetSessionKey key]: the
    configuration holds [key], one [Save] of it was made, and the client
    still holds [key]. *)
Theorem SetManualSessionKey_verifies_then_rolls_back_or_persists
  (ext : Extern) (key : string) (st st2 : State) (verr : option error) :
  let st1 := snd (api.SetSessionKey key st) in
  auth.verifyAndFetchOrg ext st1 = (verr, st2) ->
  sessionKey (client st1) = key /\
  match verr with
  | Some e =>
      let st' := snd (api.SetSessionKey "" st2) in
      auth.SetManualSessionKey ext key st = (Some e, st') /\
      sessionKey (client st') = ""%string
  | None =>
      let st' := snd (cfg.SetSessionKey key st2) in
      auth.SetManualSessionKey ext key st = (None, st') /\
      sessionKey (client st') = key /\
      config.SessionKey (config st') = key /\
      trace (world st')
      = (trace (world st2)
           ++ [EvConfigSave (config st') (disk (world st2) (saves (world st2)))])%list
  end.
Proof.
  intros st1 Hverify. split; [ reflexivity | ].
  pose proof (auth_facts.verifyAndFetchOrg_sessionKey ext _ _ _ Hverify) as [Hkey _].
  unfold auth.SetManualSessionKey, bind.
  change (api.SetSessionKey key st) with (tt, st1). cbv iota.
  rewrite Hverify. destruct verr as [e|]; simpl.
  - split; reflexivity.
  - repeat split. exact Hkey.
Qed.

(** C8 at a server that answers the organizations request with 403: the
    key is rolled back. *)
Lemma SetManualSessionKey_witness :
  let st := fixtures.st0 (fixtures.server [] (Response 403 "")) in
  let st' := snd (auth.SetManualSessionKey fixtures.ext0 "sk-ant-sid01-bad" st) in
  fst (auth.SetManualSessionKey fixtures.ext0 "sk-ant-sid01-bad" st)
  = Some ErrUnauthorized /\
  sessionKey (client st') = ""%string.
Proof.
  intros st st'.
  pose proof (SetManualSessionKey_verifies_then_rolls_back_or_persists
                fixtures.ext0 "sk-ant-sid01-bad" st
                (snd (auth.verifyAndFetchOrg fixtures.ext0
                        (snd (api.SetSessionKey "sk-ant-sid01-bad" st))))
                (Some ErrUnauthorized) eq_refl) as (_ & Hrun & Hkey).
  split; [ | reflexivity ].
  exact (f_equal fst Hrun).
Defined.

(** A key that verifies: the organization of the answer and the key are
    saved, in that order. *)
Example SetManualSessionKey_success :
  let st := fixtures.st0 (fixtures.server [] (Response 200 fixtures.orgsBody)) in
  let '(err, st') := auth.SetManualSessionKey fixtures.ext0 "sk-ant-sid01-new" st in
  err = None /\
  sessionKey (client st') = "sk-ant-sid01-new"%string /\
  config.SessionKey (config st') = "sk-ant-sid01-new"%string /\
  map (fun e => match e with
                | EvConfigSave c _ => Some (config.SessionKey c, config.OrganizationID c)
                | _ => None
                end) (trace (world st'))
  = [ None;
      Some ("sk-ant-sid01-abc", "org-1");
      Some ("sk-ant-sid01-new", "org-1") ]%string.
Proof. vm_compute. repeat split. Qed.

(** ** The polling loop: rate limiting *)

Module backoff_facts.
Import api app spec.
Local Open Scope string_scope.

Lemma wrap_small z : (- 2 ^ 63 <= z < 2 ^ 63)%Z -> GoInt.wrap z = z.
Proof.
  intros Hz. unfold GoInt.wrap. rewrite Z.mod_small; lia.
Qed.

Section WithExtern.
Variable ext : Extern.

(** The client changes neither the application state nor the
    configuration. *)
Lemma fetchUsageOnce_frame sk org st r st' :
  fetchUsageOnce ext sk org st = (r, st') ->
  app st' = app st /\ config st' = config st.
Proof.
  unfold fetchUsageOnce.
  destruct (http_NewRequest_err ext _); unfold bind, roundTrip, ret; simpl.
  - intros H; inversion H; auto.
  - destruct (net (world st) (sent (world st)) _) as [msg | status msg | status body];
      try (intros H; inversion H; auto; fail).
    destruct ((status =? 401) || (status =? 403))%Z.
    { destruct (negb _ && _); intros H; inversion H; auto. }
    destruct (status =? 429)%Z; [ intros H; inversion H; auto | ].
    destruct (500 <=? status)%Z; [ intros H; inversion H; auto | ].
    destruct (negb (status =? 200)%Z); [ intros H; inversion H; auto | ].
    destruct (json_Unmarshal_usage ext body); simpl; intros H; inversion H; auto.
Qed.

Lemma FetchUsage_frame st r st' :
  FetchUsage ext st = (r, st') -> app st' = app st /\ config st' = config st.
Proof.
  unfold FetchUsage, GetSessionKey, GetOrganizationID, bind, gets, ret.
  destruct (sessionKey (client st) =? ""); [ intros H; inversion H; auto | ].
  destruct (organizationID (client st) =? ""); [ intros H; inversion H; auto | ].
  rewrite client_facts.FetchUsage_loop_policy. unfold retried_once.
  destruct (fetchUsageOnce ext _ _ st) as [[u1 | e1] st1] eqn:E1;
    apply fetchUsageOnce_frame in E1; destruct E1 as [Ea Ec].
  - intros H; inversion H; subst; auto.
  - destruct (auth_error e1); [ intros H; inversion H; subst; auto | ].
    destruct (fetchUsageOnce ext _ _ (slept _ st1)) as [r2 st2] eqn:E2.
    apply fetchUsageOnce_frame in E2. destruct E2 as [Ea2 Ec2].
    intros H; inversion H; subst. rewrite Ea2, Ec2. auto.
Qed.

(** [FetchUsage] reaches the network only with both credentials. *)
Lemma FetchUsage_rate_limited_credentials st :
  fst (FetchUsage ext st) = inr (Some ErrRateLimited) ->
  (sessionKey (client st) =? "") = false /\ (organizationID (client st) =? "") = false.
Proof.
  unfold FetchUsage, GetSessionKey, GetOrganizationID, bind, gets, ret.
  destruct (sessionKey (client st) =? ""); [ discriminate | ].
  destruct (organizationID (client st) =? ""); [ discriminate | auto ].
Qed.

Lemma awaited_client st : client (awaited st) = client st.
Proof. unfold awaited. destruct (0 <? _)%Z; reflexivity. Qed.

Lemma awaited_errors st :
  consecutiveErrors (app (awaited st)) = consecutiveErrors (app st).
Proof. unfold awaited. destruct (0 <? _)%Z; reflexivity. Qed.

(** The counter and the backoff after a tick on which [FetchUsage]
    returns [ErrRateLimited]. *)
Lemma rate_limited_tick st :
  fst (FetchUsage ext (awaited st)) = inr (Some ErrRateLimited) ->
  (0 <= consecutiveErrors (app st) < GoInt.max_int)%Z ->
  fst (fetchUsage ext st) = Returned /\
  consecutiveErrors (app (snd (fetchUsage ext st)))
  = (consecutiveErrors (app st) + 1)%Z /\
  rateLimitBackoff (app (snd (fetchUsage ext st)))
  = (backoff_seconds (consecutiveErrors (app st) + 1) * Second)%Z.
Proof.
  intros Hfetch Hn.
  destruct (FetchUsage_rate_limited_credentials _ Hfetch) as [Hk Ho].
  rewrite awaited_client in Hk, Ho.
  unfold fetchUsage, auth.IsAuthenticated, HasCredentials, bind, gets.
  rewrite Hk, Ho. change (negb (negb false && negb false)) with false. cbv beta iota.
  assert (Hwait :
    (if (0 <? rateLimitBackoff (app st))%Z
     then bind (setRateLimitBackoff 0) (fun _ => sleep (rateLimitBackoff (app st)))
     else ret tt) st = (tt, awaited st)).
  { unfold awaited. destruct (0 <? rateLimitBackoff (app st))%Z; reflexivity. }
  unfold bind in Hwait. rewrite Hwait.
  destruct (FetchUsage ext (awaited st)) as [r st1] eqn:Erun.
  simpl in Hfetch. subst r.
  destruct (FetchUsage_frame _ _ _ Erun) as [Happ _].
  assert (Herrors : consecutiveErrors (app st1) = consecutiveErrors (app st))
    by (rewrite Happ; apply awaited_errors).
  rewrite Herrors. set (n := consecutiveErrors (app st)) in *.
  unfold GoInt.max_int in Hn.
  assert (Hadd : GoInt.add n 1 = (n + 1)%Z) by (apply wrap_small; lia).
  assert (Hsub : GoInt.sub (n + 1) 1 = n)
    by (unfold GoInt.sub; replace (n + 1 - 1)%Z with n by lia; apply wrap_small; lia).
  rewrite Hadd. simpl error_eqb. cbv iota. rewrite Hsub.
  unfold backoff_seconds. replace (n + 1 - 1)%Z with n by lia.
  assert (Hmin : Z.min n 3 = 0 \/ Z.min n 3 = 1 \/ Z.min n 3 = 2 \/ Z.min n 3 = 3)
    by lia.
  destruct Hmin as [-> | [-> | [-> | ->]]]; repeat split.
Qed.

End WithExtern.

End backoff_facts.

(** C2 (as amended).  Take consecutive ticks on each of which [FetchUsage]
    returns [ErrRateLimited], from a state whose counter of consecutive
    errors is a number [n >= 0] that the ticks do not overflow.  The tick
    of index [k] returns, leaves the counter at [n + k + 1] (the counter
    counts the failed ticks of every class) and stores the backoff
    [30 * 2^min(consecutiveErrors - 1, 3)] seconds for that counter.  When
    the ticks start from a counter of zero, the stored backoffs are 30, 60,
    120 and 240 seconds, and 240 seconds from the fourth tick on. *)
Theorem rate_limit_backoff_sequence (ext : Extern) (st : State)
  (run : list (app.Completion * State)) :
  spec.rate_limited_ticks ext st run ->
  0 <= consecutiveErrors (app st) ->
  consecutiveErrors (app st) + Z.of_nat (List.length run) <= GoInt.max_int ->
  forall (k : nat) (done : app.Completion) (st_k : State),
    nth_error run k = Some (done, st_k) ->
    done = app.Returned /\
    consecutiveErrors (app st_k) = consecutiveErrors (app st) + Z.of_nat k + 1 /\
    rateLimitBackoff (app st_k)
    = spec.backoff_seconds (consecutiveErrors (app st_k)) * Second /\
    (consecutiveErrors (app st) = 0 ->
     rateLimitBackoff (app st_k)
     = match k with
       | 0%nat => 30
       | 1%nat => 60
       | 2%nat => 120
       | _ => 240
       end * Second).
Proof.
  intros Hrun.
  assert (Hmain : 0 <= consecutiveErrors (app st) ->
    consecutiveErrors (app st) + Z.of_nat (List.length run) <= GoInt.max_int ->
    forall k done st_k,
      nth_error run k = Some (done, st_k) ->
      done = app.Returned /\
      consecutiveErrors (app st_k) = consecutiveErrors (app st) + Z.of_nat k + 1 /\
      rateLimitBackoff (app st_k)
      = spec.backoff_seconds (consecutiveErrors (app st_k)) * Second).
  { induction Hrun as [st | st rest Hfetch Hrest IH]; intros Hn Hlen k done st_k Hk.
    - destruct k; discriminate Hk.
    - simpl List.length in Hlen.
      assert (Hrange : 0 <= consecutiveErrors (app st) < GoInt.max_int) by lia.
      destruct (backoff_facts.rate_limited_tick ext st Hfetch Hrange)
        as (Hdone & Hcount & Hback).
      destruct k as [|k]; simpl in Hk.
      + destruct (app.fetchUsage ext st) as [d s]. inversion Hk; subst.
        simpl in *. repeat split;
          [ exact Hdone | lia | rewrite Hcount; exact Hback ].
      + rewrite Hcount in IH.
        destruct (IH ltac:(lia) ltac:(lia) k done st_k Hk) as (Hd & Hc & Hb).
        repeat split; [ exact Hd | lia | exact Hb ]. }
  intros Hn Hlen k done st_k Hk.
  destruct (Hmain Hn Hlen k done st_k Hk) as (Hd & Hc & Hb).
  repeat split; try assumption.
  intros Hzero. rewrite Hb, Hc, Hzero. unfold spec.backoff_seconds.
  destruct k as [|[|[|k]]]; try reflexivity.
  replace (Z.min (0 + Z.of_nat (S (S (S k))) + 1 - 1) 3) with 3 by lia.
  reflexivity.
Qed.

(** C2 at a server that answers every request with 429: the fifth tick
    of a program that starts there stores 240 seconds. *)
Lemma rate_limit_backoff_witness :
  let st := fixtures.st0 (fixtures.server [] (Response 429 "")) in
  match nth_error (fixtures.ticks fixtures.ext0 5 st) 4 with
  | Some (done, st_k) =>
      done = app.Returned /\ rateLimitBackoff (app st_k) = 240 * Second
  | None => False
  end.
Proof.
  intros st.
  assert (Hrun : spec.rate_limited_ticks fixtures.ext0 st
                   (fixtures.ticks fixtures.ext0 5 st)).
  { unfold fixtures.ticks.
    repeat (apply spec.ticks_next; [ vm_compute; reflexivity | ]).
    apply spec.ticks_none. }
  destruct (nth_error (fixtures.ticks fixtures.ext0 5 st) 4) as [[done st_k]|] eqn:E.
  - destruct (rate_limit_backoff_sequence fixtures.ext0 st _ Hrun
                ltac:(vm_compute; discriminate) ltac:(vm_compute; discriminate)
                4%nat done st_k E) as (Hd & _ & _ & Hb).
    split; [ exact Hd | exact (Hb eq_refl) ].
  - vm_compute in E. discriminate E.
Defined.

(** The backoffs of the first five ticks against that server. *)
Example rate_limit_backoffs_from_start :
  map (fun r => rateLimitBackoff (app (snd r)))
      (fixtures.ticks fixtures.ext0 5
         (fixtures.st0 (fixtures.server [] (Response 429 ""))))
  = [30 * Second; 60 * Second; 120 * Second; 240 * Second; 240 * Second].
Proof. vm_compute. reflexivity. Qed.

(** C2 (counterexample).  The server answers 503 to the two requests of
    the first tick and 429 from then on.  The second tick is the first on
    which [FetchUsage] returns [ErrRateLimited]; the counter is then 2 and
    the stored backoff 60 seconds, not 30. *)
Lemma first_rate_limited_tick_after_an_outage :
  let st := fixtures.st0
              (fixtures.server [Response 503 ""; Response 503 ""] (Response 429 "")) in
  let st1 := snd (app.fetchUsage fixtures.ext0 st) in
  let st2 := snd (app.fetchUsage fixtures.ext0 st1) in
  fst (api.FetchUsage fixtures.ext0 (spec.awaited st)) = inr (Some ErrAPIUnavailable) /\
  fst (api.FetchUsage fixtures.ext0 (spec.awaited st1)) = inr (Some ErrRateLimited) /\
  rateLimitBackoff (app st1) = 0 /\
  consecutiveErrors (app st2) = 2 /\
  rateLimitBackoff (app st2) = 60 * Second /\
  rateLimitBackoff (app st2) <> 30 * Second.
Proof. vm_compute. repeat split; discriminate. Qed.

(** ** The polling loop: notifications *)

Module notify_facts.
Import F64 F64_facts app spec.
Local Open Scope string_scope.

(** The result of [highestCrossedThreshold] is a number. *)
Lemma highestCrossedThreshold_ordered u T : ordered (highestCrossedThreshold u T).
Proof.
  assert (H0 : ordered 0%float) by reflexivity.
  destruct (threshold_facts.loop_inv u T 0%float H0) as (Hr & _ & _).
  fold (highestCrossedThreshold u T) in Hr.
  destruct Hr as [-> | (_ & Hru & _)]; [ exact H0 | ].
  revert Hru; generalize (highestCrossedThreshold u T); intros; order.
Qed.

Lemma notifications_emit m st e :
  notifications m (with_world (emit e) st)
  = (notifications m st
       ++ match e with
          | EvNotify t utilization c =>
              if t =? title m then [(utilization, c)] else []
          | _ => []
          end)%list.
Proof.
  unfold notifications. simpl. rewrite flat_map_app. simpl.
  now rewrite app_nil_r.
Qed.

(** One notification check, metric by metric. *)
Lemma polled_metric m usage st :
  enabled (config st) ->
  let c := crossed m usage st in
  let r := record m (app st) in
  config (polled usage st) = config st /\
  record m (app (polled usage st))
  = (if (r <? c)%float then c else if (c <? r)%float then c else r) /\
  notifications m (polled usage st)
  = (notifications m st
       ++ if (r <? c)%float then [(reading m usage, c)] else [])%list.
Proof.
  intros [Hon Hsome] c r. subst c r.
  assert (Hlen : Nat.eqb (List.length (config.AlertThresholds (config st))) 0 = false)
    by (destruct (config.AlertThresholds (config st)); [ contradiction | reflexivity ]).
  destruct m; unfold polled, crossed, reading, record, title, checkAndNotify, bind, gets;
    rewrite Hon, Hlen; change (negb true || false) with false; cbv beta iota;
    remember (highestCrossedThreshold (Utilization (FiveHour usage))
                (config.AlertThresholds (config st))) as sc eqn:Hsc;
    remember (highestCrossedThreshold (Utilization (SevenDay usage))
                (config.AlertThresholds (config st))) as wc eqn:Hwc;
    clear Hsc Hwc;
    unfold setLastSessionThreshold, setLastWeeklyThreshold, event, modify, ret,
      notifications, title, with_world, with_app, emit;
    (destruct (lastSessionThreshold (app st) <? sc)%float eqn:Es;
      [ | destruct (sc <? lastSessionThreshold (app st))%float eqn:Es' ]); simpl;
    (destruct (lastWeeklyThreshold (app st) <? wc)%float eqn:Ew;
      [ | destruct (wc <? lastWeeklyThreshold (app st))%float eqn:Ew' ]); simpl;
    rewrite ?flat_map_app; simpl;
    rewrite ?Es, ?Es', ?Ew, ?Ew', ?app_nil_r, <- ?app_assoc;
    repeat split; reflexivity.
Qed.

(** Two numbers, neither below the other, are below the same numbers. *)
Lemma ltb_same a b x :
  ordered a -> ordered b ->
  (a <? b)%float = false -> (b <? a)%float = false ->
  (a <? x)%float = (b <? x)%float.
Proof.
  intros Ha Hb Hab Hba.
  destruct (b <? x)%float eqn:E; revert Ha Hb Hab Hba E; clear; intros; order.
Qed.

Lemma ltb_asym a b : (a <? b)%float = true -> (b <? a)%float = false.
Proof. intros; order. Qed.

(** After a check the record is a number that is below the same numbers
    as the threshold that was crossed. *)
Lemma polled_record m usage st :
  enabled (config st) ->
  ordered (record m (app st)) ->
  ordered (record m (app (polled usage st))) /\
  forall x,
    (record m (app (polled usage st)) <? x)%float
    = (crossed m usage st <? x)%float.
Proof.
  intros Hon Hr.
  destruct (polled_metric m usage st Hon) as (_ & -> & _).
  pose proof (highestCrossedThreshold_ordered (reading m usage)
                (config.AlertThresholds (config st))) as Hc.
  fold (crossed m usage st) in Hc.
  destruct (record m (app st) <? crossed m usage st)%float eqn:E1;
    [ split; [ exact Hc | reflexivity ] | ].
  destruct (crossed m usage st <? record m (app st))%float eqn:E2;
    [ split; [ exact Hc | reflexivity ] | ].
  split; [ exact Hr | ]. intros x. now apply ltb_same.
Qed.

End notify_facts.

(** C3 (as amended).  Take a successful fetch checked while notifications
    are enabled and at least one threshold is configured, and either of the
    two metrics, with its record [r] and the threshold [c] that its
    utilization crosses.  A notification of the metric is sent exactly when
    [c] is strictly above [r], and the record is then raised to [c]; when
    [c] is strictly below [r] the record is lowered to [c] and nothing is
    sent; otherwise nothing changes.  The check leaves the configuration as
    it was and the record a number, so that on the next successful fetch a
    notification is sent exactly when its crossed threshold [c2] is
    strictly above [c]: no second notification while the crossed threshold
    stays or falls, and a new one when it rises again after a drop. *)
Theorem notification_high_water_mark (m : spec.metric) (usage usage2 : UsageData)
  (st : State) :
  spec.enabled (config st) ->
  let r := spec.record m (app st) in
  let c := spec.crossed m usage st in
  let st' := spec.polled usage st in
  let c2 := spec.crossed m usage2 st' in
  let st'' := spec.polled usage2 st' in
  ((r <? c)%float = true ->
   spec.record m (app st') = c /\
   spec.notifications m st'
   = (spec.notifications m st ++ [(spec.reading m usage, c)])%list) /\
  ((r <? c)%float = false -> spec.notifications m st' = spec.notifications m st) /\
  ((c <? r)%float = true ->
   spec.record m (app st') = c /\ spec.notifications m st' = spec.notifications m st) /\
  ((r <? c)%float = false -> (c <? r)%float = false -> spec.record m (app st') = r) /\
  spec.enabled (config st') /\
  (F64.ordered r ->
   F64.ordered (spec.record m (app st')) /\
   ((c <? c2)%float = true ->
    spec.notifications m st''
    = (spec.notifications m st' ++ [(spec.reading m usage2, c2)])%list) /\
   ((c <? c2)%float = false ->
    spec.notifications m st'' = spec.notifications m st')).
Proof.
  intros Hon r c st' c2 st''.
  destruct (notify_facts.polled_metric m usage st Hon) as (Hconfig & Hrecord & Hsent).
  fold r c st' in Hconfig, Hrecord, Hsent.
  assert (Hon' : spec.enabled (config st')) by (rewrite Hconfig; exact Hon).
  repeat split.
  - rewrite Hrecord, H. reflexivity.
  - rewrite Hsent, H. reflexivity.
  - intros H. rewrite Hsent, H. apply app_nil_r.
  - rewrite Hrecord, (notify_facts.ltb_asym _ _ H), H. reflexivity.
  - rewrite Hsent, (notify_facts.ltb_asym _ _ H). apply app_nil_r.
  - intros H1 H2. rewrite Hrecord, H1, H2. reflexivity.
  - apply Hon'.
  - apply Hon'.
  - apply (notify_facts.polled_record m usage st Hon H).
  - intros Hrise.
    destruct (notify_facts.polled_metric m usage2 st' Hon') as (_ & _ & Hsent2).
    destruct (notify_facts.polled_record m usage st Hon H) as (_ & Hsame).
    fold c st' in Hsame. fold c2 st'' in Hsent2.
    rewrite Hsent2, Hsame, Hrise. reflexivity.
  - intros Hflat.
    destruct (notify_facts.polled_metric m usage2 st' Hon') as (_ & _ & Hsent2).
    destruct (notify_facts.polled_record m usage st Hon H) as (_ & Hsame).
    fold c st' in Hsame. fold c2 st'' in Hsent2.
    rewrite Hsent2, Hsame, Hflat. apply app_nil_r.
Qed.

(** C3 at session utilizations 60 and then 82 with thresholds 50, 75 and
    90, from the start of the program: 50 is notified, then 75. *)
Lemma notification_high_water_mark_witness :
  let st := fixtures.st0 (fixtures.server [] (Response 200 fixtures.usageBody)) in
  let st' := spec.polled (fixtures.sessionAt 60) st in
  let st'' := spec.polled (fixtures.sessionAt 82) st' in
  spec.notifications spec.Session st' = [(60%float, 50%float)] /\
  spec.notifications spec.Session st''
  = [(60%float, 50%float); (82%float, 75%float)].
Proof.
  intros st st' st''.
  assert (Hon : spec.enabled (config st)) by (split; [ reflexivity | discriminate ]).
  pose proof (notification_high_water_mark spec.Session
                (fixtures.sessionAt 60) (fixtures.sessionAt 82) st Hon)
    as (Hfire & _ & _ & _ & _ & Hnext).
  assert (Habove : (spec.record spec.Session (app st)
                    <? spec.crossed spec.Session (fixtures.sessionAt 60) st)%float = true)
    by (vm_compute; reflexivity).
  assert (Hnumber : F64.ordered (spec.record spec.Session (app st)))
    by (vm_compute; reflexivity).
  assert (Hrises : (spec.crossed spec.Session (fixtures.sessionAt 60) st
                    <? spec.crossed spec.Session (fixtures.sessionAt 82) st')%float = true)
    by (vm_compute; reflexivity).
  destruct (Hfire Habove) as (_ & Hfirst).
  destruct (Hnext Hnumber) as (_ & Hrise & _).
  unfold st'', st'. split.
  - rewrite Hfirst. vm_compute. reflexivity.
  - rewrite (Hrise Hrises), Hfirst. vm_compute. reflexivity.
Defined.

(** The example of the specification: session utilization 60, 82, 10 and
    77.  The records after the four checks are 50, 75, 0 and 75, and 75 is
    notified twice. *)
Example notification_after_reset :
  let st := fixtures.st0 (fixtures.server [] (Response 200 fixtures.usageBody)) in
  let st1 := spec.polled (fixtures.sessionAt 60) st in
  let st2 := spec.polled (fixtures.sessionAt 82) st1 in
  let st3 := spec.polled (fixtures.sessionAt 10) st2 in
  let st4 := spec.polled (fixtures.sessionAt 77) st3 in
  map (fun s => lastSessionThreshold (app s)) [st1; st2; st3; st4]
  = [50%float; 75%float; 0%float; 75%float] /\
  spec.notifications spec.Session st4
  = [(60%float, 50%float); (82%float, 75%float); (77%float, 75%float)].
Proof. vm_compute. split; reflexivity. Qed.

(** C3 (counterexample).  Notifications are switched off in the
    configuration.  Session utilization 60 crosses the threshold 50, which
    is strictly above the record 0; no notification is sent and the record
    stays 0. *)
Lemma crossing_while_notifications_are_off :
  let st := fixtures.muted (fixtures.server [] (Response 200 fixtures.usageBody)) in
  let usage := fixtures.sessionAt 60 in
  spec.crossed spec.Session usage st = 50%float /\
  (spec.record spec.Session (app st) <? spec.crossed spec.Session usage st)%float = true /\
  spec.notifications spec.Session (spec.polled usage st) = [] /\
  spec.record spec.Session (app (spec.polled usage st)) = 0%float.
Proof. vm_compute. repeat split. Qed.

(** * Further properties of the client *)

Module client_effects.
Import api spec.
Local Open Scope string_scope.

Section WithExtern.
Variable ext : Extern.

(** What one attempt on the usage endpoint does to the state: at most one
    request, and nothing to the configuration, the application state, the
    credentials, the disk and the browser oracles. *)
Lemma fetchUsageOnce_effects sk org st r st' :
  fetchUsageOnce ext sk org st = (r, st') ->
  config st' = config st /\ app st' = app st /\
  sessionKey (client st') = sessionKey (client st) /\
  organizationID (client st') = organizationID (client st) /\
  net (world st') = net (world st) /\
  saves (world st') = saves (world st) /\
  extractions (world st') = extractions (world st) /\
  match http_NewRequest_err ext (req_url (usageRequest sk org)) with
  | Some _ =>
      trace (world st') = trace (world st) /\ sent (world st') = sent (world st)
  | None =>
      trace (world st') = (trace (world st) ++ [EvRequest (usageRequest sk org)])%list /\
      sent (world st') = S (sent (world st))
  end.
Proof.
  unfold fetchUsageOnce.
  change (http_NewRequest_err ext
            (baseURL ++ "/api/organizations/" ++ org ++ "/usage"))
    with (http_NewRequest_err ext (req_url (usageRequest sk org))).
  fold (usageRequest sk org).
  destruct (http_NewRequest_err ext _); unfold bind, roundTrip, ret; simpl.
  - intros H; inversion H; subst. repeat split; auto.
  - destruct (net (world st) (sent (world st)) _) as [msg | status msg | status body];
      try (intros H; inversion H; subst; simpl; repeat split; auto; fail).
    destruct ((status =? 401) || (status =? 403))%Z.
    { destruct (negb _ && _); intros H; inversion H; subst; simpl; repeat split; auto. }
    destruct (status =? 429)%Z;
      [ intros H; inversion H; subst; simpl; repeat split; auto | ].
    destruct (500 <=? status)%Z;
      [ intros H; inversion H; subst; simpl; repeat split; auto | ].
    destruct (negb (status =? 200)%Z);
      [ intros H; inversion H; subst; simpl; repeat split; auto | ].
    destruct (json_Unmarshal_usage ext body); simpl;
      intros H; inversion H; subst; simpl; repeat split; auto.
Qed.

Lemma fetchOrganizationsOnce_effects sk st r st' :
  fetchOrganizationsOnce ext sk st = (r, st') ->
  config st' = config st /\ app st' = app st /\ client st' = client st /\
  net (world st') = net (world st) /\
  saves (world st') = saves (world st) /\
  extractions (world st') = extractions (world st) /\
  readings (world st') = readings (world st) /\
  match http_NewRequest_err ext (req_url (orgsRequest sk)) with
  | Some _ =>
      trace (world st') = trace (world st) /\ sent (world st') = sent (world st)
  | None =>
      trace (world st') = (trace (world st) ++ [EvRequest (orgsRequest sk)])%list /\
      sent (world st') = S (sent (world st))
  end.
Proof.
  unfold fetchOrganizationsOnce.
  change (http_NewRequest_err ext (baseURL ++ "/api/organizations"))
    with (http_NewRequest_err ext (req_url (orgsRequest sk))).
  fold (orgsRequest sk).
  destruct (http_NewRequest_err ext _); unfold bind, roundTrip, ret; simpl.
  - intros H; inversion H; subst. repeat split; auto.
  - destruct (net (world st) (sent (world st)) _) as [msg | status msg | status body];
      try (intros H; inversion H; subst; simpl; repeat split; auto; fail).
    destruct ((status =? 401) || (status =? 403))%Z.
    { destruct (_ =? _); intros H; inversion H; subst; simpl; repeat split; auto. }
    destruct (negb (status =? 200)%Z);
      [ intros H; inversion H; subst; simpl; repeat split; auto | ].
    destruct (json_Unmarshal_orgs ext body);
      intros H; inversion H; subst; simpl; repeat split; auto.
Qed.

(** The errors of one attempt on the usage endpoint are never the two
    errors of missing credentials. *)
Lemma fetchUsageOnce_error_kind sk org st e st' :
  fetchUsageOnce ext sk org st = (inr e, st') ->
  e <> ErrNoSessionKey /\ e <> ErrNoOrgID.
Proof.
  unfold fetchUsageOnce.
  destruct (http_NewRequest_err ext _); unfold bind, roundTrip, ret; simpl.
  - intros H; inversion H; split; discriminate.
  - destruct (net (world st) (sent (world st)) _) as [msg | status msg | status body];
      try (intros H; inversion H; split; discriminate).
    destruct ((status =? 401) || (status =? 403))%Z.
    { destruct (negb _ && _); intros H; inversion H; split; discriminate. }
    destruct (status =? 429)%Z; [ intros H; inversion H; split; discriminate | ].
    destruct (500 <=? status)%Z; [ intros H; inversion H; split; discriminate | ].
    destruct (negb (status =? 200)%Z); [ intros H; inversion H; split; discriminate | ].
    destruct (json_Unmarshal_usage ext body); simpl;
      intros H; inversion H; split; discriminate.
Qed.

End WithExtern.

(** A sleep is seen in the trace only. *)
Lemma slept_effects d st :
  config (slept d st) = config st /\ app (slept d st) = app st /\
  client (slept d st) = client st /\
  net (world (slept d st)) = net (world st) /\
  sent (world (slept d st)) = sent (world st) /\
  saves (world (slept d st)) = saves (world st) /\
  extractions (world (slept d st)) = extractions (world st) /\
  readings (world (slept d st)) = readings (world st) /\
  trace (world (slept d st)) = (trace (world st) ++ [EvSleep d])%list.
Proof. repeat split. Qed.

End client_effects.

Module fetch_effects.

(** All the effects of a call of [FetchUsage]. *)
Lemma FetchUsage_all_effects (ext : Extern) (st : State) :
  let st' := snd (api.FetchUsage ext st) in
  let req := spec.usageRequest (sessionKey (client st)) (organizationID (client st)) in
  config st' = config st /\ app st' = app st /\
  sessionKey (client st') = sessionKey (client st) /\
  organizationID (client st') = organizationID (client st) /\
  saves (world st') = saves (world st) /\
  extractions (world st') = extractions (world st) /\
  (sent (world st') <= sent (world st) + 2)%nat /\
  exists added,
    trace (world st') = (trace (world st) ++ added)%list /\ spec.fetch_trace req added.
Proof.
  intros st' req. subst st'.
  unfold api.FetchUsage, api.GetSessionKey, api.GetOrganizationID, bind, gets, ret.
  destruct (sessionKey (client st) =? "")%string.
  { simpl. repeat split; try lia. exists []. rewrite app_nil_r. split; [ | left ]; reflexivity. }
  destruct (organizationID (client st) =? "")%string.
  { simpl. repeat split; try lia. exists []. rewrite app_nil_r. split; [ | left ]; reflexivity. }
  rewrite client_facts.FetchUsage_loop_policy. unfold spec.retried_once.
  fold req.
  destruct (api.fetchUsageOnce ext _ _ st) as [r1 st1] eqn:E1.
  apply client_effects.fetchUsageOnce_effects in E1. fold req in E1.
  destruct E1 as (Hc1 & Ha1 & Hk1 & Ho1 & Hn1 & Hs1 & Hx1 & Hw1).
  assert (Hone :
    config st1 = config st /\ app st1 = app st /\
    sessionKey (client st1) = sessionKey (client st) /\
    organizationID (client st1) = organizationID (client st) /\
    saves (world st1) = saves (world st) /\
    extractions (world st1) = extractions (world st) /\
    (sent (world st1) <= sent (world st) + 2)%nat /\
    exists added,
      trace (world st1) = (trace (world st) ++ added)%list /\ spec.fetch_trace req added).
  { repeat split; try assumption.
    - destruct (http_NewRequest_err ext (req_url req)); destruct Hw1 as [_ ->]; lia.
    - destruct (http_NewRequest_err ext (req_url req)); destruct Hw1 as [-> _].
      + exists []. rewrite app_nil_r. split; [ | left ]; reflexivity.
      + eexists. split; [ reflexivity | right; right; left; reflexivity ]. }
  destruct r1 as [u1 | e1]; [ exact Hone | ].
  destruct (spec.auth_error e1); [ exact Hone | ].
  destruct (api.fetchUsageOnce ext _ _ (spec.slept _ st1)) as [r2 st2] eqn:E2.
  apply client_effects.fetchUsageOnce_effects in E2. fold req in E2.
  destruct E2 as (Hc2 & Ha2 & Hk2 & Ho2 & Hn2 & Hs2 & Hx2 & Hw2).
  destruct (client_effects.slept_effects (2 * Second) st1)
    as (Sc & Sa & Sk & _ & Ss & Sv & Sx & _ & St).
  rewrite Sc in Hc2. rewrite Sa in Ha2. rewrite Sk in Hk2, Ho2.
  rewrite Sv in Hs2. rewrite Sx in Hx2. rewrite Ss, St in Hw2. simpl snd.
  repeat split; try congruence.
  - destruct (http_NewRequest_err ext (req_url req));
      destruct Hw1 as [_ Hsent1]; destruct Hw2 as [_ ->]; lia.
  - destruct (http_NewRequest_err ext (req_url req));
      destruct Hw1 as [Ht1 _]; destruct Hw2 as [-> _]; rewrite Ht1.
    + exists [EvSleep (2 * Second)]. split; [ reflexivity | right; left; reflexivity ].
    + eexists. rewrite <- !app_assoc. split; [ reflexivity | ].
      right; right; right. reflexivity.
Qed.

(** All the effects of a call of [FetchOrganizations]. *)
Lemma FetchOrganizations_all_effects (ext : Extern) (st : State) :
  let st' := snd (api.FetchOrganizations ext st) in
  let req := spec.orgsRequest (sessionKey (client st)) in
  config st' = config st /\ app st' = app st /\ client st' = client st /\
  saves (world st') = saves (world st) /\
  extractions (world st') = extractions (world st) /\
  readings (world st') = readings (world st) /\
  (sent (world st') <= sent (world st) + 2)%nat /\
  exists added,
    trace (world st') = (trace (world st) ++ added)%list /\ spec.fetch_trace req added.
Proof.
  intros st' req. subst st'.
  unfold api.FetchOrganizations, api.GetSessionKey, bind, gets, ret.
  destruct (sessionKey (client st) =? "")%string.
  { simpl. repeat split; try lia. exists []. rewrite app_nil_r. split; [ | left ]; reflexivity. }
  rewrite client_facts.FetchOrganizations_loop_policy. unfold spec.retried_once.
  fold req.
  destruct (api.fetchOrganizationsOnce ext _ st) as [r1 st1] eqn:E1.
  apply client_effects.fetchOrganizationsOnce_effects in E1. fold req in E1.
  destruct E1 as (Hc1 & Ha1 & Hk1 & Hn1 & Hs1 & Hx1 & Hr1 & Hw1).
  assert (Hone :
    config st1 = config st /\ app st1 = app st /\ client st1 = client st /\
    saves (world st1) = saves (world st) /\
    extractions (world st1) = extractions (world st) /\
    readings (world st1) = readings (world st) /\
    (sent (world st1) <= sent (world st) + 2)%nat /\
    exists added,
      trace (world st1) = (trace (world st) ++ added)%list /\ spec.fetch_trace req added).
  { repeat split; try assumption.
    - destruct (http_NewRequest_err ext (req_url req)); destruct Hw1 as [_ ->]; lia.
    - destruct (http_NewRequest_err ext (req_url req)); destruct Hw1 as [-> _].
      + exists []. rewrite app_nil_r. split; [ | left ]; reflexivity.
      + eexists. split; [ reflexivity | right; right; left; reflexivity ]. }
  destruct r1 as [o1 | e1]; [ exact Hone | ].
  destruct (spec.auth_error e1); [ exact Hone | ].
  destruct (api.fetchOrganizationsOnce ext _ (spec.slept _ st1)) as [r2 st2] eqn:E2.
  apply client_effects.fetchOrganizationsOnce_effects in E2. fold req in E2.
  destruct E2 as (Hc2 & Ha2 & Hk2 & Hn2 & Hs2 & Hx2 & Hr2 & Hw2).
  destruct (client_effects.slept_effects (2 * Second) st1)
    as (Sc & Sa & Sk & _ & Ss & Sv & Sx & Sr & Strace).
  rewrite Sc in Hc2. rewrite Sa in Ha2. rewrite Sk in Hk2.
  rewrite Sv in Hs2. rewrite Sx in Hx2. rewrite Sr in Hr2.
  rewrite Ss, Strace in Hw2. simpl snd.
  repeat split; try congruence.
  - destruct (http_NewRequest_err ext (req_url req));
      destruct Hw1 as [_ Hsent1]; destruct Hw2 as [_ ->]; lia.
  - destruct (http_NewRequest_err ext (req_url req));
      destruct Hw1 as [Ht1 _]; destruct Hw2 as [-> _]; rewrite Ht1.
    + exists [EvSleep (2 * Second)]. split; [ reflexivity | right; left; reflexivity ].
    + eexists. rewrite <- !app_assoc. split; [ reflexivity | ].
      right; right; right. reflexivity.
Qed.

End fetch_effects.

(** X2.  Whatever the network and the libraries do, a call of [FetchUsage]
    adds to the trace nothing, or one request, or two requests around one
    sleep of two seconds (or that sleep alone when the URL is refused), the
    requests being the usage request of the installed credentials; it sends
    at most two requests, and it leaves the configuration, the application
    state, the credentials, the disk and the browser untouched. *)
Theorem FetchUsage_effects (ext : Extern) (st : State) :
  let st' := snd (api.FetchUsage ext st) in
  let req := spec.usageRequest (sessionKey (client st)) (organizationID (client st)) in
  config st' = config st /\ app st' = app st /\
  sessionKey (client st') = sessionKey (client st) /\
  organizationID (client st') = organizationID (client st) /\
  saves (world st') = saves (world st) /\
  extractions (world st') = extractions (world st) /\
  (sent (world st') <= sent (world st) + 2)%nat /\
  exists added,
    trace (world st') = (trace (world st) ++ added)%list /\ spec.fetch_trace req added.
Proof. exact (fetch_effects.FetchUsage_all_effects ext st). Qed.

(** X3.  One attempt on the usage endpoint returns a snapshot exactly when
    the URL is accepted, the response is read, its status is 200 and its
    body decodes.  The snapshot is then [ToUsageData] of the decoded body
    at the first reading of the clock, it becomes [lastUsage], and
    [lastFetch] is the next reading of the clock. *)
Theorem fetchUsageOnce_success (ext : Extern) (sk org : string) (st : State) :
  let req := spec.usageRequest sk org in
  let w := world st in
  (forall usage st',
      api.fetchUsageOnce ext sk org st = (inl usage, st') ->
      exists body raw,
        http_NewRequest_err ext (req_url req) = None /\
        net w (sent w) req = Response 200 body /\
        json_Unmarshal_usage ext body = inl raw /\
        usage = api.ToUsageData ext raw (clock w (readings w)) /\
        lastUsage (client st') = Some usage /\
        lastFetch (client st') = clock w (S (readings w))) /\
  (forall body raw,
      http_NewRequest_err ext (req_url req) = None ->
      net w (sent w) req = Response 200 body ->
      json_Unmarshal_usage ext body = inl raw ->
      fst (api.fetchUsageOnce ext sk org st)
      = inl (api.ToUsageData ext raw (clock w (readings w)))).
Proof.
  intros req w. subst w. split.
  - intros usage st'. unfold api.fetchUsageOnce.
    change (http_NewRequest_err ext
              (api.baseURL ++ "/api/organizations/" ++ org ++ "/usage"))
      with (http_NewRequest_err ext (req_url req)).
    fold (spec.usageRequest sk org). fold req.
    destruct (http_NewRequest_err ext (req_url req));
      unfold bind, roundTrip, ret; simpl; [ discriminate | ].
    destruct (net (world st) (sent (world st)) req) as [msg | status msg | status body];
      try discriminate.
    destruct ((status =? 401) || (status =? 403))%Z eqn:E401;
      [ destruct (negb _ && _); discriminate | ].
    destruct (status =? 429)%Z; [ discriminate | ].
    destruct (500 <=? status)%Z; [ discriminate | ].
    destruct (status =? 200)%Z eqn:E200; simpl; [ | discriminate ].
    apply Z.eqb_eq in E200. subst status.
    destruct (json_Unmarshal_usage ext body) as [raw | msg] eqn:Eraw; simpl;
      [ | discriminate ].
    intros H; inversion H; subst; clear H.
    exists body, raw. repeat split. exact Eraw.
  - intros body raw Hurl Hnet Hraw. unfold api.fetchUsageOnce.
    change (http_NewRequest_err ext
              (api.baseURL ++ "/api/organizations/" ++ org ++ "/usage"))
      with (http_NewRequest_err ext (req_url req)).
    fold (spec.usageRequest sk org). fold req.
    rewrite Hurl. unfold bind, roundTrip, ret. simpl. rewrite Hnet. simpl.
    rewrite Hraw. reflexivity.
Qed.

(** X3 at a server that answers 200 with the usage payload. *)
Lemma fetchUsageOnce_success_witness :
  let st := fixtures.st0 (fixtures.server [] (Response 200 fixtures.usageBody)) in
  fst (api.fetchUsageOnce fixtures.ext0 "sk-ant-sid01-abc" "org-1" st)
  = inl (api.ToUsageData fixtures.ext0 fixtures.usageResponse
           (clock (world st) (readings (world st)))).
Proof.
  intros st.
  apply (proj2 (fetchUsageOnce_success fixtures.ext0 "sk-ant-sid01-abc" "org-1" st)
           fixtures.usageBody fixtures.usageResponse); reflexivity.
Defined.

(** X4.  A call of [FetchOrganizations] adds to the trace nothing, or one
    request, or two requests around one sleep of two seconds (or that sleep
    alone when the URL is refused), the requests being the organizations
    request of the installed session key; it never changes the client, the
    configuration or the application state, and it never reads the clock,
    the disk or the browser. *)
Theorem FetchOrganizations_effects (ext : Extern) (st : State) :
  let st' := snd (api.FetchOrganizations ext st) in
  let req := spec.orgsRequest (sessionKey (client st)) in
  config st' = config st /\ app st' = app st /\ client st' = client st /\
  saves (world st') = saves (world st) /\
  extractions (world st') = extractions (world st) /\
  readings (world st') = readings (world st) /\
  (sent (world st') <= sent (world st) + 2)%nat /\
  exists added,
    trace (world st') = (trace (world st) ++ added)%list /\ spec.fetch_trace req added.
Proof. exact (fetch_effects.FetchOrganizations_all_effects ext st). Qed.

(** X5.  [HasCredentials] holds exactly when [FetchUsage] gets past its
    two checks: the call returns neither [ErrNoSessionKey] nor
    [ErrNoOrgID], whatever the network answers. *)
Theorem HasCredentials_iff_FetchUsage_checks_pass (ext : Extern) (st : State) :
  fst (api.HasCredentials st) = true <->
  fst (api.FetchUsage ext st) <> inr (Some ErrNoSessionKey) /\
  fst (api.FetchUsage ext st) <> inr (Some ErrNoOrgID).
Proof.
  assert (Hhas : fst (api.HasCredentials st)
                 = negb (sessionKey (client st) =? "")%string
                   && negb (organizationID (client st) =? "")%string) by reflexivity.
  rewrite Hhas. clear Hhas.
  destruct (String.eqb_spec (sessionKey (client st)) "") as [Hk | Hk].
  { assert (Hrun : fst (api.FetchUsage ext st) = inr (Some ErrNoSessionKey)).
    { unfold api.FetchUsage, api.GetSessionKey, api.GetOrganizationID, bind, gets, ret.
      rewrite Hk. reflexivity. }
    rewrite Hrun. split; [ discriminate | intros [H _]; now destruct H ]. }
  destruct (String.eqb_spec (organizationID (client st)) "") as [Ho | Ho].
  { assert (Hrun : fst (api.FetchUsage ext st) = inr (Some ErrNoOrgID)).
    { unfold api.FetchUsage, api.GetSessionKey, api.GetOrganizationID, bind, gets, ret.
      apply String.eqb_neq in Hk. rewrite Hk, Ho. reflexivity. }
    rewrite Hrun. split; [ discriminate | intros [_ H]; now destruct H ]. }
  split; [ intros _ | reflexivity ].
  rewrite (client_facts.FetchUsage_with_credentials ext st Hk Ho).
  unfold spec.retried_once.
  destruct (api.fetchUsageOnce ext _ _ st) as [[u1 | e1] st1] eqn:E1;
    [ split; discriminate | ].
  apply client_effects.fetchUsageOnce_error_kind in E1. destruct E1 as [N1 N2].
  destruct (spec.auth_error e1).
  { split; intros H; inversion H; contradiction. }
  destruct (api.fetchUsageOnce ext _ _ (spec.slept _ st1)) as [[u2 | e2] st2] eqn:E2;
    [ split; discriminate | ].
  apply client_effects.fetchUsageOnce_error_kind in E2. destruct E2 as [M1 M2].
  split; intros H; inversion H; contradiction.
Qed.

(** * Further properties of the auth manager *)

Module auth_effects.
Import api auth spec.
Local Open Scope string_scope.

Section WithExtern.
Variable ext : Extern.

Lemma verifyAndFetchOrg_eq st :
  verifyAndFetchOrg ext st
  = (let '(r, st1) := FetchOrganizations ext st in
     match r with
     | inl (org :: _) =>
         (None,
          snd (cfg.SetOrganizationID (ID org)
                 (snd (api.SetOrganizationID (ID org) st1))))
     | inl [] => (Some ErrNoOrganizations, st1)
     | inr None => (Some ErrNoOrganizations, st1)
     | inr (Some e) => (Some e, st1)
     end).
Proof.
  unfold verifyAndFetchOrg, bind.
  destruct (FetchOrganizations ext st) as [[[|org orgs] | [e|]] st1]; reflexivity.
Qed.

(** [FetchOrganizations] succeeds only with a session key. *)
Lemma FetchOrganizations_success_key st orgs st1 :
  FetchOrganizations ext st = (inl orgs, st1) -> sessionKey (client st) <> "".
Proof.
  unfold FetchOrganizations, GetSessionKey, bind, gets, ret.
  destruct (String.eqb_spec (sessionKey (client st)) ""); [ discriminate | auto ].
Qed.

(** The oracles and the counter of extractions are out of the reach of
    [FetchOrganizations]. *)
Lemma FetchOrganizations_browser st r st1 :
  FetchOrganizations ext st = (r, st1) ->
  browser (world st1) = browser (world st) /\
  extractions (world st1) = extractions (world st) /\
  disk (world st1) = disk (world st) /\
  saves (world st1) = saves (world st).
Proof.
  assert (Honce : forall sk s r' s',
             fetchOrganizationsOnce ext sk s = (r', s') ->
             browser (world s') = browser (world s) /\
             extractions (world s') = extractions (world s) /\
             disk (world s') = disk (world s) /\
             saves (world s') = saves (world s)).
  { intros sk s r' s'. unfold fetchOrganizationsOnce.
    destruct (http_NewRequest_err ext _); unfold bind, roundTrip, ret; simpl.
    - intros H; inversion H; auto.
    - destruct (net (world s) (sent (world s)) _) as [msg | status msg | status body];
        try (intros H; inversion H; auto; fail).
      destruct ((status =? 401) || (status =? 403))%Z.
      { destruct (_ =? _); intros H; inversion H; auto. }
      destruct (negb (status =? 200)%Z); [ intros H; inversion H; auto | ].
      destruct (json_Unmarshal_orgs ext body); intros H; inversion H; auto. }
  unfold FetchOrganizations, GetSessionKey, bind, gets, ret.
  destruct (sessionKey (client st) =? ""); [ intros H; inversion H; auto | ].
  rewrite client_facts.FetchOrganizations_loop_policy. unfold retried_once.
  destruct (fetchOrganizationsOnce ext _ st) as [[o1 | e1] s1] eqn:E1;
    apply Honce in E1.
  - intros H; inversion H; subst; exact E1.
  - destruct (auth_error e1); [ intros H; inversion H; subst; exact E1 | ].
    destruct (fetchOrganizationsOnce ext _ (slept _ s1)) as [r2 s2] eqn:E2.
    apply Honce in E2. simpl in E2.
    intros H; inversion H; subst.
    destruct E1 as (A1 & A2 & A3 & A4), E2 as (B1 & B2 & B3 & B4).
    repeat split; congruence.
Qed.

(** What a successful [verifyAndFetchOrg] leaves. *)
Lemma verifyAndFetchOrg_success st st' :
  verifyAndFetchOrg ext st = (None, st') ->
  sessionKey (client st) <> "" /\
  sessionKey (client st') = sessionKey (client st) /\
  config.SessionKey (config st') = config.SessionKey (config st) /\
  config.OrganizationID (config st') = organizationID (client st').
Proof.
  rewrite verifyAndFetchOrg_eq.
  destruct (FetchOrganizations ext st) as [[[|org orgs] | [e|]] st1] eqn:E1;
    try discriminate.
  pose proof (FetchOrganizations_success_key _ _ _ E1) as Hkey.
  pose proof (fetch_effects.FetchOrganizations_all_effects ext st) as Heff.
  rewrite E1 in Heff. simpl in Heff. destruct Heff as (Hc & _ & Hk & _).
  intros H; inversion H; subst; clear H. simpl.
  rewrite Hc, Hk. repeat split. exact Hkey.
Qed.

(** What a failed [verifyAndFetchOrg] leaves. *)
Lemma verifyAndFetchOrg_failure st e st' :
  verifyAndFetchOrg ext st = (Some e, st') ->
  client st' = client st /\ config st' = config st /\ app st' = app st /\
  browser (world st') = browser (world st) /\
  extractions (world st') = extractions (world st).
Proof.
  rewrite verifyAndFetchOrg_eq.
  pose proof (fetch_effects.FetchOrganizations_all_effects ext st) as Heff.
  destruct (FetchOrganizations ext st) as [r st1] eqn:E1.
  apply FetchOrganizations_browser in E1. destruct E1 as (Hb & Hx & _).
  simpl in Heff. destruct Heff as (Hc & Ha & Hk & _).
  destruct r as [[|org orgs] | [e'|]]; intros H; inversion H; subst; auto.
Qed.

(** [verifyAndFetchOrg] never reads the browser. *)
Lemma verifyAndFetchOrg_browser st r st' :
  verifyAndFetchOrg ext st = (r, st') ->
  browser (world st') = browser (world st) /\
  extractions (world st') = extractions (world st).
Proof.
  rewrite verifyAndFetchOrg_eq.
  destruct (FetchOrganizations ext st) as [r1 st1] eqn:E1.
  apply FetchOrganizations_browser in E1. destruct E1 as (Hb & Hx & _).
  destruct r1 as [[|org orgs] | [e'|]]; intros H; inversion H; subst; simpl; auto.
Qed.

Lemma RefreshFromBrowser_eq st :
  RefreshFromBrowser ext st
  = (let st0 := snd (ExtractSessionKey st) in
     match browser (world st) (extractions (world st)) with
     | inr msg => (Some (ErrExternal msg), st0)
     | inl key =>
         let '(verr, st2) := verifyAndFetchOrg ext (snd (api.SetSessionKey key st0)) in
         match verr with
         | Some e => (Some e, st2)
         | None => (None, snd (cfg.SetSessionKey key st2))
         end
     end).
Proof.
  unfold RefreshFromBrowser, bind. unfold ExtractSessionKey at 1. cbv beta iota zeta.
  destruct (browser (world st) (extractions (world st))) as [key | msg];
    [ | reflexivity ].
  change (api.SetSessionKey key ?s) with (tt, snd (api.SetSessionKey key s)).
  cbv beta iota.
  change (with_world _ st) with (snd (ExtractSessionKey st)).
  destruct (verifyAndFetchOrg ext _) as [[e|] st2]; reflexivity.
Qed.

(** A verified session key, once saved, is mirrored. *)
Lemma verified_then_saved st st2 :
  verifyAndFetchOrg ext st = (None, st2) ->
  mirrored (snd (cfg.SetSessionKey (sessionKey (client st)) st2)).
Proof.
  intros Hv. apply verifyAndFetchOrg_success in Hv.
  destruct Hv as (Hne & Hk & _ & Ho).
  unfold mirrored. simpl. rewrite Hk. repeat split; assumption.
Qed.

Variable credentials : string + string.

(** The CLI file changes no session key and reads no browser. *)
Lemma tryClaudeCodeCredentials_effects st :
  let st' := snd (tryClaudeCodeCredentials credentials st) in
  sessionKey (client st') = sessionKey (client st) /\
  config.SessionKey (config st') = config.SessionKey (config st) /\
  app st' = app st /\
  browser (world st') = browser (world st) /\
  extractions (world st') = extractions (world st) /\
  sent (world st') = sent (world st).
Proof.
  unfold tryClaudeCodeCredentials.
  destruct credentials as [uuid | msg]; [ | repeat split ].
  destruct (negb (uuid =? "")); repeat split.
Qed.

Lemma Initialize_otherSources_eq st :
  Initialize_otherSources ext credentials st
  = (let s1 := snd (tryClaudeCodeCredentials credentials st) in
     let s2 := snd (ExtractSessionKey s1) in
     match browser (world s1) (extractions (world s1)) with
     | inr _ => (Some ErrAuthFailed, s2)
     | inl key =>
         let '(verr, s3) := verifyAndFetchOrg ext (snd (api.SetSessionKey key s2)) in
         match verr with
         | Some e => (Some e, s3)
         | None => (None, snd (cfg.SetSessionKey key s3))
         end
     end).
Proof.
  unfold Initialize_otherSources, bind.
  destruct (tryClaudeCodeCredentials credentials st) as [r s1]. cbv zeta. simpl snd.
  unfold ExtractSessionKey at 1. cbv beta iota zeta.
  destruct (browser (world s1) (extractions (world s1))) as [key | msg];
    [ | reflexivity ].
  change (api.SetSessionKey key ?s) with (tt, snd (api.SetSessionKey key s)).
  cbv beta iota.
  change (with_world _ s1) with (snd (ExtractSessionKey s1)).
  destruct (verifyAndFetchOrg ext _) as [[e|] s3]; reflexivity.
Qed.

Lemma Initialize_eq st :
  Initialize ext credentials st
  = (if negb (config.SessionKey (config st) =? "") then
       let '(verr, s2) := verifyAndFetchOrg ext (saved_installed st) in
       match verr with
       | None => (None, s2)
       | Some _ => Initialize_otherSources ext credentials s2
       end
     else Initialize_otherSources ext credentials st).
Proof.
  unfold Initialize, saved_installed, bind, gets. cbv beta iota zeta.
  destruct (negb (config.SessionKey (config st) =? "")); [ | reflexivity ].
  change (api.SetSessionKey ?k ?s) with (tt, snd (api.SetSessionKey k s)).
  cbv beta iota.
  destruct (negb (config.OrganizationID (config st) =? "")).
  - change (api.SetOrganizationID ?k ?s) with (tt, snd (api.SetOrganizationID k s)).
    cbv beta iota.
    destruct (verifyAndFetchOrg ext _) as [[e|] s2]; reflexivity.
  - unfold ret at 1. cbv beta iota.
    destruct (verifyAndFetchOrg ext _) as [[e|] s2]; reflexivity.
Qed.

End WithExtern.

End auth_effects.

(** X6.  [verifyAndFetchOrg] takes the first organization that
    [FetchOrganizations] returns: its ID becomes the organization ID of the
    client and of the configuration, which is saved once, and the session
    keys of both stay as they were.  An empty list of organizations is the
    error "no organizations found", and every failure leaves the client and
    the configuration as they were. *)
Theorem verifyAndFetchOrg_uses_first_organization (ext : Extern) (st : State) :
  let st1 := snd (api.FetchOrganizations ext st) in
  let err := fst (auth.verifyAndFetchOrg ext st) in
  let st' := snd (auth.verifyAndFetchOrg ext st) in
  match fst (api.FetchOrganizations ext st) with
  | inl (org :: _) =>
      err = None /\
      organizationID (client st') = ID org /\
      config.OrganizationID (config st') = ID org /\
      sessionKey (client st') = sessionKey (client st) /\
      config.SessionKey (config st') = config.SessionKey (config st) /\
      trace (world st')
      = (trace (world st1)
           ++ [EvConfigSave (config st') (disk (world st1) (saves (world st1)))])%list
  | inl [] =>
      err = Some ErrNoOrganizations /\ client st' = client st /\ config st' = config st
  | inr e =>
      err <> None /\ (forall e', e = Some e' -> err = Some e') /\
      client st' = client st /\ config st' = config st
  end.
Proof.
  intros st1 err st'. subst st1 err st'.
  rewrite auth_effects.verifyAndFetchOrg_eq.
  pose proof (fetch_effects.FetchOrganizations_all_effects ext st) as Heff.
  destruct (api.FetchOrganizations ext st) as [r s1]. simpl in Heff.
  destruct Heff as (Hc & _ & Hk & _).
  destruct r as [[|org orgs] | [e|]]; simpl.
  - repeat split; assumption.
  - rewrite Hc, Hk. repeat split.
  - repeat split; try assumption; try discriminate. intros e' H; inversion H; reflexivity.
  - repeat split; try assumption; try discriminate.
Qed.

(** X7.  [RefreshFromBrowser] does not roll back.  When the extraction
    fails, its error is returned and nothing but the count of extractions
    changes: no request is sent.  When the extracted key fails
    verification, the error is returned and the extracted key stays
    installed in the client, while the configuration keeps what it had.
    When it verifies, the client and the configuration both hold it. *)
Theorem RefreshFromBrowser_keeps_extracted_key (ext : Extern) (st : State) :
  let w := world st in
  let st' := snd (auth.RefreshFromBrowser ext st) in
  match browser w (extractions w) with
  | inr msg =>
      fst (auth.RefreshFromBrowser ext st) = Some (ErrExternal msg) /\
      client st' = client st /\ config st' = config st /\ app st' = app st /\
      sent (world st') = sent w /\ trace (world st') = trace w /\
      extractions (world st') = S (extractions w)
  | inl key =>
      let st1 := snd (api.SetSessionKey key (snd (ExtractSessionKey st))) in
      match fst (auth.verifyAndFetchOrg ext st1) with
      | Some e =>
          fst (auth.RefreshFromBrowser ext st) = Some e /\
          sessionKey (client st') = key /\
          organizationID (client st') = organizationID (client st) /\
          config st' = config st
      | None =>
          fst (auth.RefreshFromBrowser ext st) = None /\
          sessionKey (client st') = key /\
          config.SessionKey (config st') = key
      end
  end.
Proof.
  intros w st'. subst w st'.
  rewrite auth_effects.RefreshFromBrowser_eq. cbv zeta.
  destruct (browser (world st) (extractions (world st))) as [key | msg].
  - destruct (auth.verifyAndFetchOrg ext _) as [[e|] st2] eqn:Ev; simpl.
    + apply auth_effects.verifyAndFetchOrg_failure in Ev.
      destruct Ev as (Hk & Hc & _). rewrite Hk, Hc. repeat split.
    + apply auth_effects.verifyAndFetchOrg_success in Ev.
      destruct Ev as (_ & Hk & _). repeat split. exact Hk.
  - simpl. repeat split.
Qed.

(** X12.  [SetManualSessionKey] with the empty key fails with
    [ErrNoSessionKey] without sending anything; the client is left with no
    session key, whatever key it held before, and the configuration is not
    touched. *)
Theorem SetManualSessionKey_empty_key (ext : Extern) (st : State) :
  auth.SetManualSessionKey ext "" st
  = (Some ErrNoSessionKey, snd (api.SetSessionKey "" st)) /\
  world (snd (auth.SetManualSessionKey ext "" st)) = world st /\
  config (snd (auth.SetManualSessionKey ext "" st)) = config st.
Proof.
  assert (Hrun : auth.SetManualSessionKey ext "" st
                 = (Some ErrNoSessionKey, snd (api.SetSessionKey "" st))) by reflexivity.
  rewrite Hrun. repeat split.
Qed.

(** X8.  [Initialize] tries the saved session key first: when the
    configuration holds a key and that key verifies, [Initialize] returns
    [nil] in the state that the verification leaves, with the saved key
    installed in the client, and it reads neither the browser nor
    anything else. *)
Theorem Initialize_saved_key_first (ext : Extern) (credentials : string + string)
  (st : State) :
  config.SessionKey (config st) <> ""%string ->
  fst (auth.verifyAndFetchOrg ext (spec.saved_installed st)) = None ->
  let st' := snd (auth.Initialize ext credentials st) in
  auth.Initialize ext credentials st
  = (None, snd (auth.verifyAndFetchOrg ext (spec.saved_installed st))) /\
  sessionKey (client st') = config.SessionKey (config st) /\
  extractions (world st') = extractions (world st).
Proof.
  intros Hsaved Hverified st'. subst st'.
  rewrite auth_effects.Initialize_eq.
  apply String.eqb_neq in Hsaved. rewrite Hsaved. simpl negb. cbv iota.
  destruct (auth.verifyAndFetchOrg ext (spec.saved_installed st)) as [verr s2] eqn:Ev.
  simpl in Hverified. subst verr. simpl snd.
  pose proof (auth_effects.verifyAndFetchOrg_browser ext _ _ _ Ev) as [_ Hx].
  apply auth_effects.verifyAndFetchOrg_success in Ev. destruct Ev as (_ & Hk & _).
  repeat split.
  - rewrite Hk. unfold spec.saved_installed.
    destruct (negb (config.OrganizationID (config st) =? "")%string); reflexivity.
  - rewrite Hx. unfold spec.saved_installed.
    destruct (negb (config.OrganizationID (config st) =? "")%string); reflexivity.
Qed.

(** X8 at a program that starts with a saved key in front of a server that
    lists one organization. *)
Lemma Initialize_saved_key_first_witness :
  let st := fixtures.started (fixtures.server [] (Response 200 fixtures.orgsBody)) in
  let st' := snd (auth.Initialize fixtures.ext0 fixtures.noCredentials st) in
  fst (auth.Initialize fixtures.ext0 fixtures.noCredentials st) = None /\
  sessionKey (client st') = "sk-ant-sid01-abc"%string /\
  extractions (world st') = 0%nat.
Proof.
  intros st st'.
  assert (Hsaved : config.SessionKey (config st) <> ""%string) by discriminate.
  assert (Hverified : fst (auth.verifyAndFetchOrg fixtures.ext0 (spec.saved_installed st))
                      = None) by (vm_compute; reflexivity).
  destruct (Initialize_saved_key_first fixtures.ext0 fixtures.noCredentials st
              Hsaved Hverified) as (Hrun & Hkey & Hx).
  split; [ rewrite Hrun; reflexivity | split; [ exact Hkey | exact Hx ] ].
Defined.

(** X9.  When the saved key is missing or does not verify and the browser
    yields no key, [Initialize] returns [ErrAuthFailed], whatever the error
    of the extraction was, and a saved key that failed verification is
    left installed in the client. *)
Theorem Initialize_without_any_key (ext : Extern) (credentials : string + string)
  (st : State) (msg : string) :
  config.SessionKey (config st) = ""%string \/
  fst (auth.verifyAndFetchOrg ext (spec.saved_installed st)) <> None ->
  browser (world st) (extractions (world st)) = inr msg ->
  let st' := snd (auth.Initialize ext credentials st) in
  fst (auth.Initialize ext credentials st) = Some ErrAuthFailed /\
  (config.SessionKey (config st) <> ""%string ->
   sessionKey (client st') = config.SessionKey (config st)) /\
  (config.SessionKey (config st) = ""%string ->
   sessionKey (client st') = sessionKey (client st) /\
   sent (world st') = sent (world st)).
Proof.
  intros Hnokey Hbrowser st'. subst st'.
  assert (Hother : forall s,
             browser (world s) = browser (world st) ->
             extractions (world s) = extractions (world st) ->
             fst (auth.Initialize_otherSources ext credentials s) = Some ErrAuthFailed /\
             sessionKey (client (snd (auth.Initialize_otherSources ext credentials s)))
             = sessionKey (client s) /\
             sent (world (snd (auth.Initialize_otherSources ext credentials s)))
             = sent (world s)).
  { intros s Hb Hx. rewrite auth_effects.Initialize_otherSources_eq. cbv zeta.
    destruct (auth_effects.tryClaudeCodeCredentials_effects credentials s)
      as (Tk & _ & _ & Tb & Tx & Ts).
    rewrite Tb, Tx, Hb, Hx, Hbrowser. simpl. repeat split; assumption. }
  rewrite auth_effects.Initialize_eq.
  destruct (String.eqb_spec (config.SessionKey (config st)) "") as [Hempty | Hsaved];
    simpl negb; cbv iota.
  - destruct (Hother st eq_refl eq_refl) as (Hr & Hk & Hs).
    split; [ exact Hr | split; [ intros H; contradiction | intros _; now split ] ].
  - destruct Hnokey as [Hempty | Hfails]; [ contradiction | ].
    destruct (auth.verifyAndFetchOrg ext (spec.saved_installed st)) as [[e|] s2] eqn:Ev;
      [ | now destruct Hfails ].
    pose proof (auth_effects.verifyAndFetchOrg_failure ext _ _ _ Ev)
      as (Hc & _ & _ & Hb & Hx).
    assert (Hworld : world (spec.saved_installed st) = world st).
    { unfold spec.saved_installed.
      destruct (negb (config.OrganizationID (config st) =? "")%string); reflexivity. }
    rewrite Hworld in Hb, Hx.
    destruct (Hother s2 Hb Hx) as (Hr & Hk & Hs). simpl snd.
    split; [ exact Hr | split; [ | intros H; contradiction ] ].
    intros _. rewrite Hk, Hc. unfold spec.saved_installed.
    destruct (negb (config.OrganizationID (config st) =? "")%string); reflexivity.
Qed.

(** X9 at a program whose saved key is answered with 401 and whose machine
    has no browser cookie. *)
Lemma Initialize_without_any_key_witness :
  let st := fixtures.started (fixtures.server [] (Response 401 "")) in
  let st' := snd (auth.Initialize fixtures.ext0 fixtures.cliCredentials st) in
  fst (auth.Initialize fixtures.ext0 fixtures.cliCredentials st) = Some ErrAuthFailed /\
  sessionKey (client st') = "sk-ant-sid01-abc"%string.
Proof.
  intros st st'.
  assert (Hfails : config.SessionKey (config st) = ""%string \/
                   fst (auth.verifyAndFetchOrg fixtures.ext0 (spec.saved_installed st))
                   <> None) by (right; vm_compute; discriminate).
  assert (Hbrowser : browser (world st) (extractions (world st)) = inr "no cookie store"%string)
    by reflexivity.
  destruct (Initialize_without_any_key fixtures.ext0 fixtures.cliCredentials st _
              Hfails Hbrowser) as (Hrun & Hkey & _).
  split; [ exact Hrun | ].
  apply Hkey. discriminate.
Defined.

(** X10.  Whenever [Initialize], [SetManualSessionKey] or
    [RefreshFromBrowser] returns [nil], the client holds a session key that
    is not empty, and the configuration holds the same session key and the
    same organization ID as the client. *)
Theorem successful_authentication_is_mirrored (ext : Extern)
  (credentials : string + string) (key : string) (st : State) :
  (fst (auth.Initialize ext credentials st) = None ->
   spec.mirrored (snd (auth.Initialize ext credentials st))) /\
  (fst (auth.SetManualSessionKey ext key st) = None ->
   spec.mirrored (snd (auth.SetManualSessionKey ext key st))) /\
  (fst (auth.RefreshFromBrowser ext st) = None ->
   spec.mirrored (snd (auth.RefreshFromBrowser ext st))).
Proof.
  assert (Hother : forall s,
             fst (auth.Initialize_otherSources ext credentials s) = None ->
             spec.mirrored (snd (auth.Initialize_otherSources ext credentials s))).
  { intros s. rewrite auth_effects.Initialize_otherSources_eq. cbv zeta.
    destruct (browser _ _) as [k | msg]; [ | discriminate ].
    destruct (auth.verifyAndFetchOrg ext _) as [[e|] s3] eqn:Ev; [ discriminate | ].
    intros _. apply auth_effects.verified_then_saved in Ev. exact Ev. }
  split; [ | split ].
  - rewrite auth_effects.Initialize_eq.
    destruct (String.eqb_spec (config.SessionKey (config st)) "") as [Hempty | Hsaved];
      simpl negb; cbv iota; [ apply Hother | ].
    destruct (auth.verifyAndFetchOrg ext (spec.saved_installed st)) as [[e|] s2] eqn:Ev;
      [ apply Hother | ].
    intros _. simpl snd.
    apply auth_effects.verifyAndFetchOrg_success in Ev.
    destruct Ev as (Hne & Hk & Hc & Ho).
    assert (Hinst : sessionKey (client (spec.saved_installed st))
                    = config.SessionKey (config st) /\
                    config.SessionKey (config (spec.saved_installed st))
                    = config.SessionKey (config st)).
    { unfold spec.saved_installed.
      destruct (negb (config.OrganizationID (config st) =? "")%string); split; reflexivity. }
    destruct Hinst as [Hi1 Hi2].
    unfold spec.mirrored. rewrite Hk, Hc, Hi1, Hi2. rewrite Hi1 in Hne.
    split; [ exact Hne | split; [ reflexivity | exact Ho ] ].
  - unfold auth.SetManualSessionKey, bind.
    change (api.SetSessionKey key st) with (tt, snd (api.SetSessionKey key st)).
    cbv beta iota.
    destruct (auth.verifyAndFetchOrg ext _) as [[e|] s2] eqn:Ev; [ discriminate | ].
    intros _. apply auth_effects.verified_then_saved in Ev. exact Ev.
  - rewrite auth_effects.RefreshFromBrowser_eq. cbv zeta.
    destruct (browser _ _) as [k | msg]; [ | discriminate ].
    destruct (auth.verifyAndFetchOrg ext _) as [[e|] s2] eqn:Ev; [ discriminate | ].
    intros _. apply auth_effects.verified_then_saved in Ev. exact Ev.
Qed.

(** * Further properties of the polling loop *)

Module tick_facts.
Import api app spec.
Local Open Scope string_scope.

(** The notification check touches the two records and the trace only,
    and adds at most two notifications. *)
Lemma polled_frame usage st :
  client (polled usage st) = client st /\
  config (polled usage st) = config st /\
  consecutiveErrors (app (polled usage st)) = consecutiveErrors (app st) /\
  rateLimitBackoff (app (polled usage st)) = rateLimitBackoff (app st) /\
  sent (world (polled usage st)) = sent (world st) /\
  extractions (world (polled usage st)) = extractions (world st) /\
  saves (world (polled usage st)) = saves (world st) /\
  exists added,
    trace (world (polled usage st)) = (trace (world st) ++ added)%list /\
    Forall is_notification added /\ (List.length added <= 2)%nat.
Proof.
  unfold polled, checkAndNotify, bind, gets.
  destruct (negb (config.NotificationsEnabled (config st))
            || Nat.eqb (List.length (config.AlertThresholds (config st))) 0).
  { simpl. repeat split. exists []. rewrite app_nil_r. repeat split; [ constructor | simpl; lia ]. }
  cbv beta iota.
  unfold setLastSessionThreshold, setLastWeeklyThreshold, event, modify, ret,
    with_world, with_app, emit.
  destruct (lastSessionThreshold (app st) <? _)%float;
    [ | destruct (_ <? lastSessionThreshold (app st))%float ]; simpl;
    (destruct (lastWeeklyThreshold (app st) <? _)%float;
      [ | destruct (_ <? lastWeeklyThreshold (app st))%float ]); simpl;
    repeat split;
    try (eexists; rewrite <- ?app_assoc; split; [ reflexivity | ];
         split; [ repeat constructor | simpl; lia ]);
    try (exists []; rewrite app_nil_r; split; [ reflexivity | ];
         split; [ constructor | simpl; lia ]).
Qed.

Section WithExtern.
Variable ext : Extern.

(** A tick without credentials does nothing. *)
Lemma tick_unauthenticated st :
  fst (HasCredentials st) = false -> fetchUsage ext st = (Returned, st).
Proof.
  intros Hno. unfold fetchUsage, auth.IsAuthenticated, bind.
  destruct (HasCredentials st) as [b s] eqn:E.
  assert (Hs : s = st) by (unfold HasCredentials, gets in E; inversion E; reflexivity).
  simpl in Hno. subst b s. reflexivity.
Qed.

(** A tick with credentials goes on from the state [awaited st] with the
    result of [FetchUsage]. *)
Lemma tick_authenticated st :
  fst (HasCredentials st) = true ->
  fetchUsage ext st
  = (let '(r, st1) := FetchUsage ext (awaited st) in
     match r with
     | inl usage => (Returned, polled usage (displayed usage st1))
     | inr None =>
         (Panicked, snd (setRateLimitBackoff 0 (snd (setConsecutiveErrors 0 st1))))
     | inr (Some err) =>
         let errCount := GoInt.add (consecutiveErrors (app st1)) 1 in
         let st2 := snd (setConsecutiveErrors errCount st1) in
         if error_eqb err ErrSessionExpired then
           let '(refreshErr, st3) :=
             auth.RefreshFromBrowser ext
               (with_world (emit (EvStatus "Session expired - refreshing...")) st2) in
           match refreshErr with
           | Some _ =>
               (Returned,
                with_world (emit (EvStatus "Session expired - update key in Settings")) st3)
           | None => (Returned, st3)
           end
         else if error_eqb err ErrUnauthorized then
           let '(refreshErr, st3) :=
             auth.RefreshFromBrowser ext
               (with_world (emit (EvStatus "Auth failed - refreshing...")) st2) in
           match refreshErr with
           | Some _ =>
               (Returned,
                with_world (emit (EvStatus "Auth failed - update key in Settings")) st3)
           | None => (Returned, st3)
           end
         else if error_eqb err ErrRateLimited then
           match GoInt.shl 1 (Z.min (GoInt.sub errCount 1) 3) with
           | None => (Panicked, st2)
           | Some p =>
               (Returned,
                with_world
                  (emit (EvStatus ("Rate limited - retry in "
                                   ++ GoInt.format (GoInt.mul 30 p) ++ "s")))
                  (snd (setRateLimitBackoff (GoInt.mul (GoInt.mul 30 p) Second) st2)))
           end
         else if error_eqb err ErrAPIUnavailable then
           (Returned, with_world (emit (EvStatus "Claude API unavailable")) st2)
         else if (3 <=? errCount)%Z then
           (Returned, with_world (emit (EvStatus "Connection error - retrying...")) st2)
         else (Returned, st2)
     end).
Proof.
  intros Hauth. unfold HasCredentials, gets in Hauth. cbv beta iota delta [fst] in Hauth.
  unfold fetchUsage, auth.IsAuthenticated, HasCredentials, bind, gets.
  rewrite Hauth. change (negb true) with false. cbv beta iota.
  assert (Hwait :
    (if (0 <? rateLimitBackoff (app st))%Z
     then bind (setRateLimitBackoff 0) (fun _ => sleep (rateLimitBackoff (app st)))
     else ret tt) st = (tt, awaited st)).
  { unfold awaited. destruct (0 <? rateLimitBackoff (app st))%Z; reflexivity. }
  unfold bind in Hwait. rewrite Hwait.
  destruct (FetchUsage ext (awaited st)) as [[usage | [err|]] st1]; try reflexivity.
  - unfold polled, displayed, event, modify. cbv beta iota.
    change (setConsecutiveErrors 0 st1) with (tt, snd (setConsecutiveErrors 0 st1)).
    cbv beta iota.
    change (setRateLimitBackoff 0 (snd (setConsecutiveErrors 0 st1)))
      with (tt, snd (setRateLimitBackoff 0 (snd (setConsecutiveErrors 0 st1)))).
    cbv beta iota.
    destruct (checkAndNotify usage _); reflexivity.
  - cbv beta iota zeta.
    destruct (error_eqb err ErrSessionExpired).
    { unfold event, modify. cbv beta iota.
      change (setConsecutiveErrors (GoInt.add (consecutiveErrors (app st1)) 1) st1)
        with (tt, snd (setConsecutiveErrors (GoInt.add (consecutiveErrors (app st1)) 1) st1)).
      cbv beta iota.
      destruct (auth.RefreshFromBrowser ext _) as [[e|] st3]; reflexivity. }
    destruct (error_eqb err ErrUnauthorized).
    { unfold event, modify. cbv beta iota.
      change (setConsecutiveErrors (GoInt.add (consecutiveErrors (app st1)) 1) st1)
        with (tt, snd (setConsecutiveErrors (GoInt.add (consecutiveErrors (app st1)) 1) st1)).
      cbv beta iota.
      destruct (auth.RefreshFromBrowser ext _) as [[e|] st3]; reflexivity. }
    destruct (error_eqb err ErrRateLimited).
    { destruct (GoInt.shl 1 _); reflexivity. }
    destruct (error_eqb err ErrAPIUnavailable); [ reflexivity | ].
    destruct (3 <=? _)%Z; reflexivity.
Qed.

(** [FetchUsage] gets past its two checks only with credentials. *)
Lemma FetchUsage_credentials st :
  fst (FetchUsage ext st) <> inr (Some ErrNoSessionKey) ->
  fst (FetchUsage ext st) <> inr (Some ErrNoOrgID) ->
  fst (HasCredentials st) = true.
Proof.
  unfold FetchUsage, HasCredentials, GetSessionKey, GetOrganizationID, bind, gets, ret.
  cbv beta iota delta [fst].
  destruct (sessionKey (client st) =? ""); [ intros H; elim H; reflexivity | ].
  destruct (organizationID (client st) =? ""); [ intros _ H; elim H; reflexivity | ].
  reflexivity.
Qed.

Lemma awaited_credentials st :
  fst (HasCredentials (awaited st)) = fst (HasCredentials st).
Proof.
  unfold HasCredentials, gets. cbv beta iota delta [fst].
  rewrite backoff_facts.awaited_client. reflexivity.
Qed.

Lemma FetchUsage_not_nil st : fst (FetchUsage ext st) <> inr None.
Proof.
  unfold FetchUsage, GetSessionKey, GetOrganizationID, bind, gets, ret.
  destruct (sessionKey (client st) =? ""); [ discriminate | ].
  destruct (organizationID (client st) =? ""); [ discriminate | ].
  rewrite client_facts.FetchUsage_loop_policy. unfold retried_once.
  destruct (fetchUsageOnce ext _ _ st) as [[u1 | e1] st1]; [ discriminate | ].
  destruct (auth_error e1); [ discriminate | ].
  destruct (fetchUsageOnce ext _ _ (slept _ st1)) as [[u2 | e2] st2]; discriminate.
Qed.

(** The state [awaited st]: the backoff is zero, the counter and the
    records are those of [st], and the trace has the sleep, if any. *)
Lemma awaited_effects st :
  rateLimitBackoff (app (awaited st))
  = (if (0 <? rateLimitBackoff (app st))%Z then 0%Z else rateLimitBackoff (app st)) /\
  consecutiveErrors (app (awaited st)) = consecutiveErrors (app st) /\
  lastSessionThreshold (app (awaited st)) = lastSessionThreshold (app st) /\
  lastWeeklyThreshold (app (awaited st)) = lastWeeklyThreshold (app st) /\
  config (awaited st) = config st /\
  sent (world (awaited st)) = sent (world st) /\
  extractions (world (awaited st)) = extractions (world st) /\
  saves (world (awaited st)) = saves (world st) /\
  trace (world (awaited st))
  = (trace (world st)
     ++ (if (0 <? rateLimitBackoff (app st))%Z
         then [EvSleep (rateLimitBackoff (app st))] else []))%list.
Proof.
  unfold awaited. destruct (0 <? rateLimitBackoff (app st))%Z; simpl;
    rewrite ?app_nil_r; repeat split.
Qed.

(** [verifyAndFetchOrg] and [RefreshFromBrowser] leave the application
    state as it is and only add to the trace; the refresh is one
    extraction. *)
Lemma verifyAndFetchOrg_app st :
  let st' := snd (auth.verifyAndFetchOrg ext st) in
  app st' = app st /\
  extractions (world st') = extractions (world st) /\
  exists added, trace (world st') = (trace (world st) ++ added)%list.
Proof.
  intros st'. subst st'. rewrite auth_effects.verifyAndFetchOrg_eq.
  pose proof (fetch_effects.FetchOrganizations_all_effects ext st) as H. cbv zeta in H.
  destruct (FetchOrganizations ext st) as [r st1]. simpl snd in H.
  destruct H as (Hc & Ha & Hcl & Hs & Hx & Hr & Hn & added & Ht & _).
  destruct r as [[|org orgs] | [e|]]; simpl; repeat split; try assumption;
    try (exists added; exact Ht).
  rewrite Ht, <- app_assoc. eexists. reflexivity.
Qed.

Lemma RefreshFromBrowser_app st :
  let st' := snd (auth.RefreshFromBrowser ext st) in
  app st' = app st /\
  extractions (world st') = S (extractions (world st)) /\
  exists added, trace (world st') = (trace (world st) ++ added)%list.
Proof.
  intros st'. subst st'. rewrite auth_effects.RefreshFromBrowser_eq. cbv zeta.
  destruct (browser (world st) (extractions (world st))) as [key | msg].
  - pose proof (verifyAndFetchOrg_app
                  (snd (api.SetSessionKey key (snd (ExtractSessionKey st))))) as H.
    cbv zeta in H.
    destruct (auth.verifyAndFetchOrg ext _) as [verr st2]. simpl snd in H.
    destruct H as (Ha & Hx & added & Ht). simpl in Ha, Hx, Ht.
    destruct verr as [e|]; simpl; repeat split; try assumption.
    + exists added. exact Ht.
    + rewrite Ht, <- app_assoc. eexists. reflexivity.
  - simpl. repeat split. exists []. rewrite app_nil_r. reflexivity.
Qed.

End WithExtern.

End tick_facts.

(** X13.  A tick with credentials, from a counter that is not negative
    and below the largest [int] and a backoff that is not negative, never
    panics and sets the counter and the backoff from the outcome of its
    fetch alone: a success resets both; a failure of any class adds one to
    the counter, leaves the two notification records as they are, and
    leaves no backoff pending unless the failure is [ErrRateLimited]. *)
Theorem tick_counters_follow_the_outcome (ext : Extern) (st : State) :
  fst (api.HasCredentials st) = true ->
  (0 <= consecutiveErrors (app st) < GoInt.max_int)%Z ->
  (0 <= rateLimitBackoff (app st))%Z ->
  let st' := snd (app.fetchUsage ext st) in
  fst (app.fetchUsage ext st) = app.Returned /\
  match fst (api.FetchUsage ext (spec.awaited st)) with
  | inl _ =>
      consecutiveErrors (app st') = 0%Z /\ rateLimitBackoff (app st') = 0%Z
  | inr e =>
      consecutiveErrors (app st') = (consecutiveErrors (app st) + 1)%Z /\
      (e <> Some ErrRateLimited -> rateLimitBackoff (app st') = 0%Z) /\
      lastSessionThreshold (app st') = lastSessionThreshold (app st) /\
      lastWeeklyThreshold (app st') = lastWeeklyThreshold (app st)
  end.
Proof.
  intros Hauth Hn Hb st'. subst st'.
  rewrite (tick_facts.tick_authenticated ext st Hauth).
  pose proof (tick_facts.FetchUsage_not_nil ext (spec.awaited st)) as Hnil.
  destruct (tick_facts.awaited_effects st) as (Hb0 & Hn0 & Hs0 & Hw0 & _).
  assert (Hzero : rateLimitBackoff (app (spec.awaited st)) = 0%Z).
  { rewrite Hb0. destruct (0 <? rateLimitBackoff (app st))%Z eqn:E; [ reflexivity | ].
    apply Z.ltb_ge in E. lia. }
  destruct (api.FetchUsage ext (spec.awaited st)) as [r st1] eqn:Erun.
  destruct (backoff_facts.FetchUsage_frame _ _ _ _ Erun) as [Happ _].
  simpl fst in Hnil. cbv beta iota.
  assert (Hadd : GoInt.add (consecutiveErrors (app st1)) 1
                 = (consecutiveErrors (app st) + 1)%Z).
  { rewrite Happ, Hn0. unfold GoInt.max_int in Hn.
    apply backoff_facts.wrap_small. lia. }
  destruct r as [usage | [err|]]; [ | | elim Hnil; reflexivity ].
  - simpl snd.
    destruct (tick_facts.polled_frame usage (spec.displayed usage st1))
      as (_ & _ & Hc & Hk & _).
    rewrite Hc, Hk. repeat split.
  - cbv zeta. rewrite Hadd.
    destruct (error_eqb err ErrSessionExpired) eqn:E1; cbv beta iota.
    { match goal with
      | |- context [auth.RefreshFromBrowser ext ?s] =>
          pose proof (tick_facts.RefreshFromBrowser_app ext s) as H;
          destruct (auth.RefreshFromBrowser ext s) as [[e|] st3]
      end; cbv zeta in H; simpl snd in H; destruct H as (Ha & _);
      simpl; rewrite Ha; simpl; rewrite Happ, ?Hzero, ?Hs0, ?Hw0; repeat split. }
    destruct (error_eqb err ErrUnauthorized) eqn:E2; cbv beta iota.
    { match goal with
      | |- context [auth.RefreshFromBrowser ext ?s] =>
          pose proof (tick_facts.RefreshFromBrowser_app ext s) as H;
          destruct (auth.RefreshFromBrowser ext s) as [[e|] st3]
      end; cbv zeta in H; simpl snd in H; destruct H as (Ha & _);
      simpl; rewrite Ha; simpl; rewrite Happ, ?Hzero, ?Hs0, ?Hw0; repeat split. }
    destruct (error_eqb err ErrRateLimited) eqn:E3; cbv beta iota.
    { apply client_facts.error_eqb_eq in E3. subst err.
      set (n := consecutiveErrors (app st)) in *.
      assert (Hsub : GoInt.sub (n + 1) 1 = n).
      { unfold GoInt.sub. replace (n + 1 - 1)%Z with n by lia.
        unfold GoInt.max_int in Hn. apply backoff_facts.wrap_small. lia. }
      rewrite Hsub.
      assert (Hmin : Z.min n 3 = 0 \/ Z.min n 3 = 1 \/ Z.min n 3 = 2 \/ Z.min n 3 = 3)
        by lia.
      destruct Hmin as [-> | [-> | [-> | ->]]]; simpl;
        rewrite Happ, ?Hs0, ?Hw0; repeat split; intros H; elim H; reflexivity. }
    destruct (error_eqb err ErrAPIUnavailable);
      [ | destruct (3 <=? _)%Z ]; simpl; rewrite Happ, ?Hzero, ?Hs0, ?Hw0; repeat split.
Qed.

(** X13 at a program whose third failed tick in a row is answered with
    503: the counter is three and no backoff is pending. *)
Lemma tick_counters_witness :
  let st := with_app (fun _ =>
              {| consecutiveErrors := 2; rateLimitBackoff := 0;
                 lastSessionThreshold := 0%float; lastWeeklyThreshold := 0%float |})
              (fixtures.st0 (fixtures.server [] (Response 503 ""))) in
  let st' := snd (app.fetchUsage fixtures.ext0 st) in
  fst (app.fetchUsage fixtures.ext0 st) = app.Returned /\
  consecutiveErrors (app st') = 3%Z /\ rateLimitBackoff (app st') = 0%Z.
Proof.
  intros st st'.
  assert (Hauth : fst (api.HasCredentials st) = true) by reflexivity.
  assert (Hn : (0 <= consecutiveErrors (app st) < GoInt.max_int)%Z)
    by (vm_compute; split; [ discriminate | reflexivity ]).
  assert (Hb : (0 <= rateLimitBackoff (app st))%Z) by (vm_compute; discriminate).
  pose proof (tick_counters_follow_the_outcome fixtures.ext0 st Hauth Hn Hb) as H.
  cbv zeta in H. destruct H as [Hrun H].
  assert (Hfetch : fst (api.FetchUsage fixtures.ext0 (spec.awaited st))
                   = inr (Some ErrAPIUnavailable)) by (vm_compute; reflexivity).
  rewrite Hfetch in H. destruct H as (Hc & Hk & _).
  split; [ exact Hrun | split ].
  - exact Hc.
  - apply Hk. discriminate.
Defined.

(** X14.  A tick whose fetch succeeds resets the counter and the backoff,
    shows the snapshot in the overlay and then in the tray, and after
    these adds at most two events, all of them notifications; it sends
    nothing more and leaves the client as the fetch left it. *)
Theorem successful_tick_shows_the_snapshot (ext : Extern) (st : State)
  (usage : UsageData) (st1 : State) :
  api.FetchUsage ext (spec.awaited st) = (inl usage, st1) ->
  let st' := snd (app.fetchUsage ext st) in
  fst (app.fetchUsage ext st) = app.Returned /\
  consecutiveErrors (app st') = 0%Z /\ rateLimitBackoff (app st') = 0%Z /\
  client st' = client st1 /\ config st' = config st /\
  sent (world st') = sent (world st1) /\
  exists notes,
    trace (world st')
    = (trace (world st1) ++ [EvOverlayUsage usage; EvTrayUsage usage] ++ notes)%list /\
    Forall spec.is_notification notes /\ (List.length notes <= 2)%nat.
Proof.
  intros Hrun st'. subst st'.
  assert (Hauth : fst (api.HasCredentials st) = true).
  { rewrite <- tick_facts.awaited_credentials.
    apply (tick_facts.FetchUsage_credentials ext); rewrite Hrun; discriminate. }
  rewrite (tick_facts.tick_authenticated ext st Hauth), Hrun. simpl fst. simpl snd.
  destruct (backoff_facts.FetchUsage_frame _ _ _ _ Hrun) as [_ Hcfg].
  destruct (tick_facts.awaited_effects st) as (_ & _ & _ & _ & Hc0 & _).
  destruct (tick_facts.polled_frame usage (spec.displayed usage st1))
    as (Hcl & Hc & Hn & Hk & Hs & _ & _ & notes & Ht & Hall & Hlen).
  rewrite Hcl, Hc, Hn, Hk, Hs, Ht.
  split; [ reflexivity | ]. split; [ reflexivity | ]. split; [ reflexivity | ].
  split; [ reflexivity | ]. split; [ simpl; congruence | ]. split; [ reflexivity | ].
  exists notes. split; [ | split; assumption ].
  simpl. rewrite <- !app_assoc. reflexivity.
Qed.

(** X14 at a freshly started program in front of a server that answers
    with the usage payload: the session stands at 82 percent, so the
    threshold of 75 fires. *)
Lemma successful_tick_witness :
  let st := fixtures.st0 (fixtures.server [] (Response 200 fixtures.usageBody)) in
  let st' := snd (app.fetchUsage fixtures.ext0 st) in
  consecutiveErrors (app st') = 0%Z /\
  exists usage notes,
    trace (world st')
    = ([EvRequest (spec.usageRequest "sk-ant-sid01-abc" "org-1")]
       ++ [EvOverlayUsage usage; EvTrayUsage usage] ++ notes)%list /\
    (List.length notes <= 2)%nat.
Proof.
  intros st st'.
  destruct (api.FetchUsage fixtures.ext0 (spec.awaited st)) as [r st1] eqn:Erun.
  assert (Hr : exists usage, r = inl usage).
  { assert (Hf : fst (api.FetchUsage fixtures.ext0 (spec.awaited st))
                 = inl (api.ToUsageData fixtures.ext0 fixtures.usageResponse
                          (fixtures.t_2026_01_01_05h - 3600 * Second)))
      by (vm_compute; reflexivity).
    rewrite Erun in Hf. simpl in Hf. eexists. exact Hf. }
  destruct Hr as [usage ->].
  assert (Ht1 : trace (world st1)
                = [EvRequest (spec.usageRequest "sk-ant-sid01-abc" "org-1")]).
  { assert (Hs : trace (world (snd (api.FetchUsage fixtures.ext0 (spec.awaited st))))
                 = [EvRequest (spec.usageRequest "sk-ant-sid01-abc" "org-1")])
      by (vm_compute; reflexivity).
    rewrite Erun in Hs. exact Hs. }
  destruct (successful_tick_shows_the_snapshot fixtures.ext0 st usage st1 Erun)
    as (_ & Hc & _ & _ & _ & _ & notes & Ht & _ & Hlen).
  split; [ exact Hc | ].
  exists usage, notes. rewrite <- Ht1. split; assumption.
Defined.

(** X15.  A tick that fails with an error that is neither an
    authentication error, nor [ErrRateLimited], nor [ErrAPIUnavailable]
    shows the status [Connection error - retrying...] only when it is at
    least the third failed tick in a row; before that it shows nothing.
    It stores no backoff. *)
Theorem connection_error_shown_from_third_failure (ext : Extern) (st : State)
  (err : error) (st1 : State) :
  fst (api.HasCredentials st) = true ->
  api.FetchUsage ext (spec.awaited st) = (inr (Some err), st1) ->
  spec.auth_error err = false ->
  err <> ErrRateLimited -> err <> ErrAPIUnavailable ->
  (0 <= consecutiveErrors (app st) < GoInt.max_int)%Z ->
  let st' := snd (app.fetchUsage ext st) in
  fst (app.fetchUsage ext st) = app.Returned /\
  consecutiveErrors (app st') = (consecutiveErrors (app st) + 1)%Z /\
  rateLimitBackoff (app st') = rateLimitBackoff (app st1) /\
  client st' = client st1 /\
  world st'
  = (if (2 <=? consecutiveErrors (app st))%Z
     then emit (EvStatus "Connection error - retrying...") (world st1)
     else world st1).
Proof.
  intros Hauth Hrun Hno Hrl Hun Hn st'. subst st'.
  rewrite (tick_facts.tick_authenticated ext st Hauth), Hrun. cbv beta iota zeta.
  destruct (backoff_facts.FetchUsage_frame _ _ _ _ Hrun) as [Happ _].
  assert (Hadd : GoInt.add (consecutiveErrors (app st1)) 1
                 = (consecutiveErrors (app st) + 1)%Z).
  { rewrite Happ, backoff_facts.awaited_errors. unfold GoInt.max_int in Hn.
    apply backoff_facts.wrap_small. lia. }
  rewrite Hadd.
  unfold spec.auth_error in Hno. apply orb_false_iff in Hno. destruct Hno as [H1 H2].
  rewrite H1, H2.
  assert (H3 : error_eqb err ErrRateLimited = false).
  { destruct (error_eqb err ErrRateLimited) eqn:E; [ | reflexivity ].
    apply client_facts.error_eqb_eq in E. contradiction. }
  assert (H4 : error_eqb err ErrAPIUnavailable = false).
  { destruct (error_eqb err ErrAPIUnavailable) eqn:E; [ | reflexivity ].
    apply client_facts.error_eqb_eq in E. contradiction. }
  rewrite H3, H4.
  assert (Hcmp : (3 <=? consecutiveErrors (app st) + 1)%Z
                 = (2 <=? consecutiveErrors (app st))%Z).
  { destruct (2 <=? consecutiveErrors (app st))%Z eqn:E.
    - apply Z.leb_le in E. apply Z.leb_le. lia.
    - apply Z.leb_gt in E. apply Z.leb_gt. lia. }
  rewrite Hcmp.
  destruct (2 <=? consecutiveErrors (app st))%Z; simpl; repeat split.
Qed.

(** X15 at the first and at the third failed tick in a row of a program
    whose server answers 404. *)
Lemma connection_error_witness :
  let net := fixtures.server [] (Response 404 "") in
  let third := with_app (fun _ =>
                 {| consecutiveErrors := 2; rateLimitBackoff := 0;
                    lastSessionThreshold := 0%float;
                    lastWeeklyThreshold := 0%float |}) (fixtures.st0 net) in
  consecutiveErrors (app (snd (app.fetchUsage fixtures.ext0 (fixtures.st0 net)))) = 1%Z /\
  consecutiveErrors (app (snd (app.fetchUsage fixtures.ext0 third))) = 3%Z.
Proof.
  intros net third.
  destruct (api.FetchUsage fixtures.ext0 (spec.awaited (fixtures.st0 net)))
    as [r1 s1] eqn:E1.
  assert (Hr1 : r1 = inr (Some (ErrUsageStatus 404))).
  { assert (Hf : fst (api.FetchUsage fixtures.ext0 (spec.awaited (fixtures.st0 net)))
                 = inr (Some (ErrUsageStatus 404))) by (vm_compute; reflexivity).
    rewrite E1 in Hf. exact Hf. }
  subst r1.
  destruct (api.FetchUsage fixtures.ext0 (spec.awaited third)) as [r3 s3] eqn:E3.
  assert (Hr3 : r3 = inr (Some (ErrUsageStatus 404))).
  { assert (Hf : fst (api.FetchUsage fixtures.ext0 (spec.awaited third))
                 = inr (Some (ErrUsageStatus 404))) by (vm_compute; reflexivity).
    rewrite E3 in Hf. exact Hf. }
  subst r3.
  assert (Hno : spec.auth_error (ErrUsageStatus 404) = false) by reflexivity.
  assert (Hrl : ErrUsageStatus 404 <> ErrRateLimited) by discriminate.
  assert (Hun : ErrUsageStatus 404 <> ErrAPIUnavailable) by discriminate.
  assert (Hn1 : (0 <= consecutiveErrors (app (fixtures.st0 net)) < GoInt.max_int)%Z)
    by (vm_compute; split; [ discriminate | reflexivity ]).
  assert (Hn3 : (0 <= consecutiveErrors (app third) < GoInt.max_int)%Z)
    by (vm_compute; split; [ discriminate | reflexivity ]).
  split.
  - exact (proj1 (proj2 (connection_error_shown_from_third_failure fixtures.ext0
             (fixtures.st0 net) _ s1 eq_refl E1 Hno Hrl Hun Hn1))).
  - exact (proj1 (proj2 (connection_error_shown_from_third_failure fixtures.ext0
             third _ s3 eq_refl E3 Hno Hrl Hun Hn3))).
Defined.

Module refresh_facts.
Import api spec.
Local Open Scope string_scope.

Section WithExtern.
Variable ext : Extern.

(** The client never touches the browser. *)
Lemma FetchUsage_browser st r st1 :
  FetchUsage ext st = (r, st1) ->
  browser (world st1) = browser (world st) /\
  extractions (world st1) = extractions (world st).
Proof.
  assert (Honce : forall sk org s r' s',
             fetchUsageOnce ext sk org s = (r', s') ->
             browser (world s') = browser (world s) /\
             extractions (world s') = extractions (world s)).
  { intros sk org s r' s'. unfold fetchUsageOnce.
    destruct (http_NewRequest_err ext _); unfold bind, roundTrip, ret; simpl.
    - intros H; inversion H; auto.
    - destruct (net (world s) (sent (world s)) _) as [msg | status msg | status body];
        try (intros H; inversion H; auto; fail).
      destruct ((status =? 401) || (status =? 403))%Z.
      { destruct (_ && _); intros H; inversion H; auto. }
      destruct (status =? 429)%Z; [ intros H; inversion H; auto | ].
      destruct (500 <=? status)%Z; [ intros H; inversion H; auto | ].
      destruct (negb (status =? 200)%Z); [ intros H; inversion H; auto | ].
      destruct (json_Unmarshal_usage ext body); intros H; inversion H; auto. }
  unfold FetchUsage, GetSessionKey, GetOrganizationID, bind, gets, ret.
  destruct (sessionKey (client st) =? ""); [ intros H; inversion H; auto | ].
  destruct (organizationID (client st) =? ""); [ intros H; inversion H; auto | ].
  rewrite client_facts.FetchUsage_loop_policy. unfold retried_once.
  destruct (fetchUsageOnce ext _ _ st) as [[u1 | e1] s1] eqn:E1;
    apply Honce in E1.
  - intros H; inversion H; subst; exact E1.
  - destruct (auth_error e1); [ intros H; inversion H; subst; exact E1 | ].
    destruct (fetchUsageOnce ext _ _ (slept _ s1)) as [r2 s2] eqn:E2.
    apply Honce in E2. simpl in E2. destruct E1 as [B1 X1]. destruct E2 as [B2 X2].
    intros H; inversion H; subst. split; congruence.
Qed.

(** A tick on an authentication error, for either of the two notices. *)
Lemma refresh_after_notice (notice : string) st1 n st0 :
  let st2 := with_world (emit (EvStatus (notice ++ " - refreshing...")))
               (snd (app.setConsecutiveErrors n st1)) in
  let st' :=
    snd (let '(refreshErr, st3) := auth.RefreshFromBrowser ext st2 in
         match refreshErr with
         | Some _ =>
             (app.Returned,
              with_world (emit (EvStatus (notice ++ " - update key in Settings"))) st3)
         | None => (app.Returned, st3)
         end) in
  browser (world st1) = browser (world st0) ->
  extractions (world st1) = extractions (world st0) ->
  extractions (world st') = S (extractions (world st0)) /\
  consecutiveErrors (app st') = n /\
  (exists rest,
     trace (world st')
     = (trace (world st1) ++ EvStatus (notice ++ " - refreshing...") :: rest)%list) /\
  (forall msg,
     browser (world st0) (extractions (world st0)) = inr msg ->
     client st' = client st1 /\ sent (world st') = sent (world st1) /\
     trace (world st')
     = (trace (world st1)
        ++ [EvStatus (notice ++ " - refreshing...");
            EvStatus (notice ++ " - update key in Settings")])%list).
Proof.
  intros st2 st' Hb Hx.
  pose proof (tick_facts.RefreshFromBrowser_app ext st2) as H. cbv zeta in H.
  pose proof (auth_effects.RefreshFromBrowser_eq ext st2) as Heq. cbv zeta in Heq.
  assert (Hb2 : browser (world st2) (extractions (world st2))
                = browser (world st0) (extractions (world st0))).
  { unfold st2. simpl. rewrite Hb, Hx. reflexivity. }
  rewrite Hb2 in Heq.
  subst st'.
  destruct (auth.RefreshFromBrowser ext st2) as [rerr st3]. simpl snd in H.
  destruct H as (Ha & Hx3 & added & Ht).
  assert (Hx2 : extractions (world st2) = extractions (world st0))
    by (unfold st2; simpl; exact Hx).
  assert (Ht2 : trace (world st2)
                = (trace (world st1) ++ [EvStatus (notice ++ " - refreshing...")])%list)
    by reflexivity.
  split; [ | split; [ | split ] ].
  - destruct rerr; simpl; congruence.
  - destruct rerr; simpl; rewrite Ha; reflexivity.
  - destruct rerr; simpl; rewrite Ht, Ht2, <- !app_assoc; simpl; eexists; reflexivity.
  - intros msg Hmsg. rewrite Hmsg in Heq. inversion Heq; subst rerr st3.
    simpl. repeat split. rewrite <- app_assoc. reflexivity.
Qed.

End WithExtern.

End refresh_facts.

(** X16.  A tick whose fetch fails with [ErrSessionExpired] or
    [ErrUnauthorized] counts the failure, shows the notice that it is
    refreshing and asks the browser for a session key exactly once.  When
    the browser yields no key, the tick sends nothing more, leaves the
    client as it is and ends with the notice to update the key in the
    settings. *)
Theorem auth_error_tick_refreshes_once (ext : Extern) (st : State)
  (err : error) (st1 : State) :
  api.FetchUsage ext (spec.awaited st) = (inr (Some err), st1) ->
  spec.auth_error err = true ->
  let st' := snd (app.fetchUsage ext st) in
  let notice := (if error_eqb err ErrSessionExpired
                 then "Session expired" else "Auth failed")%string in
  fst (app.fetchUsage ext st) = app.Returned /\
  extractions (world st') = S (extractions (world st)) /\
  consecutiveErrors (app st') = GoInt.add (consecutiveErrors (app st)) 1 /\
  (exists rest,
     trace (world st')
     = (trace (world st1) ++ EvStatus (notice ++ " - refreshing...") :: rest)%list) /\
  (forall msg,
     browser (world st) (extractions (world st)) = inr msg ->
     client st' = client st1 /\ sent (world st') = sent (world st1) /\
     trace (world st')
     = (trace (world st1)
        ++ [EvStatus (notice ++ " - refreshing...");
            EvStatus (notice ++ " - update key in Settings")])%list).
Proof.
  intros Hrun Herr st' notice.
  assert (Hauth : fst (api.HasCredentials st) = true).
  { rewrite <- tick_facts.awaited_credentials.
    apply (tick_facts.FetchUsage_credentials ext); rewrite Hrun; simpl;
      intros H; inversion H; subst err; discriminate. }
  destruct (refresh_facts.FetchUsage_browser ext _ _ _ Hrun) as [Hb Hx].
  destruct (backoff_facts.FetchUsage_frame _ _ _ _ Hrun) as [Happ _].
  assert (Hb0 : browser (world st1) = browser (world st)).
  { rewrite Hb. unfold spec.awaited. destruct (0 <? _)%Z; reflexivity. }
  assert (Hx0 : extractions (world st1) = extractions (world st)).
  { rewrite Hx. unfold spec.awaited. destruct (0 <? _)%Z; reflexivity. }
  assert (Hn : consecutiveErrors (app st1) = consecutiveErrors (app st))
    by (rewrite Happ; apply backoff_facts.awaited_errors).
  pose proof (refresh_facts.refresh_after_notice ext notice st1
                (GoInt.add (consecutiveErrors (app st)) 1) st) as H.
  cbv zeta in H. specialize (H Hb0 Hx0).
  subst st'. rewrite (tick_facts.tick_authenticated ext st Hauth), Hrun.
  cbv beta iota zeta. rewrite Hn.
  unfold spec.auth_error in Herr. subst notice.
  destruct (error_eqb err ErrSessionExpired) eqn:E1; cbv beta iota.
  - split; [ | exact H ].
    destruct (auth.RefreshFromBrowser ext _) as [[e|] s3]; reflexivity.
  - rewrite orb_false_r in Herr. rewrite Herr. cbv beta iota.
    split; [ | exact H ].
    destruct (auth.RefreshFromBrowser ext _) as [[e|] s3]; reflexivity.
Qed.

(** X16 at a program whose session has expired and whose browser holds no
    cookie. *)
Lemma auth_error_tick_witness :
  let st := fixtures.st0 (fixtures.server [] (Response 401 fixtures.sessionInvalidBody)) in
  let st' := snd (app.fetchUsage fixtures.ext0 st) in
  extractions (world st') = 1%nat /\ consecutiveErrors (app st') = 1%Z.
Proof.
  intros st st'.
  destruct (api.FetchUsage fixtures.ext0 (spec.awaited st)) as [r st1] eqn:Erun.
  assert (Hr : r = inr (Some ErrSessionExpired)).
  { assert (Hf : fst (api.FetchUsage fixtures.ext0 (spec.awaited st))
                 = inr (Some ErrSessionExpired)) by (vm_compute; reflexivity).
    rewrite Erun in Hf. exact Hf. }
  subst r.
  destruct (auth_error_tick_refreshes_once fixtures.ext0 st _ st1 Erun eq_refl)
    as (_ & Hx & Hc & _).
  split; [ exact Hx | exact Hc ].
Defined.

Module trace_facts.
Import api spec.
Local Open Scope string_scope.

(** A tick with credentials only adds to the trace of the state in which
    it calls [FetchUsage]. *)
Lemma tick_extends (ext : Extern) (st : State) :
  fst (HasCredentials st) = true ->
  exists rest,
    trace (world (snd (app.fetchUsage ext st)))
    = (trace (world (awaited st)) ++ rest)%list.
Proof.
  intros Hauth. rewrite (tick_facts.tick_authenticated ext st Hauth).
  pose proof (fetch_effects.FetchUsage_all_effects ext (awaited st)) as H. cbv zeta in H.
  destruct (FetchUsage ext (awaited st)) as [r st1]. simpl snd in H.
  destruct H as (_ & _ & _ & _ & _ & _ & _ & added & Ht & _).
  assert (Hmore : forall s more,
            trace (world s) = (trace (world st1) ++ more)%list ->
            exists rest, trace (world s) = (trace (world (awaited st)) ++ rest)%list).
  { intros s more Hs. exists (added ++ more)%list. rewrite Hs, Ht, app_assoc. reflexivity. }
  assert (Hrefresh : forall msg1 msg2 n,
            exists more,
              trace (world (snd (let '(refreshErr, st3) :=
                       auth.RefreshFromBrowser ext
                         (with_world (emit (EvStatus msg1))
                            (snd (app.setConsecutiveErrors n st1))) in
                     match refreshErr with
                     | Some _ => (app.Returned, with_world (emit (EvStatus msg2)) st3)
                     | None => (app.Returned, st3)
                     end)))
              = (trace (world st1) ++ more)%list).
  { intros msg1 msg2 n.
    pose proof (tick_facts.RefreshFromBrowser_app ext
                  (with_world (emit (EvStatus msg1))
                     (snd (app.setConsecutiveErrors n st1)))) as H.
    cbv zeta in H.
    destruct (auth.RefreshFromBrowser ext _) as [[e|] st3]; simpl snd in H;
      destruct H as (_ & _ & more & Hm); simpl in Hm; simpl; rewrite Hm, <- !app_assoc;
      eexists; reflexivity. }
  destruct r as [usage | [err|]].
  - destruct (tick_facts.polled_frame usage (displayed usage st1))
      as (_ & _ & _ & _ & _ & _ & _ & notes & Hn & _).
    simpl snd. apply (Hmore _ ([EvOverlayUsage usage; EvTrayUsage usage] ++ notes)%list).
    rewrite Hn. simpl. rewrite <- !app_assoc. reflexivity.
  - cbv zeta.
    destruct (error_eqb err ErrSessionExpired); cbv beta iota.
    { destruct (Hrefresh "Session expired - refreshing..."
                  "Session expired - update key in Settings"
                  (GoInt.add (consecutiveErrors (app st1)) 1)) as [more Hm].
      exact (Hmore _ more Hm). }
    destruct (error_eqb err ErrUnauthorized); cbv beta iota.
    { destruct (Hrefresh "Auth failed - refreshing..."
                  "Auth failed - update key in Settings"
                  (GoInt.add (consecutiveErrors (app st1)) 1)) as [more Hm].
      exact (Hmore _ more Hm). }
    destruct (error_eqb err ErrRateLimited); cbv beta iota.
    { destruct (GoInt.shl 1 _); simpl snd.
      - eapply Hmore. simpl. reflexivity.
      - apply (Hmore _ []). simpl. rewrite app_nil_r. reflexivity. }
    destruct (error_eqb err ErrAPIUnavailable); cbv beta iota.
    { eapply Hmore. simpl. reflexivity. }
    destruct (3 <=? _)%Z; simpl snd.
    + eapply Hmore. simpl. reflexivity.
    + apply (Hmore _ []). simpl. rewrite app_nil_r. reflexivity.
  - apply (Hmore _ []). simpl. rewrite app_nil_r. reflexivity.
Qed.

End trace_facts.

(** X1.  [FetchUsage] never returns a nil snapshot together with a nil
    error, so a tick never dereferences a nil [usage]; and with a counter
    of consecutive errors that is an [int] and not negative it shifts by
    no negative count either: such a tick does not panic, whatever the
    network, the libraries and the browser do. *)
Theorem FetchUsage_never_returns_nil_nil (ext : Extern) (st : State) :
  fst (api.FetchUsage ext st) <> inr None /\
  ((- 2 ^ 63 <= consecutiveErrors (app st) < 2 ^ 63)%Z ->
   fst (app.fetchUsage ext st) = app.Panicked ->
   (consecutiveErrors (app st) < 0)%Z).
Proof.
  split; [ apply tick_facts.FetchUsage_not_nil | ].
  intros Hint Hpanic.
  destruct (fst (api.HasCredentials st)) eqn:Hauth.
  2: { rewrite (tick_facts.tick_unauthenticated ext st Hauth) in Hpanic.
       discriminate Hpanic. }
  rewrite (tick_facts.tick_authenticated ext st Hauth) in Hpanic.
  pose proof (tick_facts.FetchUsage_not_nil ext (spec.awaited st)) as Hnil.
  destruct (api.FetchUsage ext (spec.awaited st)) as [r st1] eqn:Erun.
  destruct (backoff_facts.FetchUsage_frame _ _ _ _ Erun) as [Happ _].
  assert (Hn : consecutiveErrors (app st1) = consecutiveErrors (app st))
    by (rewrite Happ; apply backoff_facts.awaited_errors).
  simpl fst in Hnil. cbv beta iota zeta in Hpanic. rewrite Hn in Hpanic.
  destruct r as [usage | [err|]];
    [ discriminate Hpanic | | elim Hnil; reflexivity ].
  destruct (error_eqb err ErrSessionExpired); cbv beta iota in Hpanic.
  { destruct (auth.RefreshFromBrowser ext _) as [[e|] s3]; discriminate Hpanic. }
  destruct (error_eqb err ErrUnauthorized); cbv beta iota in Hpanic.
  { destruct (auth.RefreshFromBrowser ext _) as [[e|] s3]; discriminate Hpanic. }
  destruct (error_eqb err ErrRateLimited); cbv beta iota in Hpanic.
  2: { destruct (error_eqb err ErrAPIUnavailable); [ discriminate Hpanic | ].
       destruct (3 <=? _)%Z; discriminate Hpanic. }
  set (n := consecutiveErrors (app st)) in *.
  unfold GoInt.shl in Hpanic.
  destruct (Z.min (GoInt.sub (GoInt.add n 1) 1) 3 <? 0)%Z eqn:Ek;
    [ | discriminate Hpanic ].
  apply Z.ltb_lt in Ek.
  assert (Hlast : n = (2 ^ 63 - 1)%Z \/ (n < 2 ^ 63 - 1)%Z) by lia.
  destruct Hlast as [Hlast | Hbelow].
  - exfalso. rewrite Hlast in Ek. vm_compute in Ek. discriminate Ek.
  - assert (Hadd : GoInt.add n 1 = (n + 1)%Z)
      by (apply backoff_facts.wrap_small; lia).
    assert (Hsub : GoInt.sub (n + 1) 1 = n).
    { unfold GoInt.sub. replace (n + 1 - 1)%Z with n by lia.
      apply backoff_facts.wrap_small. lia. }
    rewrite Hadd, Hsub in Ek. lia.
Qed.

(** X1 at the counter [-1]: a rate-limited tick then shifts by [-1] and
    panics, so the bound of zero is the least. *)
Example tick_panics_below_zero :
  fst (app.fetchUsage fixtures.ext0
         (with_app (fun _ =>
            {| consecutiveErrors := -1; rateLimitBackoff := 0;
               lastSessionThreshold := 0%float; lastWeeklyThreshold := 0%float |})
            (fixtures.st0 (fixtures.server [] (Response 429 "")))))
  = app.Panicked.
Proof. vm_compute. reflexivity. Qed.

(** X17.  A tick only adds to the trace.  Without credentials it adds
    nothing and changes nothing, a pending backoff included.  With
    credentials a pending backoff is slept, in full, before anything
    else, and it is used up: after the tick the stored backoff is zero,
    unless the tick ends with the status [Rate limited - retry in ...]
    and has stored the 30, 60, 120 or 240 seconds that this status
    names. *)
Theorem tick_sleeps_a_pending_backoff_first (ext : Extern) (st : State) :
  let st' := snd (app.fetchUsage ext st) in
  let b := rateLimitBackoff (app st) in
  (fst (api.HasCredentials st) = false -> app.fetchUsage ext st = (app.Returned, st)) /\
  (fst (api.HasCredentials st) = true ->
   exists rest,
     trace (world st')
     = (trace (world st) ++ (if (0 <? b)%Z then [EvSleep b] else []) ++ rest)%list) /\
  (fst (api.HasCredentials st) = true -> (0 < b)%Z ->
   rateLimitBackoff (app st') = 0%Z \/
   exists sec before,
     In sec [30; 60; 120; 240]%Z /\
     rateLimitBackoff (app st') = (sec * Second)%Z /\
     trace (world st')
     = (before
        ++ [EvStatus ("Rate limited - retry in " ++ GoInt.format sec ++ "s")%string])%list).
Proof.
  intros st' b. subst st' b. split; [ | split ].
  - apply tick_facts.tick_unauthenticated.
  - intros Hauth.
    destruct (tick_facts.awaited_effects st) as (_ & _ & _ & _ & _ & _ & _ & _ & Ht).
    destruct (trace_facts.tick_extends ext st Hauth) as [rest Hrest].
    exists rest. rewrite Hrest, Ht, <- app_assoc. reflexivity.
  - intros Hauth Hb.
    rewrite (tick_facts.tick_authenticated ext st Hauth).
    destruct (tick_facts.awaited_effects st) as (Hb0 & _).
    assert (Hpending : (0 <? rateLimitBackoff (app st))%Z = true)
      by (apply Z.ltb_lt; exact Hb).
    rewrite Hpending in Hb0.
    destruct (api.FetchUsage ext (spec.awaited st)) as [r st1] eqn:Erun.
    destruct (backoff_facts.FetchUsage_frame _ _ _ _ Erun) as [Happ _].
    assert (Hzero : rateLimitBackoff (app st1) = 0%Z) by (rewrite Happ; exact Hb0).
    cbv beta iota zeta.
    destruct r as [usage | [err|]].
    + left. simpl snd.
      destruct (tick_facts.polled_frame usage (spec.displayed usage st1))
        as (_ & _ & _ & Hk & _).
      rewrite Hk. reflexivity.
    + destruct (error_eqb err ErrSessionExpired); cbv beta iota.
      { left.
        match goal with
        | |- context [auth.RefreshFromBrowser ext ?s] =>
            pose proof (tick_facts.RefreshFromBrowser_app ext s) as H;
            destruct (auth.RefreshFromBrowser ext s) as [[e|] st3]
        end; cbv zeta in H; simpl snd in H; destruct H as (Ha & _);
        simpl; rewrite Ha; simpl; exact Hzero. }
      destruct (error_eqb err ErrUnauthorized); cbv beta iota.
      { left.
        match goal with
        | |- context [auth.RefreshFromBrowser ext ?s] =>
            pose proof (tick_facts.RefreshFromBrowser_app ext s) as H;
            destruct (auth.RefreshFromBrowser ext s) as [[e|] st3]
        end; cbv zeta in H; simpl snd in H; destruct H as (Ha & _);
        simpl; rewrite Ha; simpl; exact Hzero. }
      destruct (error_eqb err ErrRateLimited); cbv beta iota.
      { unfold GoInt.shl.
        set (k := Z.min (GoInt.sub (GoInt.add (consecutiveErrors (app st1)) 1) 1) 3).
        destruct (k <? 0)%Z eqn:Ek; [ left; simpl; exact Hzero | ].
        apply Z.ltb_ge in Ek.
        assert (Hk : k = 0 \/ k = 1 \/ k = 2 \/ k = 3) by (unfold k in *; lia).
        right.
        destruct Hk as [-> | [-> | [-> | ->]]].
        - exists 30%Z. eexists. split; [ simpl; tauto | ].
          split; [ reflexivity | simpl; reflexivity ].
        - exists 60%Z. eexists. split; [ simpl; tauto | ].
          split; [ reflexivity | simpl; reflexivity ].
        - exists 120%Z. eexists. split; [ simpl; tauto | ].
          split; [ reflexivity | simpl; reflexivity ].
        - exists 240%Z. eexists. split; [ simpl; tauto | ].
          split; [ reflexivity | simpl; reflexivity ]. }
      left.
      destruct (error_eqb err ErrAPIUnavailable); [ simpl; exact Hzero | ].
      destruct (3 <=? _)%Z; simpl; exact Hzero.
    + left. reflexivity.
Qed.

(** A program with 45 seconds pending whose server answers 503: the 45
    seconds are slept first and nothing is pending afterwards. *)
Example tick_uses_up_a_pending_backoff :
  let st := with_app (fun _ =>
              {| consecutiveErrors := 1; rateLimitBackoff := 45 * Second;
                 lastSessionThreshold := 0%float; lastWeeklyThreshold := 0%float |})
              (fixtures.st0 (fixtures.server [] (Response 503 ""))) in
  let st' := snd (app.fetchUsage fixtures.ext0 st) in
  rateLimitBackoff (app st') = 0%Z /\
  hd_error (trace (world st')) = Some (EvSleep (45 * Second)).
Proof. vm_compute. split; reflexivity. Qed.
Module loop_facts.
Import app spec.

(** The loop from any mode whose period is that of the mode. *)
Lemma refreshLoop_from_inv (ext : Extern) (normal : Z) (idle : list Z) :
  forall (l : Loop) (st : State),
    period_of_mode normal l ->
    let r := refreshLoop_from ext normal idle l st in
    (snd (fst r), snd r) = polls ext (List.length idle) st /\
    period_of_mode normal (fst (fst r)) /\
    (snd (fst r) = Returned ->
     wasIdle (fst (fst r))
     = match idle with [] => wasIdle l | _ => (300 <? last idle 0)%Z end).
Proof.
  induction idle as [| idleSec rest IH]; intros l st Hl.
  - simpl. repeat split. exact Hl.
  - cbv zeta.
    change (refreshLoop_from ext normal (idleSec :: rest) l st)
      with (bind (refreshLoop_tick ext normal idleSec l)
              (fun r => match snd r with
                        | Panicked => ret r
                        | Returned => refreshLoop_from ext normal rest (fst r)
                        end) st).
    change (polls ext (List.length (idleSec :: rest)) st)
      with (match fetchUsage ext st with
            | (Panicked, st') => (Panicked, st')
            | (Returned, st') => polls ext (List.length rest) st'
            end).
    set (l1 := if (idleThreshold <? idleSec)%Z
               then (if negb (wasIdle l)
                     then {| wasIdle := true; period := GoInt.mul idleInterval Second |}
                     else l)
               else (if wasIdle l then {| wasIdle := false; period := normal |} else l)).
    assert (Htick : refreshLoop_tick ext normal idleSec l st
                    = ((l1, fst (fetchUsage ext st)), snd (fetchUsage ext st))).
    { unfold refreshLoop_tick, l1, bind, ret.
      destruct (idleThreshold <? idleSec)%Z; [ | destruct (wasIdle l) ];
        destruct (fetchUsage ext st); reflexivity. }
    assert (Hl1 : period_of_mode normal l1 /\
                  wasIdle l1 = (300 <? idleSec)%Z).
    { unfold l1, idleThreshold, period_of_mode in *.
      destruct (300 <? idleSec)%Z; destruct (wasIdle l) eqn:Ew; simpl;
        rewrite ?Ew; auto. }
    destruct Hl1 as [Hp1 Hw1].
    unfold bind. rewrite Htick.
    destruct (fetchUsage ext st) as [[|] st1]; simpl fst; simpl snd; cbv beta iota.
    + specialize (IH l1 st1 Hp1). cbv zeta in IH. destruct IH as (Hpolls & Hp & Hw).
      split; [ exact Hpolls | ]. split; [ exact Hp | ].
      intros Hret. rewrite (Hw Hret). destruct rest as [| x rest']; [ exact Hw1 | ].
      reflexivity.
    + unfold ret. simpl. split; [ reflexivity | ]. split; [ exact Hp1 | ].
      discriminate.
Qed.

(** Without credentials no number of ticks changes anything. *)
Lemma polls_unauthenticated (ext : Extern) (n : nat) (st : State) :
  fst (api.HasCredentials st) = false -> polls ext n st = (Returned, st).
Proof.
  intros Hno. induction n as [| n IH]; [ reflexivity | ].
  simpl. rewrite (tick_facts.tick_unauthenticated ext st Hno). exact IH.
Qed.

End loop_facts.

(** X18.  The period of the polling loop is never below fifteen seconds,
    whatever the configured interval is, also when the multiplication by
    a second overflows; for an interval from 15 to 9223372036 seconds it
    is that interval. *)
Theorem normalInterval_floor (c : config.Config) :
  (15 * Second <= app.normalInterval c)%Z /\
  ((15 <= config.RefreshInterval c <= 9223372036)%Z ->
   app.normalInterval c = (config.RefreshInterval c * Second)%Z) /\
  ((0 <= config.RefreshInterval c < 15)%Z -> app.normalInterval c = (15 * Second)%Z).
Proof.
  unfold app.normalInterval. cbv zeta.
  split; [ | split ].
  - destruct (GoInt.mul (config.RefreshInterval c) Second <? 15 * Second)%Z eqn:E.
    + lia.
    + apply Z.ltb_ge in E. exact E.
  - intros Hr.
    assert (Hm : GoInt.mul (config.RefreshInterval c) Second
                 = (config.RefreshInterval c * Second)%Z).
    { unfold GoInt.mul. apply backoff_facts.wrap_small. unfold Second. lia. }
    rewrite Hm.
    destruct (config.RefreshInterval c * Second <? 15 * Second)%Z eqn:E; [ | reflexivity ].
    apply Z.ltb_lt in E. unfold Second in *. lia.
  - intros Hr.
    assert (Hm : GoInt.mul (config.RefreshInterval c) Second
                 = (config.RefreshInterval c * Second)%Z).
    { unfold GoInt.mul. apply backoff_facts.wrap_small. unfold Second. lia. }
    rewrite Hm.
    destruct (config.RefreshInterval c * Second <? 15 * Second)%Z eqn:E; [ reflexivity | ].
    apply Z.ltb_ge in E. unfold Second in *. lia.
Qed.

(** X19.  The readings of the idle time change the period of the timer
    and nothing else: the loop makes one tick of [fetchUsage] for every
    firing, whatever the readings are, up to the first tick that panics;
    the period is 300 seconds while the loop is in idle mode and the
    normal interval otherwise; and after the last firing the loop is in
    idle mode exactly when the last reading is above 300 seconds. *)
Theorem refreshLoop_idleness_changes_the_period_only (ext : Extern)
  (idle : list Z) (st : State) :
  let r := app.refreshLoop ext idle st in
  (snd (fst r), snd r) = spec.polls ext (List.length idle) st /\
  spec.period_of_mode (app.normalInterval (config st)) (fst (fst r)) /\
  (snd (fst r) = app.Returned -> app.wasIdle (fst (fst r)) = spec.idle_after idle).
Proof.
  unfold app.refreshLoop, bind, gets. cbv beta iota zeta.
  assert (H0 : spec.period_of_mode (app.normalInterval (config st))
                 {| app.wasIdle := false;
                    app.period := app.normalInterval (config st) |}) by reflexivity.
  pose proof (loop_facts.refreshLoop_from_inv ext (app.normalInterval (config st))
                idle _ st H0) as H.
  cbv zeta in H. destruct H as (Hp & Hm & Hw).
  split; [ exact Hp | ]. split; [ exact Hm | ].
  intros Hret. rewrite (Hw Hret). unfold spec.idle_after.
  destruct idle; reflexivity.
Qed.

(** X11.  [ClearCredentials] empties the credentials of the client and of
    the configuration, writes the configuration once, after both are
    emptied, and returns the verdict of that write.  Whatever the verdict,
    the polling loop then does nothing at all: no number of firings sends
    a request, sleeps or changes the state. *)
Theorem ClearCredentials_stops_polling (ext : Extern) (st : State) :
  let st' := snd (auth.ClearCredentials st) in
  fst (auth.ClearCredentials st) = disk (world st) (saves (world st)) /\
  sessionKey (client st') = ""%string /\ organizationID (client st') = ""%string /\
  config.SessionKey (config st') = ""%string /\
  config.OrganizationID (config st') = ""%string /\
  trace (world st')
  = (trace (world st)
     ++ [EvConfigSave (config st') (disk (world st) (saves (world st)))])%list /\
  app st' = app st /\
  fst (api.HasCredentials st') = false /\
  (forall idle, snd (app.refreshLoop ext idle st') = st') /\
  fst (api.FetchUsage ext st') = inr (Some ErrNoSessionKey).
Proof.
  intros st'.
  assert (Hno : fst (api.HasCredentials st') = false) by reflexivity.
  repeat split.
  intros idle.
  unfold app.refreshLoop, bind, gets. cbv beta iota zeta.
  assert (H0 : spec.period_of_mode (app.normalInterval (config st'))
                 {| app.wasIdle := false;
                    app.period := app.normalInterval (config st') |}) by reflexivity.
  pose proof (loop_facts.refreshLoop_from_inv ext (app.normalInterval (config st'))
                idle _ st' H0) as H.
  cbv zeta in H. destruct H as (Hp & _).
  rewrite (loop_facts.polls_unauthenticated ext _ st' Hno) in Hp.
  exact (f_equal snd Hp).
Qed.

Module record_facts.
Import F64 F64_facts app spec.

(** The result of [highestCrossedThreshold]: zero, or a threshold above
    zero that is crossed; and nothing crossed is above it. *)
Lemma crossed_cases u T :
  let r := highestCrossedThreshold u T in
  (r = 0%float \/
   (In r T /\ (r <=? u)%float = true /\ (0 <? r)%float = true)) /\
  (forall t, In t T -> (t <=? u)%float = true -> (t <=? r)%float = true) /\
  (0 <=? r)%float = true.
Proof.
  assert (H0 : ordered 0%float) by reflexivity.
  exact (threshold_facts.loop_inv u T 0%float H0).
Qed.

(** With notifications off or no threshold configured the check is the
    identity. *)
Lemma polled_disabled usage st :
  ~ enabled (config st) -> polled usage st = st.
Proof.
  intros Hoff. unfold polled, checkAndNotify, bind, gets.
  destruct (config.NotificationsEnabled (config st)) eqn:Eon.
  - destruct (config.AlertThresholds (config st)) as [| t T] eqn:ET.
    + reflexivity.
    + elim Hoff. split; [ exact Eon | ]. rewrite ET. discriminate.
  - reflexivity.
Qed.

Lemma enabled_dec c : enabled c \/ ~ enabled c.
Proof.
  unfold enabled. destruct (config.NotificationsEnabled c).
  - destruct (config.AlertThresholds c).
    + right. intros [_ H]. apply H. reflexivity.
    + left. split; [ reflexivity | discriminate ].
  - right. intros [H _]. discriminate.
Qed.

End record_facts.

(** X20.  One notification check keeps each record at zero or above, and
    at zero or a configured threshold when it was so before; and what it
    adds to the notifications of a metric is nothing or one notification,
    which carries the utilization of the snapshot and a configured
    threshold above zero that this utilization has reached. *)
Theorem notification_names_a_crossed_threshold (m : spec.metric)
  (usage : UsageData) (st : State) :
  (0 <=? spec.record m (app st))%float = true ->
  let T := config.AlertThresholds (config st) in
  let st' := spec.polled usage st in
  (0 <=? spec.record m (app st'))%float = true /\
  (spec.zero_or_threshold T (spec.record m (app st)) ->
   spec.zero_or_threshold T (spec.record m (app st'))) /\
  exists added,
    spec.notifications m st' = (spec.notifications m st ++ added)%list /\
    (List.length added <= 1)%nat /\
    forall u t, In (u, t) added ->
      u = spec.reading m usage /\ In t T /\
      (t <=? u)%float = true /\ (0 <? t)%float = true.
Proof.
  intros Hr T st'. subst T st'.
  destruct (record_facts.enabled_dec (config st)) as [Hon | Hoff].
  - destruct (notify_facts.polled_metric m usage st Hon) as (_ & Hrec & Hnot).
    destruct (record_facts.crossed_cases (spec.reading m usage)
                (config.AlertThresholds (config st))) as (Hc & _ & Hc0).
    fold (spec.crossed m usage st) in Hc, Hc0.
    rewrite Hrec, Hnot.
    set (r := spec.record m (app st)) in *.
    set (c := spec.crossed m usage st) in *.
    assert (Hcz : spec.zero_or_threshold (config.AlertThresholds (config st)) c).
    { destruct Hc as [-> | (Hin & _)]; [ left; reflexivity | right; exact Hin ]. }
    split; [ | split ].
    + destruct (r <? c)%float; [ exact Hc0 | ].
      destruct (c <? r)%float; [ exact Hc0 | exact Hr ].
    + intros Hz. destruct (r <? c)%float; [ exact Hcz | ].
      destruct (c <? r)%float; [ exact Hcz | exact Hz ].
    + destruct (r <? c)%float eqn:Efire.
      * exists [(spec.reading m usage, c)]. split; [ reflexivity | ].
        split; [ simpl; lia | ].
        intros u t [Heq | []]. inversion Heq; subst u t.
        destruct Hc as [Hzero | (Hin & Hcu & Hpos)].
        -- exfalso. rewrite Hzero in Efire. revert Hr Efire. clear.
           intros. F64_facts.order.
        -- repeat split; assumption.
      * exists []. split; [ reflexivity | ]. split; [ simpl; lia | ].
        intros u t [].
  - rewrite (record_facts.polled_disabled usage st Hoff).
    split; [ exact Hr | ]. split; [ auto | ].
    exists []. rewrite app_nil_r. split; [ reflexivity | ]. split; [ simpl; lia | ].
    intros u t [].
Qed.

(** X20 at a freshly started program and a snapshot whose session stands
    at 82 percent. *)
Lemma notification_names_a_crossed_threshold_witness :
  let st := fixtures.st0 (fixtures.server [] (Response 200 fixtures.usageBody)) in
  (0 <=? spec.record spec.Session
           (app (spec.polled (fixtures.sessionAt 82%float) st)))%float = true.
Proof.
  intros st.
  assert (Hr : (0 <=? spec.record spec.Session (app st))%float = true) by reflexivity.
  exact (proj1 (notification_names_a_crossed_threshold spec.Session
                  (fixtures.sessionAt 82%float) st Hr)).
Defined.

(** X21.  [highestCrossedThreshold] is monotone in the utilization: a
    higher utilization never crosses a lower threshold. *)
Theorem highestCrossedThreshold_monotone (u1 u2 : float) (T : list float) :
  (u1 <=? u2)%float = true ->
  (app.highestCrossedThreshold u1 T <=? app.highestCrossedThreshold u2 T)%float = true.
Proof.
  intros Hu.
  destruct (record_facts.crossed_cases u1 T) as (H1 & _ & _).
  destruct (record_facts.crossed_cases u2 T) as (_ & Hmax2 & H02).
  cbv zeta in *.
  destruct H1 as [-> | (Hin & Hcross & _)]; [ exact H02 | ].
  apply Hmax2; [ exact Hin | ].
  revert Hcross Hu. clear.
  generalize (app.highestCrossedThreshold u1 T). intros r Hcross Hu.
  F64_facts.order.
Qed.

(** X21 at the thresholds 50, 75 and 90. *)
Lemma highestCrossedThreshold_monotone_witness :
  (app.highestCrossedThreshold 60%float [50%float; 75%float; 90%float]
   <=? app.highestCrossedThreshold 80%float [50%float; 75%float; 90%float])%float = true.
Proof.
  apply highestCrossedThreshold_monotone. reflexivity.
Defined.

(** X22.  [highestCrossedThreshold] does not depend on the order in which
    the thresholds are configured: two lists with the same elements give
    results that are equal as numbers. *)
Theorem highestCrossedThreshold_order_of_thresholds (u : float) (T T' : list float) :
  (forall t, In t T <-> In t T') ->
  (app.highestCrossedThreshold u T =? app.highestCrossedThreshold u T')%float = true.
Proof.
  intros Hsame.
  destruct (record_facts.crossed_cases u T) as (H1 & Hmax1 & H01).
  destruct (record_facts.crossed_cases u T') as (H2 & Hmax2 & H02).
  cbv zeta in *.
  assert (Hle12 : (app.highestCrossedThreshold u T
                   <=? app.highestCrossedThreshold u T')%float = true).
  { destruct H1 as [-> | (Hin & Hcross & _)]; [ exact H02 | ].
    apply Hmax2; [ apply Hsame; exact Hin | exact Hcross ]. }
  assert (Hle21 : (app.highestCrossedThreshold u T'
                   <=? app.highestCrossedThreshold u T)%float = true).
  { destruct H2 as [-> | (Hin & Hcross & _)]; [ exact H01 | ].
    apply Hmax1; [ apply Hsame; exact Hin | exact Hcross ]. }
  revert Hle12 Hle21. clear.
  generalize (app.highestCrossedThreshold u T) (app.highestCrossedThreshold u T').
  intros a b Hab Hba. F64_facts.order.
Qed.

(** X22 at the thresholds 50, 75 and 90 in two orders. *)
Lemma highestCrossedThreshold_order_witness :
  (app.highestCrossedThreshold 80%float [50%float; 75%float; 90%float]
   =? app.highestCrossedThreshold 80%float [90%float; 50%float; 75%float])%float = true.
Proof.
  apply highestCrossedThreshold_order_of_thresholds.
  intros t. simpl. tauto.
Defined.

(** * Further properties of the overlay and of the cookie extractor *)

Module snap_facts.




End snap_facts.



Module string_facts.
Local Open Scope string_scope.

Lemma length_app (a b : string) :
  String.length (a ++ b) = (String.length a + String.length b)%nat.
Proof. induction a as [| c a IH]; simpl; [ reflexivity | now rewrite IH ]. Qed.

Lemma substring_skip (a b : string) (n m : nat) :
  String.substring (String.length a + n) m (a ++ b) = String.substring n m b.
Proof. induction a as [| c a IH]; simpl; [ reflexivity | exact IH ]. Qed.

Lemma substring_take (a b : string) :
  String.substring 0 (String.length a) (a ++ b) = a.
Proof.
  induction a as [| c a IH]; simpl.
  - destruct b; reflexivity.
  - now rewrite IH.
Qed.

Lemma substring_whole (a : string) :
  String.substring 0 (String.length a) a = a.
Proof. induction a as [| c a IH]; simpl; [ reflexivity | now rewrite IH ]. Qed.

Lemma prefix_nil (s : string) : String.prefix "" s = true.
Proof. destruct s; reflexivity. Qed.

Lemma index_cons (s1 : string) (c : ascii) (s2 : string) :
  String.index 0 s1 (String c s2)
  = if String.prefix s1 (String c s2) then Some 0%nat
    else match String.index 0 s1 s2 with
         | Some n => Some (S n)
         | None => None
         end.
Proof. reflexivity. Qed.

Lemma prefix_quote (c : ascii) (s : string) :
  String.prefix browser.quote (String c s)
  = if ascii_dec "034" c then true else false.
Proof.
  change (String.prefix browser.quote (String c s))
    with (match ascii_dec "034" c with
          | left _ => String.prefix "" s
          | right _ => false
          end).
  destruct (ascii_dec "034" c); [ apply prefix_nil | reflexivity ].
Qed.

(** The first quote of a text that begins with a part without quotes. *)
Lemma index_quote (value post : string) :
  String.index 0 browser.quote value = None ->
  String.index 0 browser.quote (value ++ browser.quote ++ post)
  = Some (String.length value).
Proof.
  induction value as [| c v IH]; intros Hnone.
  - change ("" ++ browser.quote ++ post) with (String "034" post).
    rewrite index_cons, prefix_quote.
    destruct (ascii_dec "034" "034"); [ reflexivity | congruence ].
  - change ((String c v) ++ browser.quote ++ post)
      with (String c (v ++ browser.quote ++ post)).
    rewrite index_cons, prefix_quote in Hnone |- *.
    destruct (ascii_dec "034" c) as [Heq | Hne]; [ discriminate Hnone | ].
    destruct (String.index 0 browser.quote v) eqn:Ev; [ discriminate Hnone | ].
    rewrite (IH eq_refl). reflexivity.
Qed.

End string_facts.

Module cookie_facts.
Import browser.
Local Open Scope string_scope.

Lemma append_assoc (a b c : string) : (a ++ b) ++ c = a ++ b ++ c.
Proof. induction a as [| x a IH]; simpl; [ reflexivity | now rewrite IH ]. Qed.

(** A key that [isValidSessionKey] accepts is not empty. *)
Lemma valid_not_empty (key : string) : isValidSessionKey key = true -> key <> "".
Proof. intros H ->. discriminate H. Qed.

Lemma longer_not_empty (key : string) (n : nat) :
  Nat.ltb n (String.length key) = true -> key <> "".
Proof. intros H ->. destruct n; discriminate H. Qed.

End cookie_facts.

(** X24.  [extractJSONValue] reads back the value of a key: in a text in
    which the first occurrence of the search text (the key between
    quotes, a colon, a quote) is followed by a value without a quote and
    then a quote, it returns that value, whatever comes before and
    after. *)
Theorem extractJSONValue_round_trip (pre key value post : string) :
  let search := (browser.quote ++ key ++ browser.quote ++ ":" ++ browser.quote)%string in
  let json := (pre ++ search ++ value ++ browser.quote ++ post)%string in
  String.index 0 search json = Some (String.length pre) ->
  String.index 0 browser.quote value = None ->
  browser.extractJSONValue json key = value.
Proof.
  intros search json Hfirst Hvalue.
  unfold browser.extractJSONValue. fold search. cbv zeta. rewrite Hfirst.
  set (rest := (value ++ browser.quote ++ post)%string).
  assert (Hjson : json = ((pre ++ search) ++ rest)%string)
    by (unfold json, rest; rewrite cookie_facts.append_assoc; reflexivity).
  assert (Hstart : (String.length pre + String.length search)%nat
                   = (String.length (pre ++ search) + 0)%nat)
    by (rewrite string_facts.length_app; lia).
  assert (Hlen : (String.length json - (String.length pre + String.length search))%nat
                 = String.length rest).
  { rewrite Hjson, !string_facts.length_app. lia. }
  rewrite Hlen, Hstart, Hjson, !string_facts.substring_skip.
  rewrite string_facts.substring_whole.
  unfold rest. rewrite (string_facts.index_quote value post Hvalue).
  cbv beta iota. rewrite string_facts.substring_skip.
  apply string_facts.substring_take.
Qed.

(** X24 at a [Local State] file of Chromium. *)
Lemma extractJSONValue_witness :
  browser.extractJSONValue
    ("{" ++ fixtures.q "os_crypt" ++ ":{"
         ++ (fixtures.q "encrypted_key" ++ ":" ++ browser.quote)
         ++ "RFBBUEkB" ++ browser.quote ++ "}}")%string
    "encrypted_key"
  = "RFBBUEkB"%string.
Proof.
  apply (extractJSONValue_round_trip
           ("{" ++ fixtures.q "os_crypt" ++ ":{")%string
           "encrypted_key" "RFBBUEkB" "}}");
    vm_compute; reflexivity.
Defined.

(** X25.  [decryptChromeValue] splits a v10 or v11 value into the prefix
    of three bytes, the nonce of twelve bytes and the ciphertext, which
    must have sixteen bytes or more, and gives the key, the nonce and the
    ciphertext to AES-GCM; the platform cipher is not used. *)
Theorem decryptChromeValue_splits_the_value
  (decryptPlatformKey : string -> string + string)
  (decryptAESGCM : string -> string -> string -> string + string)
  (prefix nonce ciphertext key : string) :
  prefix = "v10"%string \/ prefix = "v11"%string ->
  String.length nonce = 12%nat ->
  (16 <= String.length ciphertext)%nat ->
  browser.decryptChromeValue decryptPlatformKey decryptAESGCM
    (prefix ++ nonce ++ ciphertext)%string key
  = decryptAESGCM key nonce ciphertext.
Proof.
  intros Hprefix Hnonce Hct.
  unfold browser.decryptChromeValue.
  set (value := (prefix ++ nonce ++ ciphertext)%string).
  assert (Hplen : String.length prefix = 3%nat)
    by (destruct Hprefix as [-> | ->]; reflexivity).
  assert (Hlen : String.length value
                 = (3 + 12 + String.length ciphertext)%nat).
  { unfold value. rewrite !string_facts.length_app, Hplen, Hnonce. lia. }
  assert (H3 : Nat.ltb (String.length value) 3 = false)
    by (apply Nat.ltb_ge; lia).
  assert (H31 : Nat.ltb (String.length value) (3 + 12 + 16) = false)
    by (apply Nat.ltb_ge; lia).
  assert (Hp : String.substring 0 3 value = prefix).
  { unfold value. rewrite <- Hplen. apply string_facts.substring_take. }
  assert (Hn : String.substring 3 12 value = nonce).
  { transitivity (String.substring (String.length prefix + 0) (String.length nonce)
                    (prefix ++ nonce ++ ciphertext)).
    - rewrite Hplen, Hnonce. reflexivity.
    - rewrite string_facts.substring_skip. apply string_facts.substring_take. }
  assert (Hc : String.substring 15 (String.length value - 15) value = ciphertext).
  { assert (Hm : (String.length value - 15)%nat = String.length ciphertext) by lia.
    rewrite Hm.
    transitivity (String.substring (String.length prefix + (String.length nonce + 0))
                    (String.length ciphertext) (prefix ++ nonce ++ ciphertext)).
    - rewrite Hplen, Hnonce. reflexivity.
    - rewrite !string_facts.substring_skip. apply string_facts.substring_whole. }
  rewrite H3. cbv zeta. rewrite Hp, H31, Hn, Hc.
  destruct Hprefix as [-> | ->]; reflexivity.
Qed.

(** X25 at a v10 value with a nonce of twelve and a ciphertext of sixteen
    bytes, and ciphers that return what they are given. *)
Lemma decryptChromeValue_witness :
  browser.decryptChromeValue (fun v => inr v) (fun k n c => inl (n ++ "|" ++ c)%string)
    "v10ABCDEFGHIJKL0123456789abcdef" "key"
  = inl "ABCDEFGHIJKL|0123456789abcdef"%string.
Proof.
  apply (decryptChromeValue_splits_the_value (fun v => inr v)
           (fun k n c => inl (n ++ "|" ++ c)%string)
           "v10" "ABCDEFGHIJKL" "0123456789abcdef" "key").
  - left; reflexivity.
  - reflexivity.
  - simpl. lia.
Defined.

(** X26.  Whatever the two ciphers do, a key that [readCookieDB] returns
    is not empty: it passes [isValidSessionKey] or has more than twenty
    bytes; and an error that it returns is [ErrNoCookieFound] or the
    error of a decryption that failed. *)
Theorem readCookieDB_returns_plausible_keys
  (decryptPlatformKey : string -> string + string)
  (decryptAESGCM : string -> string -> string -> string + string)
  (rows : list (option browser.Row)) (encKey lastErr : option string) :
  match browser.readCookieDB_rows decryptPlatformKey decryptAESGCM rows encKey lastErr with
  | inl key =>
      key <> ""%string /\
      (browser.isValidSessionKey key = true \/ (20 < String.length key)%nat)
  | inr e =>
      e = browser.ErrNoCookieFound \/ lastErr = Some e \/
      exists row k,
        In (Some row) rows /\ encKey = Some k /\
        browser.decryptChromeValue decryptPlatformKey decryptAESGCM
          (browser.row_encrypted row) k = inr e
  end.
Proof.
  revert lastErr.
  induction rows as [| [row |] rest IH]; intros lastErr.
  - simpl. destruct lastErr as [e |]; auto.
  - assert (Hrest : forall le,
              (le = lastErr \/
               exists k e, le = Some e /\ encKey = Some k /\
                 browser.decryptChromeValue decryptPlatformKey decryptAESGCM
                   (browser.row_encrypted row) k = inr e) ->
              match browser.readCookieDB_rows decryptPlatformKey decryptAESGCM
                      rest encKey le with
              | inl key =>
                  key <> ""%string /\
                  (browser.isValidSessionKey key = true \/ (20 < String.length key)%nat)
              | inr e =>
                  e = browser.ErrNoCookieFound \/ lastErr = Some e \/
                  exists row' k,
                    In (Some row') (Some row :: rest) /\ encKey = Some k /\
                    browser.decryptChromeValue decryptPlatformKey decryptAESGCM
                      (browser.row_encrypted row') k = inr e
              end).
    { intros le Hle. specialize (IH le).
      destruct (browser.readCookieDB_rows _ _ rest encKey le) as [key | e];
        [ exact IH | ].
      destruct IH as [H | [H | (row' & k & Hin & Hk & Hd)]].
      - left; exact H.
      - destruct Hle as [-> | (k & e' & -> & Hk & Hd)].
        + right; left; exact H.
        + inversion H; subst e'. right; right. exists row, k.
          split; [ left; reflexivity | split; assumption ].
      - right; right. exists row', k. split; [ right; exact Hin | split; assumption ]. }
    simpl.
    destruct (negb (browser.row_plain row =? "")%string
              && browser.isValidSessionKey (browser.row_plain row)) eqn:Eplain.
    { apply andb_true_iff in Eplain. destruct Eplain as [_ Hv].
      split; [ apply cookie_facts.valid_not_empty; exact Hv | left; exact Hv ]. }
    destruct encKey as [k |]; [ | apply Hrest; left; reflexivity ].
    destruct (Nat.ltb 0 (String.length (browser.row_encrypted row)));
      [ | apply Hrest; left; reflexivity ].
    destruct (browser.decryptChromeValue decryptPlatformKey decryptAESGCM
                (browser.row_encrypted row) k) as [decrypted | e] eqn:Ed.
    + destruct (browser.isValidSessionKey decrypted) eqn:Ev.
      { split; [ apply cookie_facts.valid_not_empty; exact Ev | left; exact Ev ]. }
      destruct ((browser.row_name row =? "sessionKey")%string
                && Nat.ltb 20 (String.length decrypted)) eqn:En.
      { apply andb_true_iff in En. destruct En as [_ Hl].
        split; [ apply (cookie_facts.longer_not_empty _ 20); exact Hl | ].
        right. apply Nat.ltb_lt. exact Hl. }
      apply Hrest; left; reflexivity.
    + apply Hrest. right. exists k, e.
      split; [ reflexivity | split; [ reflexivity | exact Ed ] ].
  - simpl. specialize (IH lastErr).
    destruct (browser.readCookieDB_rows _ _ rest encKey lastErr) as [key | e];
      [ exact IH | ].
    destruct IH as [H | [H | (row' & k & Hin & Hk & Hd)]]; auto.
    right; right. exists row', k. split; [ right; exact Hin | split; assumption ].
Qed.

(** X27.  Without an encryption key [readCookieDB] uses no cipher: it
    returns the plain value of the first row that is read and whose plain
    value is not empty and passes [isValidSessionKey], and
    [ErrNoCookieFound] when there is none. *)
Theorem readCookieDB_without_key
  (decryptPlatformKey : string -> string + string)
  (decryptAESGCM : string -> string -> string -> string + string)
  (rows : list (option browser.Row)) :
  browser.readCookieDB_rows decryptPlatformKey decryptAESGCM rows None None
  = match
      find (fun r =>
              match r with
              | Some row =>
                  negb (browser.row_plain row =? "")%string
                  && browser.isValidSessionKey (browser.row_plain row)
              | None => false
              end) rows
    with
    | Some (Some row) => inl (browser.row_plain row)
    | _ => inr browser.ErrNoCookieFound
    end.
Proof.
  induction rows as [| [row |] rest IH]; simpl.
  - reflexivity.
  - destruct (negb (browser.row_plain row =? "")%string
              && browser.isValidSessionKey (browser.row_plain row));
      [ reflexivity | exact IH ].
  - exact IH.
Qed.

(** X28.  A cookie store whose rows are all encrypted with App-Bound
    Encryption (their values begin with v20) and carry no valid plain
    value yields the error that names this encryption, not
    [ErrNoCookieFound], when the encryption key of the browser is at
    hand, whatever the ciphers do. *)
Theorem readCookieDB_reports_app_bound_encryption
  (decryptPlatformKey : string -> string + string)
  (decryptAESGCM : string -> string -> string -> string + string)
  (rows : list (option browser.Row)) (key : string) (lastErr : option string) :
  rows <> [] ->
  Forall (fun r =>
            exists row rest,
              r = Some row /\
              browser.row_encrypted row = ("v20" ++ rest)%string /\
              browser.isValidSessionKey (browser.row_plain row) = false) rows ->
  browser.readCookieDB_rows decryptPlatformKey decryptAESGCM rows (Some key) lastErr
  = browser.decryptChromeValue decryptPlatformKey decryptAESGCM "v20" key /\
  browser.readCookieDB_rows decryptPlatformKey decryptAESGCM rows (Some key) lastErr
  <> inr browser.ErrNoCookieFound.
Proof.
  intros Hne Hall.
  assert (Hv20 : forall rest,
            browser.decryptChromeValue decryptPlatformKey decryptAESGCM
              ("v20" ++ rest)%string key
            = browser.decryptChromeValue decryptPlatformKey decryptAESGCM "v20" key)
    by (intros rest; unfold browser.decryptChromeValue; cbv zeta;
        change (String.substring 0 3 ("v20" ++ rest))
          with (String.substring 0 (String.length "v20") ("v20" ++ rest));
        rewrite string_facts.substring_take; reflexivity).
  assert (Herr : exists e,
            browser.decryptChromeValue decryptPlatformKey decryptAESGCM "v20" key = inr e
            /\ e <> browser.ErrNoCookieFound).
  { eexists. split; [ vm_compute; reflexivity | discriminate ]. }
  destruct Herr as (e & Herr & Hother).
  assert (Heq :
    browser.readCookieDB_rows decryptPlatformKey decryptAESGCM rows (Some key) lastErr
    = browser.decryptChromeValue decryptPlatformKey decryptAESGCM "v20" key).
  { revert lastErr.
    induction Hall as [| r rest (row & tl & -> & Henc & Hplain) Hall IH];
      intros lastErr; [ elim Hne; reflexivity | ].
    simpl. rewrite Hplain, andb_false_r, Henc.
    change (Nat.ltb 0 (String.length ("v20" ++ tl)%string)) with true. cbv iota.
    rewrite Hv20, Herr.
    destruct rest as [| r' rest'].
    + reflexivity.
    + rewrite <- Herr. apply IH. discriminate. }
  split; [ exact Heq | ].
  rewrite Heq, Herr. intros H. inversion H. contradiction.
Qed.

(** X28 at a store with one cookie of Chrome 127 or later. *)
Lemma readCookieDB_app_bound_witness :
  browser.readCookieDB_rows (fun v => inl v) (fun _ _ c => inl c)
    [Some {| browser.row_name := "sessionKey"%string;
             browser.row_encrypted := "v20abcdefghijklmnopqrstuvwxyz0123456789"%string;
             browser.row_plain := ""%string |}]
    (Some "key"%string) None
  <> inr browser.ErrNoCookieFound.
Proof.
  apply (readCookieDB_reports_app_bound_encryption (fun v => inl v) (fun _ _ c => inl c)
           [Some {| browser.row_name := "sessionKey"%string;
                    browser.row_encrypted := "v20abcdefghijklmnopqrstuvwxyz0123456789"%string;
                    browser.row_plain := ""%string |}]
           "key"%string None).
  - discriminate.
  - constructor; [ | constructor ].
    eexists. exists "abcdefghijklmnopqrstuvwxyz0123456789"%string.
    split; [ reflexivity | split; reflexivity ].
Defined.

(** X29.  [ExtractSessionKey] never returns an empty key without an
    error: it returns the key of the first Chromium browser, in the order
    of the list, whose directory exists and whose extraction yields a key
    that is not empty, else such a key of Firefox; and when there is none
    its error is [ErrNoCookieFound], whatever the errors of the browsers
    were. *)
Theorem ExtractSessionKey_first_key_or_no_cookie
  (browsers : list (option (string + string))) (firefox : string + string) :
  let found (b : option (string + string)) :=
    match b with
    | Some (inl key) => negb (key =? "")%string
    | _ => false
    end in
  browser.ExtractSessionKey_from browsers firefox
  = match find found (browsers ++ [Some firefox]) with
    | Some (Some (inl key)) => inl key
    | _ => inr browser.ErrNoCookieFound
    end /\
  match browser.ExtractSessionKey_from browsers firefox with
  | inl key => key <> ""%string
  | inr e => e = browser.ErrNoCookieFound
  end.
Proof.
  intros found.
  assert (Heq : browser.ExtractSessionKey_from browsers firefox
                = match find found (browsers ++ [Some firefox]) with
                  | Some (Some (inl key)) => inl key
                  | _ => inr browser.ErrNoCookieFound
                  end).
  { induction browsers as [| [[key | e] |] rest IH]; simpl.
    - destruct firefox as [key | e]; simpl; [ | reflexivity ].
      destruct (negb (key =? "")%string); reflexivity.
    - destruct (negb (key =? "")%string); [ reflexivity | exact IH ].
    - exact IH.
    - exact IH. }
  split; [ exact Heq | ].
  rewrite Heq.
  destruct (find found (browsers ++ [Some firefox])) as [[[key | e] |] |] eqn:Efind;
    try reflexivity.
  apply find_some in Efind. destruct Efind as [_ Hfound]. simpl in Hfound.
  intros ->. discriminate Hfound.
Qed.

(** X30.  [ToggleStat] flips what [IsStatVisible] answers for the stat
    that it names and for no other.  A name that is none of the four is
    always visible, whatever the settings are, and toggling it changes no
    setting; and toggling the same stat twice gives back the settings. *)
Theorem ToggleStat_flips_the_named_stat (v : stats.VisibleStats)
  (statType other : string) :
  let known (name : string) :=
    existsb (String.eqb name) ["session"; "daily"; "weekly"; "reset"]%string in
  stats.IsStatVisible (stats.ToggleStat_switch statType v) other
  = (if (statType =? other)%string && known statType
     then negb (stats.IsStatVisible v other)
     else stats.IsStatVisible v other) /\
  (known other = false -> stats.IsStatVisible v other = true) /\
  (known statType = false -> stats.ToggleStat_switch statType v = v) /\
  stats.ToggleStat_switch statType (stats.ToggleStat_switch statType v) = v.
Proof.
  intros known. subst known. cbv beta.
  assert (Hdefault : existsb (String.eqb other)
                       ["session"; "daily"; "weekly"; "reset"]%string = false ->
                     stats.IsStatVisible v other = true).
  { simpl existsb. unfold stats.IsStatVisible.
    destruct (other =? "session")%string; [ discriminate | ].
    destruct (other =? "daily")%string; [ discriminate | ].
    destruct (other =? "weekly")%string; [ discriminate | ].
    destruct (other =? "reset")%string; [ discriminate | reflexivity ]. }
  assert (Hsame : existsb (String.eqb statType)
                    ["session"; "daily"; "weekly"; "reset"]%string = false ->
                  stats.ToggleStat_switch statType v = v).
  { simpl existsb. unfold stats.ToggleStat_switch.
    destruct (statType =? "session")%string; [ discriminate | ].
    destruct (statType =? "daily")%string; [ discriminate | ].
    destruct (statType =? "weekly")%string; [ discriminate | ].
    destruct (statType =? "reset")%string; [ discriminate | reflexivity ]. }
  split; [ | split; [ exact Hdefault | split; [ exact Hsame | ] ] ];
    clear Hdefault Hsame; destruct v as [s d w r];
    unfold stats.ToggleStat_switch, stats.IsStatVisible; simpl existsb.
  - destruct (String.eqb_spec statType other) as [<- | Hne].
    + destruct (statType =? "session")%string eqn:E1; [ reflexivity | ].
      destruct (statType =? "daily")%string eqn:E2; [ reflexivity | ].
      destruct (statType =? "weekly")%string eqn:E3; [ reflexivity | ].
      destruct (statType =? "reset")%string eqn:E4; reflexivity.
    + cbv beta iota. change (false && _) with false. cbv iota.
      destruct (String.eqb_spec statType "session") as [-> | N1].
      { assert (E : (other =? "session")%string = false)
          by (apply String.eqb_neq; congruence).
        simpl. rewrite E. reflexivity. }
      destruct (String.eqb_spec statType "daily") as [-> | N2].
      { assert (E : (other =? "daily")%string = false)
          by (apply String.eqb_neq; congruence).
        simpl. rewrite E. reflexivity. }
      destruct (String.eqb_spec statType "weekly") as [-> | N3].
      { assert (E : (other =? "weekly")%string = false)
          by (apply String.eqb_neq; congruence).
        simpl. rewrite E. reflexivity. }
      destruct (String.eqb_spec statType "reset") as [-> | N4].
      { assert (E : (other =? "reset")%string = false)
          by (apply String.eqb_neq; congruence).
        simpl. rewrite E. reflexivity. }
      reflexivity.
  - destruct (statType =? "session")%string eqn:E1;
      [ simpl; rewrite negb_involutive; reflexivity | ].
    destruct (statType =? "daily")%string eqn:E2;
      [ simpl; rewrite negb_involutive; reflexivity | ].
    destruct (statType =? "weekly")%string eqn:E3;
      [ simpl; rewrite negb_involutive; reflexivity | ].
    destruct (statType =? "reset")%string eqn:E4;
      [ simpl; rewrite negb_involutive; reflexivity | reflexivity ].
Qed.